(** * Emoseum AI: gallery records, their completion state machine and the
      webhook that mirrors them to the Emoseum server

    A shallow embedding of
      - [src/managers/gallery_manager.py] ([GalleryItem], [GalleryManager]),
      - [src/services/emoseum_webhook.py] ([EmoseumWebhookService]),
    followed by the properties of the journey-record specification that
    are stated about them.

    Layout: Python values and exceptions, the environment the code runs in
    (MongoDB collection, image directory, asyncio loop, clock), one module
    per Python class, then the lemmas. *)

From Stdlib Require Import String Ascii List ZArith NArith Lia Bool.
From Stdlib Require Import Strings.Byte Floats.SpecFloat DecimalString.
From Stdlib Require Import Sorting.Sorted.
Import ListNotations.
Open Scope string_scope.

(* ================================================================== *)
(** * Python values *)
(* ================================================================== *)

(** The values that travel through the manager: what a caller passes,
    what a BSON document holds and what a JSON body decodes to.  A [dict]
    keeps its insertion order, as in Python and in BSON, and has string
    keys.  Floats are IEEE values ([spec_float]); the code only carries
    them around. *)
#[local] Unset Elimination Schemes.
Inductive PyVal : Type :=
| VNone
| VBool (b : bool)
| VInt (z : Z)
| VFloat (f : spec_float)
| VStr (s : string)
| VList (l : list PyVal)
| VTuple (l : list PyVal)
| VDict (d : list (string * PyVal)).
#[local] Set Elimination Schemes.

Definition dict := list (string * PyVal).

(** [bool(v)]. *)
Definition truthy (v : PyVal) : bool :=
  match v with
  | VNone => false
  | VBool b => b
  | VInt z => negb (z =? 0)%Z
  | VFloat (S754_zero _) => false
  | VFloat _ => true
  | VStr s => negb (s =? "")
  | VList l | VTuple l => negb (Nat.eqb (length l) 0)
  | VDict d => negb (Nat.eqb (length d) 0)
  end.

(** [a or b] and [a and b]: the operand that decides, not a boolean. *)
Definition py_or (a b : PyVal) : PyVal := if truthy a then a else b.
Definition py_and (a b : PyVal) : PyVal := if truthy a then b else a.

(** [isinstance(v, dict)]. *)
Definition isinstance_dict (v : PyVal) : bool :=
  match v with VDict _ => true | _ => false end.

(** First binding of [k]. *)
Fixpoint dict_get (k : string) (d : dict) : option PyVal :=
  match d with
  | [] => None
  | (k', v) :: d' => if k' =? k then Some v else dict_get k d'
  end.

(** [d.get(k, default)]. *)
Definition get_default (d : dict) (k : string) (default : PyVal) : PyVal :=
  match dict_get k d with Some v => v | None => default end.

(** [d[k] = v]: an existing key keeps its position, a new key goes last. *)
Fixpoint dict_set (k : string) (v : PyVal) (d : dict) : dict :=
  match d with
  | [] => [(k, v)]
  | (k', v') :: d' =>
      if k' =? k then (k', v) :: d' else (k', v') :: dict_set k v d'
  end.

Definition spec_float_eqb (x y : spec_float) : bool :=
  match x, y with
  | S754_zero a, S754_zero b => Bool.eqb a b
  | S754_infinity a, S754_infinity b => Bool.eqb a b
  | S754_nan, S754_nan => true
  | S754_finite a m e, S754_finite b n f =>
      Bool.eqb a b && Pos.eqb m n && Z.eqb e f
  | _, _ => false
  end.

(** Structural equality, the comparison by which the store decides
    whether a [$set] changed a field. *)
Fixpoint pyval_eqb (a b : PyVal) {struct a} : bool :=
  match a, b with
  | VNone, VNone => true
  | VBool x, VBool y => Bool.eqb x y
  | VInt x, VInt y => Z.eqb x y
  | VFloat x, VFloat y => spec_float_eqb x y
  | VStr x, VStr y => String.eqb x y
  | VList x, VList y =>
      (fix go (l1 l2 : list PyVal) : bool :=
         match l1, l2 with
         | [], [] => true
         | h1 :: t1, h2 :: t2 => pyval_eqb h1 h2 && go t1 t2
         | _, _ => false
         end) x y
  | VTuple x, VTuple y =>
      (fix go (l1 l2 : list PyVal) : bool :=
         match l1, l2 with
         | [], [] => true
         | h1 :: t1, h2 :: t2 => pyval_eqb h1 h2 && go t1 t2
         | _, _ => false
         end) x y
  | VDict x, VDict y =>
      (fix go (l1 l2 : dict) : bool :=
         match l1, l2 with
         | [], [] => true
         | (k1, v1) :: t1, (k2, v2) :: t2 =>
             String.eqb k1 k2 && pyval_eqb v1 v2 && go t1 t2
         | _, _ => false
         end) x y
  | _, _ => false
  end.

Fixpoint dict_eqb (l1 l2 : dict) : bool :=
  match l1, l2 with
  | [], [] => true
  | (k1, v1) :: t1, (k2, v2) :: t2 =>
      String.eqb k1 k2 && pyval_eqb v1 v2 && dict_eqb t1 t2
  | _, _ => false
  end.

(** What a value looks like once it has been through BSON: a tuple is
    stored as an array and read back as a list. *)
Fixpoint to_bson (v : PyVal) : PyVal :=
  match v with
  | VList l => VList (map to_bson l)
  | VTuple l => VList (map to_bson l)
  | VDict d => VDict (map (fun kv => (fst kv, to_bson (snd kv))) d)
  | _ => v
  end.

(* ================================================================== *)
(** * Exceptions *)
(* ================================================================== *)

(** The exception classes the modelled code can meet.  All of them derive
    from [Exception]. *)
Inductive exn_class : Type :=
| AttributeError      (* a method looked up on a value that lacks it *)
| TypeError           (* [list(v)] / [tuple(v)] on a non-iterable *)
| OSError             (* [Image.save] could not write *)
| RuntimeError        (* [asyncio.create_task] without a running loop *)
| InvalidId           (* [ObjectId(s)] on a string that is not an id *)
| DuplicateKeyError   (* unique index violated on insert *)
| ConnectionFailure   (* the driver could not reach the server *)
| TimeoutError        (* [asyncio.TimeoutError] *)
| ClientError         (* aiohttp transport error *)
| DecodeError.        (* the response body is not JSON *)

Record exn : Type := Exn { exn_cls : exn_class; exn_msg : string }.

Inductive result (A : Type) : Type :=
| Ok (a : A)
| Raise (e : exn).
Arguments Ok {A} a.
Arguments Raise {A} e.

Definition is_timeout (e : exn) : bool :=
  match exn_cls e with TimeoutError => true | _ => false end.

(** [v.get(k, default)] on an arbitrary value: only a dict has [get]. *)
Definition py_get (v : PyVal) (k : string) (default : PyVal) : result PyVal :=
  match v with
  | VDict d => Ok (get_default d k default)
  | _ => Raise (Exn AttributeError "object has no attribute 'get'")
  end.

(** The elements [list(v)] and [tuple(v)] iterate over. *)
Definition py_iter (v : PyVal) : result (list PyVal) :=
  match v with
  | VList l | VTuple l => Ok l
  | VStr s => Ok (map (fun c => VStr (String c "")) (list_ascii_of_string s))
  | VDict d => Ok (map (fun kv => VStr (fst kv)) d)
  | _ => Raise (Exn TypeError "object is not iterable")
  end.

(** [list(v)]. *)
Definition py_list (v : PyVal) : result PyVal :=
  match py_iter v with Ok l => Ok (VList l) | Raise e => Raise e end.

(** [tuple(v)]. *)
Definition py_tuple (v : PyVal) : result PyVal :=
  match py_iter v with Ok l => Ok (VTuple l) | Raise e => Raise e end.

(** [len(v)] of a sequence value; 0 for values without a length. *)
Definition py_len (v : PyVal) : nat :=
  match v with
  | VList l | VTuple l => length l
  | VDict d => length d
  | VStr s => String.length s
  | _ => 0
  end.

(* ================================================================== *)
(** * The environment: clock, paths, object ids *)
(* ================================================================== *)

(** A reading of [datetime.now()]. *)
Record datetime : Type := {
  year : N; month : N; day : N;
  hour : N; minute : N; second : N; microsecond : N
}.

Definition decimal (n : N) : string := NilEmpty.string_of_uint (N.to_uint n).

Fixpoint zeros (k : nat) : string :=
  match k with O => "" | S k' => String "0" (zeros k') end.

(** [n] in decimal, left-padded with zeros to [width] characters. *)
Definition pad (width : nat) (n : N) : string :=
  let s := decimal n in zeros (width - String.length s) ++ s.

(** [t.strftime("%Y%m%d_%H%M%S")]. *)
Definition strftime_Ymd_HMS (t : datetime) : string :=
  pad 4 (year t) ++ pad 2 (month t) ++ pad 2 (day t) ++ "_" ++
  pad 2 (hour t) ++ pad 2 (minute t) ++ pad 2 (second t).

(** [t.isoformat()]: the fraction is printed only when it is not zero. *)
Definition isoformat (t : datetime) : string :=
  pad 4 (year t) ++ "-" ++ pad 2 (month t) ++ "-" ++ pad 2 (day t) ++ "T" ++
  pad 2 (hour t) ++ ":" ++ pad 2 (minute t) ++ ":" ++ pad 2 (second t) ++
  (if (microsecond t =? 0)%N then "" else "." ++ pad 6 (microsecond t)).

(** ** [pathlib] paths (POSIX flavour) *)

(** A path is a root flag and its components; empty components and ["."]
    are dropped when a string is parsed, as [PurePosixPath] does (a root
    written with two slashes is read as the plain root). *)
Record Path : Type := { absolute : bool; parts : list string }.

(** Components of [s] between slashes; [cur] is the component being read,
    last character first. *)
Fixpoint split_slash (s : string) (cur : list ascii) : list string :=
  match s with
  | EmptyString => [string_of_list_ascii (rev cur)]
  | String c s' =>
      if Ascii.eqb c "/" then string_of_list_ascii (rev cur) :: split_slash s' []
      else split_slash s' (c :: cur)
  end.

Definition keep_part (p : string) : bool := negb (p =? "") && negb (p =? ".").

Definition starts_with_slash (s : string) : bool :=
  match s with String c _ => Ascii.eqb c "/" | EmptyString => false end.

(** [Path(s)]. *)
Definition Path_of (s : string) : Path :=
  {| absolute := starts_with_slash s;
     parts := filter keep_part (split_slash s []) |}.

(** [p / s]: an absolute right operand replaces the left one. *)
Definition path_div (p : Path) (s : string) : Path :=
  let q := Path_of s in
  if absolute q then q
  else {| absolute := absolute p; parts := parts p ++ parts q |}.

(** [str(p)]. *)
Definition path_str (p : Path) : string :=
  if absolute p then "/" ++ String.concat "/" (parts p)
  else match parts p with
       | [] => "."
       | _ => String.concat "/" (parts p)
       end.

(** ** BSON object ids *)

(** The twelve bytes of an [ObjectId]. *)
Definition ObjectId := list byte.

Definition hex_digit (n : N) : ascii :=
  match String.get (N.to_nat n) "0123456789abcdef" with
  | Some c => c
  | None => "0"%char
  end.

Definition hex_value (c : ascii) : option N :=
  let n := N_of_ascii c in
  if ((48 <=? n) && (n <=? 57))%N then Some (n - 48)%N
  else if ((97 <=? n) && (n <=? 102))%N then Some (n - 87)%N
  else if ((65 <=? n) && (n <=? 70))%N then Some (n - 55)%N
  else None.

Definition is_hex (c : ascii) : bool :=
  match hex_value c with Some _ => true | None => false end.

Definition hex_of_byte (b : byte) : string :=
  let n := Byte.to_N b in
  String (hex_digit (n / 16)) (String (hex_digit (n mod 16)) "").

(** [str(oid)]: lower-case hexadecimal, two characters a byte. *)
Fixpoint ObjectId_str (o : ObjectId) : string :=
  match o with
  | [] => ""
  | b :: o' => hex_of_byte b ++ ObjectId_str o'
  end.

Fixpoint bytes_fromhex (s : string) : option (list byte) :=
  match s with
  | EmptyString => Some []
  | String c1 (String c2 s') =>
      match hex_value c1, hex_value c2, bytes_fromhex s' with
      | Some h, Some l, Some bs =>
          match Byte.of_N (16 * h + l) with
          | Some b => Some (b :: bs)
          | None => None
          end
      | _, _, _ => None
      end
  | String _ EmptyString => None
  end.

(** [ObjectId(s)] for a string: 24 hexadecimal characters, in either case,
    or [InvalidId]. *)
Definition ObjectId_of_str (s : string) : result ObjectId :=
  if Nat.eqb (String.length s) 24 then
    match bytes_fromhex s with
    | Some bs => Ok bs
    | None => Raise (Exn InvalidId "not a valid ObjectId")
    end
  else Raise (Exn InvalidId "not a valid ObjectId").

Fixpoint oid_eqb (a b : ObjectId) : bool :=
  match a, b with
  | [], [] => true
  | x :: a', y :: b' => Byte.eqb x y && oid_eqb a' b'
  | _, _ => false
  end.

(* ================================================================== *)
(** * src/services/emoseum_webhook.py *)
(* ================================================================== *)

(** [s.rstrip('/')]. *)
Fixpoint drop_slashes (l : list ascii) : list ascii :=
  match l with
  | c :: l' => if Ascii.eqb c "/" then drop_slashes l' else l
  | [] => []
  end.

Definition rstrip_slash (s : string) : string :=
  string_of_list_ascii (rev (drop_slashes (rev (list_ascii_of_string s)))).

(** What the network gives back to one [session.post]: a response, whose
    body may or may not decode, or an exception raised by aiohttp (a
    timeout, a refused connection, ...). *)
Record HttpResponse : Type := {
  status : N;
  json_body : result PyVal;     (* outcome of [await response.json()] *)
  text_body : result string     (* outcome of [await response.text()] *)
}.

Inductive PostOutcome : Type :=
| Responded (r : HttpResponse)
| Failed (e : exn).

Record Request : Type := {
  req_url : string;
  req_json : dict;
  req_content_type : string;
  req_timeout_total : N
}.

Definition Network := Request -> PostOutcome.

Module EmoseumWebhookService.

Record t : Type := { emoseum_server_url : string }.

(** [__init__]. *)
Definition init (emoseum_server_url : string) : t :=
  {| emoseum_server_url := rstrip_slash emoseum_server_url |}.

(** [if v: payload[k] = v]. *)
Definition add_if (k : string) (v : PyVal) (payload : dict) : dict :=
  if truthy v then dict_set k v payload else payload.

Definition build_payload (now : datetime)
    (diary_id emotion_keywords artwork_title guided_question
     vad_scores user_id : PyVal) : dict :=
  let payload :=
    [("diary_id", diary_id); ("updated_at", VStr (isoformat now))] in
  let payload := add_if "keywords" emotion_keywords payload in
  let payload := add_if "title" artwork_title payload in
  let payload := add_if "guided_question" guided_question payload in
  let payload := add_if "vad_scores" vad_scores payload in
  add_if "user_id" user_id payload.

(** The body of the [try] block. *)
Definition post_update (self : t) (net : Network) (now : datetime)
    (diary_id emotion_keywords artwork_title guided_question
     vad_scores user_id : PyVal) : result dict :=
  let webhook_url :=
    emoseum_server_url self ++ "/api/ai/webhook/gallery-update" in
  let payload :=
    build_payload now diary_id emotion_keywords artwork_title
                  guided_question vad_scores user_id in
  match net {| req_url := webhook_url;
               req_json := payload;
               req_content_type := "application/json";
               req_timeout_total := 10 |} with
  | Failed e => Raise e
  | Responded response =>
      if (status response =? 200)%N then
        match json_body response with
        | Raise e => Raise e
        | Ok result =>
            Ok [("success", VBool true);
                ("message", VStr "Gallery item updated successfully");
                ("data", result)]
        end
      else
        match text_body response with
        | Raise e => Raise e
        | Ok error_text =>
            Ok [("success", VBool false);
                ("error", VStr ("HTTP " ++ decimal (status response)
                                 ++ ": " ++ error_text));
                ("retry_recommended", VBool true)]
        end
  end.

(** [send_gallery_item_update]: the [try] block and its two handlers. *)
Definition send_gallery_item_update (self : t) (net : Network)
    (now : datetime)
    (diary_id emotion_keywords artwork_title guided_question
     vad_scores user_id : PyVal) : result dict :=
  match post_update self net now diary_id emotion_keywords artwork_title
                    guided_question vad_scores user_id with
  | Ok d => Ok d
  | Raise e =>
      if is_timeout e then
        Ok [("success", VBool false);
            ("error", VStr "Request timeout");
            ("retry_recommended", VBool true)]
      else
        Ok [("success", VBool false);
            ("error", VStr (exn_msg e));
            ("retry_recommended", VBool true)]
  end.

End EmoseumWebhookService.

(* ================================================================== *)
(** * The world the manager acts on *)
(* ================================================================== *)

(** A decoded [PIL.Image.Image]; the manager never looks inside. *)
Record Image : Type := {
  img_mode : string;
  img_size : N * N;
  img_data : list byte
}.

(** What a caller may hand over as [reflection_image]. *)
Inductive ImageArg : Type :=
| PILImage (img : Image)
| NotAnImage (v : PyVal).

(** A document of the [gallery_items] collection.  The manager never
    supplies [_id], so it is always the [ObjectId] the driver generated. *)
Record StoredDoc : Type := { doc_id : ObjectId; doc_fields : dict }.

(** A coroutine handed to [asyncio.create_task]. *)
Inductive Task : Type :=
| update_emotion_data_task
    (webhook_service : EmoseumWebhookService.t) (diary_id : string)
    (emotion_keywords : PyVal) (vad_scores : PyVal)
| update_docent_data_task
    (webhook_service : EmoseumWebhookService.t) (item_id : string).

Record World : Type := {
  gallery_items : list StoredDoc;      (* the collection, in natural order *)
  image_files : list (string * Image); (* files written under images_dir *)
  io_faults : list bool;               (* outcome of the next I/O calls:
                                          [true] = the call raises *)
  loop_running : bool;                 (* is an asyncio loop running? *)
  scheduled : list Task                (* tasks created and not awaited *)
}.

Definition with_items (ds : list StoredDoc) (w : World) : World :=
  {| gallery_items := ds; image_files := image_files w;
     io_faults := io_faults w; loop_running := loop_running w;
     scheduled := scheduled w |}.

Definition with_files (fs : list (string * Image)) (w : World) : World :=
  {| gallery_items := gallery_items w; image_files := fs;
     io_faults := io_faults w; loop_running := loop_running w;
     scheduled := scheduled w |}.

Definition with_faults (fl : list bool) (w : World) : World :=
  {| gallery_items := gallery_items w; image_files := image_files w;
     io_faults := fl; loop_running := loop_running w;
     scheduled := scheduled w |}.

Definition with_scheduled (ts : list Task) (w : World) : World :=
  {| gallery_items := gallery_items w; image_files := image_files w;
     io_faults := io_faults w; loop_running := loop_running w;
     scheduled := ts |}.

(** ** Computations that read and change the world and may raise *)

(** The world is kept when an exception is raised: what was written
    before the [raise] stays written. *)
Definition M (A : Type) : Type := World -> result A * World.

Definition ret {A} (a : A) : M A := fun w => (Ok a, w).

Definition raise {A} (e : exn) : M A := fun w => (Raise e, w).

Definition bind {A B} (m : M A) (k : A -> M B) : M B :=
  fun w => match m w with
           | (Ok a, w') => k a w'
           | (Raise e, w') => (Raise e, w')
           end.

Definition lift {A} (r : result A) : M A := fun w => (r, w).

(** [try: m  except Exception as e: h e]. *)
Definition try_except {A} (m : M A) (h : exn -> M A) : M A :=
  fun w => match m w with
           | (Ok a, w') => (Ok a, w')
           | (Raise e, w') => h e w'
           end.

Declare Scope py_scope.
Delimit Scope py_scope with py.
Notation "x <- m ;; k" := (bind m (fun x => k))
  (at level 100, m at next level, right associativity) : py_scope.
Notation "m ;;; k" := (bind m (fun _ => k))
  (at level 100, right associativity) : py_scope.
Open Scope py_scope.

(** One call that leaves the process.  The head of [io_faults] says
    whether it raises; an exhausted list means no more faults. *)
Definition io_call {A} (cls : exn_class) (act : M A) : M A :=
  fun w => match io_faults w with
           | true :: fl => (Raise (Exn cls "I/O failure"), with_faults fl w)
           | false :: fl => act (with_faults fl w)
           | [] => act w
           end.

(** ** The [gallery_items] collection (pymongo) *)

Inductive Filter : Type :=
| by_id (o : ObjectId)                 (* [{"_id": o}] *)
| by_field (k : string) (v : PyVal).   (* [{k: v}] *)

Definition option_eqb (a b : option PyVal) : bool :=
  match a, b with
  | Some x, Some y => pyval_eqb x y
  | None, None => true
  | _, _ => false
  end.

Definition matches (f : Filter) (d : StoredDoc) : bool :=
  match f with
  | by_id o => oid_eqb (doc_id d) o
  | by_field k v => option_eqb (dict_get k (doc_fields d)) (Some v)
  end.

Definition bson_doc (d : dict) : dict :=
  map (fun kv => (fst kv, to_bson (snd kv))) d.

(** The unique indexes: [_id], and [item_id] as [_ensure_indexes]
    declares it. *)
Definition violates_unique (new_id : ObjectId) (doc : dict)
    (ds : list StoredDoc) : bool :=
  existsb (fun d => oid_eqb (doc_id d) new_id
                    || option_eqb (dict_get "item_id" (doc_fields d))
                                  (dict_get "item_id" doc)) ds.

(** [collection.insert_one(doc)]; [new_id] is the id the driver
    generates for the document.  Returns [inserted_id]. *)
Definition insert_one (new_id : ObjectId) (doc : dict) : M ObjectId :=
  io_call ConnectionFailure (fun w =>
    let doc := bson_doc doc in
    if violates_unique new_id doc (gallery_items w) then
      (Raise (Exn DuplicateKeyError "E11000 duplicate key error"), w)
    else
      (Ok new_id,
       with_items (gallery_items w
                   ++ [{| doc_id := new_id; doc_fields := doc |}]) w)).

(** [collection.find_one(filter)]. *)
Definition find_one (f : Filter) : M (option StoredDoc) :=
  io_call ConnectionFailure (fun w => (Ok (find (matches f) (gallery_items w)), w)).

Record UpdateResult : Type := { matched_count : N; modified_count : N }.

(** [{"$set": sets}] applied to the fields of one document. *)
Definition apply_set (sets : dict) (fields : dict) : dict :=
  fold_left (fun acc kv => dict_set (fst kv) (to_bson (snd kv)) acc)
            sets fields.

(** The first document that matches is rewritten; it counts as modified
    only if the rewrite changed it. *)
Fixpoint update_first (f : Filter) (sets : dict) (ds : list StoredDoc)
    : list StoredDoc * UpdateResult :=
  match ds with
  | [] => ([], {| matched_count := 0; modified_count := 0 |})
  | d :: ds' =>
      if matches f d then
        let fields' := apply_set sets (doc_fields d) in
        ({| doc_id := doc_id d; doc_fields := fields' |} :: ds',
         {| matched_count := 1;
            modified_count :=
              if dict_eqb fields' (doc_fields d) then 0 else 1 |})
      else
        let (ds'', r) := update_first f sets ds' in (d :: ds'', r)
  end.

(** [collection.update_one(filter, {"$set": sets})]. *)
Definition update_one (f : Filter) (sets : dict) : M UpdateResult :=
  io_call ConnectionFailure (fun w =>
    let (ds, r) := update_first f sets (gallery_items w) in
    (Ok r, with_items ds w)).

(** [image.save(path)]. *)
Definition Image_save (reflection_image : ImageArg) (path : string) : M unit :=
  match reflection_image with
  | NotAnImage _ =>
      raise (Exn AttributeError "object has no attribute 'save'")
  | PILImage img =>
      io_call OSError (fun w =>
        (Ok tt, with_files (image_files w ++ [(path, img)]) w))
  end.

(** [asyncio.create_task(coro)]. *)
Definition create_task (t : Task) : M unit :=
  fun w => if loop_running w
           then (Ok tt, with_scheduled (scheduled w ++ [t]) w)
           else (Raise (Exn RuntimeError "no running event loop"), w).

(** ** Queries over several documents *)

(** The query [get_user_gallery] builds: the owner, and bounds on
    [created_date] when given ([$gte], [$lte]). *)
Record Query : Type := {
  q_user_id : string;
  q_date_gte : option string;
  q_date_lte : option string
}.

(** A bound holds of a stored value only if that value is a string;
    strings compare byte by byte. *)
Definition date_in_range (gte lte : option string) (v : option PyVal) : bool :=
  match gte, lte with
  | None, None => true
  | _, _ =>
      match v with
      | Some (VStr s) =>
          (match gte with Some lo => String.leb lo s | None => true end)
          && (match lte with Some hi => String.leb s hi | None => true end)
      | _ => false
      end
  end.

Definition matches_query (q : Query) (d : StoredDoc) : bool :=
  option_eqb (dict_get "user_id" (doc_fields d)) (Some (VStr (q_user_id q)))
  && date_in_range (q_date_gte q) (q_date_lte q)
       (dict_get "created_date" (doc_fields d)).

(** [x] is strictly later than [d].  Only strings are ordered among
    themselves: the manager stores nothing else under [created_date]. *)
Definition date_gt (x d : StoredDoc) : bool :=
  match dict_get "created_date" (doc_fields x),
        dict_get "created_date" (doc_fields d) with
  | Some (VStr a), Some (VStr b) => String.ltb b a
  | _, _ => false
  end.

Fixpoint insert_desc (d : StoredDoc) (l : list StoredDoc) : list StoredDoc :=
  match l with
  | [] => [d]
  | x :: l' => if date_gt x d then x :: insert_desc d l' else d :: l
  end.

(** [.sort("created_date", -1)]: latest first; documents with the same
    date stay in natural order. *)
Definition sort_desc (l : list StoredDoc) : list StoredDoc :=
  fold_right insert_desc [] l.

(** [.limit(n)]: 0 means no limit, a negative number asks for that many
    in one batch. *)
Definition cursor_limit {A} (limit : Z) (l : list A) : list A :=
  if (limit =? 0)%Z then l else firstn (Z.abs_nat limit) l.

(** [find(q).sort("created_date", -1).skip(offset).limit(limit)], read to
    the end.  [offset] is not negative here: [skip] refuses a negative
    number before anything is sent. *)
Definition find_sorted (q : Query) (offset : nat) (limit : Z)
    : M (list StoredDoc) :=
  io_call ConnectionFailure (fun w =>
    (Ok (cursor_limit limit
           (skipn offset (sort_desc (filter (matches_query q)
                                            (gallery_items w))))), w)).

(** [{k1: v1, ...}]: every field equals the given value. *)
Definition matches_all (conds : dict) (d : StoredDoc) : bool :=
  forallb (fun kv => option_eqb (dict_get (fst kv) (doc_fields d))
                                (Some (snd kv))) conds.

(** [collection.count_documents(conds)]. *)
Definition count_documents (conds : dict) : M Z :=
  io_call ConnectionFailure (fun w =>
    (Ok (Z.of_nat (length (filter (matches_all conds) (gallery_items w)))), w)).

(** [int(z)] as a binary64 float and [a / b] on integers, exact below
    2^53. *)
Definition float_of_Z (z : Z) : spec_float := binary_normalize 53 1024 z 0 false.

Definition truediv (a b : Z) : spec_float :=
  SFdiv 53 1024 (float_of_Z a) (float_of_Z b).

Definition one_float : spec_float := float_of_Z 1.

(* ================================================================== *)
(** * src/managers/gallery_manager.py: [class GalleryItem] *)
(* ================================================================== *)

Module GalleryItem.

(** The attributes [__init__] sets.  Python does not check the
    annotations, so an attribute holds whatever value was passed. *)
Record t : Type := {
  item_id : string;
  user_id : PyVal;
  diary_text : PyVal;
  emotion_keywords : PyVal;
  vad_scores : PyVal;
  reflection_prompt : PyVal;
  reflection_image_path : PyVal;
  artwork_title : PyVal;
  docent_message : PyVal;
  message_reactions : PyVal;
  guided_question : PyVal;
  created_date : PyVal;
  coping_style : PyVal;
  diary_id : PyVal;
  gpt_prompt_used : PyVal;
  gpt_prompt_tokens : PyVal;
  gpt_docent_used : PyVal;
  gpt_docent_tokens : PyVal;
  prompt_generation_time : PyVal;
  prompt_generation_method : PyVal;
  docent_generation_method : PyVal
}.

(** [__init__]; [now] is the clock, read when [created_date] is empty. *)
Definition init (now : datetime) (item_id : string)
    (user_id diary_text emotion_keywords vad_scores reflection_prompt
     reflection_image_path artwork_title docent_message message_reactions
     guided_question created_date coping_style gpt_prompt_used
     gpt_prompt_tokens gpt_docent_used gpt_docent_tokens
     prompt_generation_time prompt_generation_method
     docent_generation_method diary_id : PyVal) : t :=
  {| item_id := item_id;
     user_id := user_id;
     diary_text := diary_text;
     emotion_keywords := emotion_keywords;
     vad_scores := vad_scores;
     reflection_prompt := reflection_prompt;
     reflection_image_path := reflection_image_path;
     artwork_title := artwork_title;
     docent_message := py_or docent_message (VDict []);
     message_reactions := py_or message_reactions (VList []);
     guided_question := guided_question;
     created_date := py_or created_date (VStr (isoformat now));
     coping_style := coping_style;
     diary_id := diary_id;
     gpt_prompt_used := gpt_prompt_used;
     gpt_prompt_tokens := gpt_prompt_tokens;
     gpt_docent_used := gpt_docent_used;
     gpt_docent_tokens := gpt_docent_tokens;
     prompt_generation_time := prompt_generation_time;
     prompt_generation_method := prompt_generation_method;
     docent_generation_method := docent_generation_method |}.

(** The dict [get_completion_status] returns has four fixed keys. *)
Record CompletionStatus : Type := {
  st_reflection : bool;
  st_artwork_title : bool;
  st_docent_message : bool;
  st_completed : bool
}.

(** [self.docent_message and isinstance(self.docent_message, dict)
     and self.docent_message]. *)
Definition docent_present (self : t) : PyVal :=
  py_and (py_and (docent_message self)
                 (VBool (isinstance_dict (docent_message self))))
         (docent_message self).

Definition get_completion_status (self : t) : CompletionStatus :=
  {| st_reflection := truthy (reflection_image_path self);
     st_artwork_title := truthy (artwork_title self);
     st_docent_message := truthy (docent_present self);
     st_completed := truthy (docent_present self) |}.

Definition get_next_step (self : t) : string :=
  let status := get_completion_status self in
  if negb (st_reflection status) then "reflection"
  else if negb (st_artwork_title status) then "artwork_title"
  else if negb (st_docent_message status) then "docent_message"
  else "completed".

(** [to_dict]. *)
Definition to_dict (self : t) : dict :=
  [ ("item_id", VStr (item_id self));
    ("user_id", user_id self);
    ("diary_text", diary_text self);
    ("emotion_keywords", emotion_keywords self);
    ("vad_scores", vad_scores self);
    ("reflection_prompt", reflection_prompt self);
    ("reflection_image_path", reflection_image_path self);
    ("artwork_title", artwork_title self);
    ("docent_message", docent_message self);
    ("message_reactions", message_reactions self);
    ("guided_question", guided_question self);
    ("created_date", created_date self);
    ("coping_style", coping_style self);
    ("diary_id", diary_id self);
    ("gpt_prompt_used", gpt_prompt_used self);
    ("gpt_prompt_tokens", gpt_prompt_tokens self);
    ("gpt_docent_used", gpt_docent_used self);
    ("gpt_docent_tokens", gpt_docent_tokens self);
    ("prompt_generation_time", prompt_generation_time self);
    ("prompt_generation_method", prompt_generation_method self);
    ("docent_generation_method", docent_generation_method self) ].

Section Usage.

(** Python's [+] on two values. *)
Variable py_add : PyVal -> PyVal -> result PyVal.

(** [get_gpt_usage_summary]; it raises what the addition raises. *)
Definition get_gpt_usage_summary (self : t) : result dict :=
  match py_add (gpt_prompt_tokens self) (gpt_docent_tokens self) with
  | Raise e => Raise e
  | Ok total =>
      Ok [ ("total_tokens", total);
           ("prompt_tokens", gpt_prompt_tokens self);
           ("docent_tokens", gpt_docent_tokens self);
           ("prompt_method", prompt_generation_method self);
           ("docent_method", docent_generation_method self);
           ("generation_time", prompt_generation_time self);
           ("fully_gpt_generated",
            py_and (gpt_prompt_used self) (gpt_docent_used self)) ]
  end.

End Usage.

End GalleryItem.

(* ================================================================== *)
(** * The completion state machine, in the words of the specification *)
(* ================================================================== *)

(** The four values of [nextStep]. *)
Inductive Step : Type := reflection | title | review | completed.

(** The string by which the code names each step: the [title] and
    [review] stages are called after the attribute they fill. *)
Definition step_label (s : Step) : string :=
  match s with
  | reflection => "reflection"
  | title => "artwork_title"
  | review => "docent_message"
  | completed => "completed"
  end.

(** "if imageReference empty -> reflection; else if title empty -> title;
     else if reviewMessage empty -> review; else -> completed". *)
Definition nextStep (imageReference_empty title_empty reviewMessage_empty : bool)
    : Step :=
  if imageReference_empty then reflection
  else if title_empty then title
  else if reviewMessage_empty then review
  else completed.

(** A field is empty when it holds the empty string, the empty dict,
    or nothing. *)
Definition empty (v : PyVal) : bool := negb (truthy v).


(* ================================================================== *)
(** * src/managers/gallery_manager.py: [class GalleryManager] *)
(* ================================================================== *)

Definition py_str_opt (s : option string) : PyVal :=
  match s with Some x => VStr x | None => VNone end.

Definition zero_float : PyVal := VFloat (S754_zero false).

Module GalleryManager.

(** The collection handles live in the [World]; the object itself only
    keeps the image directory. *)
Record t : Type := { images_dir : Path }.

(** [__init__]. *)
Definition init (images_dir : string) : t :=
  {| images_dir := Path_of images_dir |}.

(** [_doc_to_gallery_item]. *)
Definition _doc_to_gallery_item (now : datetime) (doc : StoredDoc)
    : result GalleryItem.t :=
  let d := doc_fields doc in
  match py_tuple (get_default d "vad_scores"
                    (VList [zero_float; zero_float; zero_float])) with
  | Raise e => Raise e
  | Ok vad_scores =>
      Ok (GalleryItem.init now
            (ObjectId_str (doc_id doc))
            (get_default d "user_id" (VStr ""))
            (get_default d "diary_text" (VStr ""))
            (get_default d "emotion_keywords" (VList []))
            vad_scores
            (get_default d "reflection_prompt" (VStr ""))
            (get_default d "reflection_image_path" (VStr ""))
            (get_default d "artwork_title" (VStr ""))
            (get_default d "docent_message" (VDict []))
            (get_default d "message_reactions" (VList []))
            (get_default d "guided_question" (VStr ""))
            (get_default d "created_date" (VStr ""))
            (get_default d "coping_style" (VStr "balanced"))
            (get_default d "gpt_prompt_used" (VBool true))
            (get_default d "gpt_prompt_tokens" (VInt 0))
            (get_default d "gpt_docent_used" (VBool true))
            (get_default d "gpt_docent_tokens" (VInt 0))
            (get_default d "prompt_generation_time" zero_float)
            (get_default d "prompt_generation_method" (VStr "gpt"))
            (get_default d "docent_generation_method" (VStr "gpt"))
            (get_default d "diary_id" VNone))
  end.

(** The document [create_gallery_item] builds. *)
Definition item_doc (item_id user_id diary_text : string)
    (emotion_keywords : list string) (vad_list : PyVal)
    (reflection_prompt reflection_path created_date coping_style : string)
    (diary_id : option string) (gpt_prompt_tokens : Z)
    (prompt_generation_time : spec_float) : dict :=
  [ ("item_id", VStr item_id);
    ("user_id", VStr user_id);
    ("diary_text", VStr diary_text);
    ("emotion_keywords", VList (map VStr emotion_keywords));
    ("vad_scores", vad_list);
    ("reflection_prompt", VStr reflection_prompt);
    ("reflection_image_path", VStr reflection_path);
    ("artwork_title", VStr "");
    ("docent_message", VDict []);
    ("message_reactions", VList []);
    ("guided_question", VStr "");
    ("created_date", VStr created_date);
    ("coping_style", VStr coping_style);
    ("diary_id", py_str_opt diary_id);
    ("gpt_prompt_used", VBool true);
    ("gpt_prompt_tokens", VInt gpt_prompt_tokens);
    ("gpt_docent_used", VBool true);
    ("gpt_docent_tokens", VInt 0);
    ("prompt_generation_time", VFloat prompt_generation_time);
    ("prompt_generation_method", VStr "gpt");
    ("docent_generation_method", VStr "gpt") ].

Definition reflection_path_of (self : t) (user_id : string) (t1 : datetime)
    : Path :=
  let timestamp := strftime_Ymd_HMS t1 in
  let reflection_filename := user_id ++ "_" ++ timestamp ++ "_reflection.png" in
  path_div (path_div (images_dir self) "reflection") reflection_filename.

(** [create_gallery_item].  [t1] and [t2] are the two readings of
    [datetime.now()], [new_id] the [_id] the driver generates. *)
Definition create_gallery_item (self : t) (t1 t2 : datetime)
    (new_id : ObjectId)
    (user_id diary_text : string) (emotion_keywords : list string)
    (vad_scores : PyVal) (reflection_prompt : string)
    (reflection_image : ImageArg) (coping_style : string)
    (gpt_prompt_tokens : Z) (prompt_generation_time : spec_float)
    (diary_id : option string)
    (emoseum_webhook_service : option EmoseumWebhookService.t)
    : M string :=
  let reflection_path := reflection_path_of self user_id t1 in
  (Image_save reflection_image (path_str reflection_path) ;;;
   let now := t2 in
   let timestamp := strftime_Ymd_HMS now in
   let item_id := user_id ++ "-" ++ timestamp in
   (vad_list <- lift (py_list vad_scores) ;;
    let doc :=
      item_doc item_id user_id diary_text emotion_keywords vad_list
               reflection_prompt (path_str reflection_path)
               (isoformat now) coping_style diary_id gpt_prompt_tokens
               prompt_generation_time in
    try_except
      (result <- insert_one new_id doc ;;
       let mongo_id := ObjectId_str result in
       ((match emoseum_webhook_service, diary_id with
         | Some svc, Some did =>
             if negb (did =? "") then
               (vad_list' <- lift (py_list vad_scores) ;;
                create_task
                  (update_emotion_data_task svc did
                     (VList (map VStr emotion_keywords)) vad_list'))
             else ret tt
         | _, _ => ret tt
         end) ;;;
        ret item_id))
      (fun e => raise e))).

(** [complete_artwork_title]. *)
Definition complete_artwork_title (self : t)
    (item_id artwork_title guided_question : string)
    (emoseum_webhook_service : option EmoseumWebhookService.t) : M bool :=
  try_except
    (result <- update_one (by_field "item_id" (VStr item_id))
                 [("artwork_title", VStr artwork_title);
                  ("guided_question", VStr guided_question)] ;;
     let success := (0 <? modified_count result)%N in
     ret success)
    (fun _ => ret false).

(** [metadata.get("token_usage", {}).get("total_tokens", 0)] after
    [docent_message.get("metadata", {})]. *)
Definition docent_tokens (docent_message : PyVal) : result PyVal :=
  match py_get docent_message "metadata" (VDict []) with
  | Raise e => Raise e
  | Ok metadata =>
      match py_get metadata "token_usage" (VDict []) with
      | Raise e => Raise e
      | Ok token_usage => py_get token_usage "total_tokens" (VInt 0)
      end
  end.

(** [add_docent_message]. *)
Definition add_docent_message (self : t) (item_id : string)
    (docent_message : PyVal)
    (emoseum_webhook_service : option EmoseumWebhookService.t) : M bool :=
  try_except
    (gpt_docent_tokens <- lift (docent_tokens docent_message) ;;
     (result <- update_one (by_field "item_id" (VStr item_id))
                  [("docent_message", docent_message);
                   ("gpt_docent_tokens", gpt_docent_tokens)] ;;
      let success := (0 <? modified_count result)%N in
      ((if success then
          match emoseum_webhook_service with
          | Some svc => create_task (update_docent_data_task svc item_id)
          | None => ret tt
          end
        else ret tt) ;;;
       ret success)))
    (fun _ => ret false).

(** [get_gallery_item].  The inner [try] yields the item it returned,
    if it returned one; its bare [except] swallows everything else. *)
Definition get_gallery_item (self : t) (now : datetime) (item_id : string)
    : M (option GalleryItem.t) :=
  try_except
    (returned <-
       try_except
         (oid <- lift (ObjectId_of_str item_id) ;;
          (doc <- find_one (by_id oid) ;;
           match doc with
           | Some d =>
               (r <- lift (_doc_to_gallery_item now d) ;; ret (Some r))
           | None => ret None
           end))
         (fun _ => ret None) ;;
     match returned with
     | Some r => ret (Some r)
     | None =>
         (doc <- find_one (by_field "item_id" (VStr item_id)) ;;
          match doc with
          | None => ret None
          | Some d =>
              (r <- lift (_doc_to_gallery_item now d) ;; ret (Some r))
          end)
     end)
    (fun _ => ret None).

(** [_update_emotion_data_async]: the result is only logged. *)
Definition _update_emotion_data_async (self : t) (net : Network)
    (now : datetime) (webhook_service : EmoseumWebhookService.t)
    (diary_id : string) (emotion_keywords vad_scores : PyVal) : M unit :=
  try_except
    (lift (EmoseumWebhookService.send_gallery_item_update
             webhook_service net now (VStr diary_id) emotion_keywords
             VNone VNone vad_scores VNone) ;;;
     ret tt)
    (fun _ => ret tt).

(** [_update_docent_data_async]. *)
Definition _update_docent_data_async (self : t) (net : Network)
    (now : datetime) (webhook_service : EmoseumWebhookService.t)
    (item_id : string) : M unit :=
  try_except
    (gallery_item <- find_one (by_field "item_id" (VStr item_id)) ;;
     match gallery_item with
     | Some g =>
         let d := doc_fields g in
         if truthy (get_default d "diary_id" VNone) then
           (lift (EmoseumWebhookService.send_gallery_item_update
                    webhook_service net now
                    (get_default d "diary_id" VNone)
                    (get_default d "emotion_keywords" (VList []))
                    (get_default d "artwork_title" (VStr ""))
                    (get_default d "guided_question" (VStr ""))
                    (get_default d "vad_scores"
                       (VList [VInt 0; VInt 0; VInt 0]))
                    VNone) ;;;
            ret tt)
         else ret tt
     | None => ret tt
     end)
    (fun _ => ret tt).

(** What the event loop does with a scheduled task. *)
Definition run_task (self : t) (net : Network) (now : datetime)
    (task : Task) : M unit :=
  match task with
  | update_emotion_data_task svc diary_id kw vad =>
      _update_emotion_data_async self net now svc diary_id kw vad
  | update_docent_data_task svc item_id =>
      _update_docent_data_async self net now svc item_id
  end.

(** [_update_artwork_title_async]. *)
Definition _update_artwork_title_async (self : t) (net : Network)
    (now : datetime) (webhook_service : EmoseumWebhookService.t)
    (item_id artwork_title : string) : M unit :=
  try_except
    (gallery_item <- find_one (by_field "item_id" (VStr item_id)) ;;
     match gallery_item with
     | Some g =>
         let d := doc_fields g in
         if truthy (get_default d "diary_id" VNone) then
           (lift (EmoseumWebhookService.send_gallery_item_update
                    webhook_service net now
                    (get_default d "diary_id" VNone)
                    VNone (VStr artwork_title) VNone VNone VNone) ;;;
            ret tt)
         else ret tt
     | None => ret tt
     end)
    (fun _ => ret tt).

(** The documents of a cursor, converted in turn; [clock n] is the
    reading of the clock available to the [n]-th conversion. *)
Fixpoint convert_all (clock : nat -> datetime) (n : nat)
    (ds : list StoredDoc) : result (list GalleryItem.t) :=
  match ds with
  | [] => Ok []
  | d :: ds' =>
      match _doc_to_gallery_item (clock n) d with
      | Raise e => Raise e
      | Ok r =>
          match convert_all clock (S n) ds' with
          | Raise e => Raise e
          | Ok rs => Ok (r :: rs)
          end
      end
  end.

(** [date_from or date_to], and each bound kept only if it is not empty. *)
Definition date_bound (date : option string) : option string :=
  match date with
  | Some s => if negb (s =? "") then Some s else None
  | None => None
  end.

(** [get_user_gallery].  A negative [offset] makes [skip] raise
    [ValueError] while the cursor is built; the handler turns that, like
    every other exception, into the empty list. *)
Definition get_user_gallery (self : t) (clock : nat -> datetime)
    (user_id : string) (limit offset : Z) (date_from date_to : option string)
    : M (list GalleryItem.t) :=
  let query := {| q_user_id := user_id;
                  q_date_gte := date_bound date_from;
                  q_date_lte := date_bound date_to |} in
  if (offset <? 0)%Z then ret []
  else
    try_except
      (cursor <- find_sorted query (Z.to_nat offset) limit ;;
       lift (convert_all clock 0 cursor))
      (fun _ => ret []).

(** [get_system_status]. *)
Definition get_system_status (self : t) : M dict :=
  try_except
    (total_items <- count_documents [] ;;
     (fully_gpt_items <-
        count_documents [("gpt_prompt_used", VBool true);
                         ("gpt_docent_used", VBool true)] ;;
      ret [ ("database_ready", VBool true);
            ("mongodb_migration_complete", VBool true);
            ("total_items", VInt total_items);
            ("gpt_adoption_rate",
             VFloat (if (total_items >? 0)%Z
                     then truediv fully_gpt_items total_items
                     else one_float));
            ("supports_gpt_metadata", VBool true);
            ("fallback_systems", VBool false) ]))
    (fun e => ret [ ("database_ready", VBool false);
                    ("error", VStr (exn_msg e)) ]).

End GalleryManager.

(* ================================================================== *)
(** * Vocabulary of the statements *)
(* ================================================================== *)

(** "vadScore must be exactly 3 floats". *)
Definition three_floats (v : PyVal) : bool :=
  match v with
  | VTuple [VFloat _; VFloat _; VFloat _] => true
  | VList [VFloat _; VFloat _; VFloat _] => true
  | _ => false
  end.

(** [v] iterates over exactly three elements. *)
Definition three_elements (v : PyVal) : bool :=
  match py_iter v with
  | Ok l => Nat.eqb (length l) 3
  | Raise _ => false
  end.

(** [create_gallery_item] is asked to notify the Emoseum server. *)
Definition wants_sync (svc : option EmoseumWebhookService.t)
    (diary_id : option string) : bool :=
  match svc, diary_id with
  | Some _, Some d => negb (d =? "")
  | _, _ => false
  end.

(** The identifier [create_gallery_item] hands out. *)
Definition readable_id (user_id : string) (t2 : datetime) : string :=
  user_id ++ "-" ++ strftime_Ymd_HMS t2.

(** The document [create_gallery_item] inserts, as the store keeps it. *)
Definition created_doc (self : GalleryManager.t) (t1 t2 : datetime)
    (new_id : ObjectId) (user_id diary_text : string)
    (emotion_keywords : list string) (vad_list : list PyVal)
    (reflection_prompt coping_style : string) (gpt_prompt_tokens : Z)
    (prompt_generation_time : spec_float) (diary_id : option string)
    : StoredDoc :=
  {| doc_id := new_id;
     doc_fields :=
       bson_doc
         (GalleryManager.item_doc (readable_id user_id t2) user_id diary_text
            emotion_keywords (VList vad_list) reflection_prompt
            (path_str (GalleryManager.reflection_path_of self user_id t1))
            (isoformat t2) coping_style diary_id gpt_prompt_tokens
            prompt_generation_time) |}.

(** The record that reading this document gives. *)
Definition created_item (self : GalleryManager.t) (t1 t2 : datetime)
    (new_id : ObjectId) (user_id diary_text : string)
    (emotion_keywords : list string) (vad_list : list PyVal)
    (reflection_prompt coping_style : string) (gpt_prompt_tokens : Z)
    (prompt_generation_time : spec_float) (diary_id : option string)
    (now : datetime) : GalleryItem.t :=
  GalleryItem.init now (ObjectId_str new_id)
    (VStr user_id) (VStr diary_text) (VList (map VStr emotion_keywords))
    (VTuple (map to_bson vad_list)) (VStr reflection_prompt)
    (VStr (path_str (GalleryManager.reflection_path_of self user_id t1)))
    (VStr "") (VDict []) (VList []) (VStr "") (VStr (isoformat t2))
    (VStr coping_style) (VBool true) (VInt gpt_prompt_tokens) (VBool true)
    (VInt 0) (VFloat prompt_generation_time) (VStr "gpt") (VStr "gpt")
    (py_str_opt diary_id).

(** The readable id stored in a document. *)
Definition item_key (d : StoredDoc) : option PyVal :=
  dict_get "item_id" (doc_fields d).

(** The record a document reads as, when its [vad_scores] can be
    iterated. *)
Definition read_doc (now : datetime) (d : StoredDoc) : GalleryItem.t :=
  match GalleryManager._doc_to_gallery_item now d with
  | Ok r => r
  | Raise _ =>
      GalleryItem.init now (ObjectId_str (doc_id d)) VNone VNone VNone VNone
        VNone VNone VNone VNone VNone VNone VNone VNone VNone VNone VNone
        VNone VNone VNone VNone VNone
  end.

(** [a] was created no earlier than [b], by their [created_date]
    strings. *)
Definition later_or_equal (a b : GalleryItem.t) : Prop :=
  exists x y, GalleryItem.created_date a = VStr x /\
              GalleryItem.created_date b = VStr y /\
              String.leb y x = true.

(** The query of [get_user_gallery]. *)
Definition gallery_query (user_id : string) (date_from date_to : option string)
    : Query :=
  {| q_user_id := user_id;
     q_date_gte := GalleryManager.date_bound date_from;
     q_date_lte := GalleryManager.date_bound date_to |}.

(** [b] is not strictly later than [a]. *)
Definition not_earlier (a b : StoredDoc) : Prop := date_gt b a = false.

(** The documents a cursor yields for a query. *)
Definition cursor_docs (q : Query) (offset : nat) (limit : Z)
    (ds : list StoredDoc) : list StoredDoc :=
  cursor_limit limit (skipn offset (sort_desc (filter (matches_query q) ds))).

(** No two documents share an [_id] or an [item_id]. *)
Definition keys_unique (ds : list StoredDoc) : Prop :=
  NoDup (map doc_id ds) /\ NoDup (map item_key ds).

(** The four fields the stage completions write. *)
Definition mutable_key (k : string) : bool :=
  (k =? "artwork_title") || (k =? "guided_question")
  || (k =? "docent_message") || (k =? "gpt_docent_tokens").

(** A document without those four fields: its key and everything that
    was fixed when it was created. *)
Definition immutable_part (d : StoredDoc) : ObjectId * dict :=
  (doc_id d, filter (fun kv => negb (mutable_key (fst kv))) (doc_fields d)).

(** The document carries a string [user_id], a non-empty [created_date]
    string and both GPT flags, as [create_gallery_item] writes them. *)
Definition stamped (d : StoredDoc) : bool :=
  match dict_get "user_id" (doc_fields d) with
  | Some (VStr _) => true
  | _ => false
  end
  && match dict_get "created_date" (doc_fields d) with
     | Some (VStr s) => negb (s =? "")
     | _ => false
     end
  && option_eqb (dict_get "gpt_prompt_used" (doc_fields d)) (Some (VBool true))
  && option_eqb (dict_get "gpt_docent_used" (doc_fields d)) (Some (VBool true)).

(** A record with its title and guided question replaced. *)
Definition with_title (title question : PyVal) (r : GalleryItem.t)
    : GalleryItem.t :=
  {| GalleryItem.item_id := GalleryItem.item_id r;
     GalleryItem.user_id := GalleryItem.user_id r;
     GalleryItem.diary_text := GalleryItem.diary_text r;
     GalleryItem.emotion_keywords := GalleryItem.emotion_keywords r;
     GalleryItem.vad_scores := GalleryItem.vad_scores r;
     GalleryItem.reflection_prompt := GalleryItem.reflection_prompt r;
     GalleryItem.reflection_image_path := GalleryItem.reflection_image_path r;
     GalleryItem.artwork_title := title;
     GalleryItem.docent_message := GalleryItem.docent_message r;
     GalleryItem.message_reactions := GalleryItem.message_reactions r;
     GalleryItem.guided_question := question;
     GalleryItem.created_date := GalleryItem.created_date r;
     GalleryItem.coping_style := GalleryItem.coping_style r;
     GalleryItem.diary_id := GalleryItem.diary_id r;
     GalleryItem.gpt_prompt_used := GalleryItem.gpt_prompt_used r;
     GalleryItem.gpt_prompt_tokens := GalleryItem.gpt_prompt_tokens r;
     GalleryItem.gpt_docent_used := GalleryItem.gpt_docent_used r;
     GalleryItem.gpt_docent_tokens := GalleryItem.gpt_docent_tokens r;
     GalleryItem.prompt_generation_time := GalleryItem.prompt_generation_time r;
     GalleryItem.prompt_generation_method :=
       GalleryItem.prompt_generation_method r;
     GalleryItem.docent_generation_method :=
       GalleryItem.docent_generation_method r |}.

(** The stored [vad_scores] of a document is absent or a 3-element array. *)
Definition vad3 (d : StoredDoc) : bool :=
  match dict_get "vad_scores" (doc_fields d) with
  | None => true
  | Some (VList l) => Nat.eqb (length l) 3
  | Some _ => false
  end.

(** The calls a client can make on the manager. *)
Inductive Call : Type :=
| call_create (t1 t2 : datetime) (new_id : ObjectId)
    (user_id diary_text : string) (emotion_keywords : list string)
    (vad_scores : PyVal) (reflection_prompt : string)
    (reflection_image : ImageArg) (coping_style : string)
    (gpt_prompt_tokens : Z) (prompt_generation_time : spec_float)
    (diary_id : option string)
    (emoseum_webhook_service : option EmoseumWebhookService.t)
| call_title (item_id artwork_title guided_question : string)
    (emoseum_webhook_service : option EmoseumWebhookService.t)
| call_docent (item_id : string) (docent_message : PyVal)
    (emoseum_webhook_service : option EmoseumWebhookService.t)
| call_get (now : datetime) (item_id : string)
| call_task (net : Network) (now : datetime) (task : Task).

(** The world after one call, whatever it returned or raised. *)
Definition run_call (self : GalleryManager.t) (c : Call) (w : World) : World :=
  match c with
  | call_create t1 t2 new_id user_id diary_text emotion_keywords vad_scores
      reflection_prompt reflection_image coping_style gpt_prompt_tokens
      prompt_generation_time diary_id svc =>
      snd (GalleryManager.create_gallery_item self t1 t2 new_id user_id
             diary_text emotion_keywords vad_scores reflection_prompt
             reflection_image coping_style gpt_prompt_tokens
             prompt_generation_time diary_id svc w)
  | call_title item_id artwork_title guided_question svc =>
      snd (GalleryManager.complete_artwork_title self item_id artwork_title
             guided_question svc w)
  | call_docent item_id docent_message svc =>
      snd (GalleryManager.add_docent_message self item_id docent_message svc w)
  | call_get now item_id =>
      snd (GalleryManager.get_gallery_item self now item_id w)
  | call_task net now task =>
      snd (GalleryManager.run_task self net now task w)
  end.

Definition run_calls (self : GalleryManager.t) (cs : list Call) (w : World)
    : World :=
  fold_left (fun w c => run_call self c w) cs w.

(** Every creation among the calls was given three VAD scores. *)
Definition create_has_three (c : Call) : bool :=
  match c with
  | call_create _ _ _ _ _ _ vad_scores _ _ _ _ _ _ _ => three_elements vad_scores
  | _ => true
  end.

(** "try exact primary-key parse; on parse failure or miss, fall back to a
     secondary-index query", both as optional results. *)
Definition to_item (now : datetime) (d : option StoredDoc)
    : option GalleryItem.t :=
  match d with
  | Some doc =>
      match GalleryManager._doc_to_gallery_item now doc with
      | Ok r => Some r
      | Raise _ => None
      end
  | None => None
  end.

Definition lookup_primary (now : datetime) (ds : list StoredDoc)
    (item_id : string) : option GalleryItem.t :=
  match ObjectId_of_str item_id with
  | Ok oid => to_item now (find (matches (by_id oid)) ds)
  | Raise _ => None
  end.

Definition lookup_secondary (now : datetime) (ds : list StoredDoc)
    (item_id : string) : option GalleryItem.t :=
  to_item now (find (matches (by_field "item_id" (VStr item_id))) ds).

Definition GetRecord (now : datetime) (ds : list StoredDoc)
    (item_id : string) : option GalleryItem.t :=
  match lookup_primary now ds item_id with
  | Some r => Some r
  | None => lookup_secondary now ds item_id
  end.

(* ================================================================== *)
(** * Sample data: the scenario of the specification *)
(* ================================================================== *)

Module Sample.

Definition t0 : datetime :=
  {| year := 2025; month := 3; day := 7;
     hour := 9; minute := 5; second := 1; microsecond := 0 |}.

Definition oid : ObjectId :=
  [x65; xe0; x1a; x2b; x3c; x4d; x5e; x6f; x70; x81; x92; xa3]%byte.

Definition mgr : GalleryManager.t := GalleryManager.init "data/gallery_images".

Definition img : Image :=
  {| img_mode := "RGB"; img_size := (1, 1)%N; img_data := [x00; x00; x00]%byte |}.

Definition svc : EmoseumWebhookService.t :=
  EmoseumWebhookService.init "http://localhost:3000/".

(** An empty store, no fault ahead, a running event loop. *)
Definition world0 : World :=
  {| gallery_items := []; image_files := []; io_faults := [];
     loop_running := true; scheduled := [] |}.

(** 0.2, -0.1 and 0.5 as binary64 values. *)
Definition f_0_2 : PyVal := VFloat (S754_finite false 3602879701896397 (-54)).
Definition f_m0_1 : PyVal := VFloat (S754_finite true 3602879701896397 (-55)).
Definition f_0_5 : PyVal := VFloat (S754_finite false 4503599627370496 (-53)).

Definition vad : PyVal := VTuple [f_0_2; f_m0_1; f_0_5].
Definition short_vad : PyVal := VTuple [f_0_2; f_m0_1].

Definition create (vad_scores : PyVal) (image : ImageArg) : M string :=
  GalleryManager.create_gallery_item mgr t0 t0 oid "u1" "a quiet day"
    ["calm"; "tired"] vad_scores "a calm lake at dawn" image "balanced"
    120 (S754_zero false) (Some "diary-7") (Some svc).

Definition item_id : string := "u1-20250307_090501".

(** After [CreateRecord]. *)
Definition world1 : World := snd (create vad (PILImage img) world0).

(** After [CompleteTitle(id, "Quiet Morning", "What made this moment calm?")]. *)
Definition world2 : World :=
  snd (GalleryManager.complete_artwork_title mgr item_id "Quiet Morning"
         "What made this moment calm?" (Some svc) world1).

Definition review : dict :=
  [("content", VStr "...");
   ("metadata", VDict [("token_usage", VDict [("total_tokens", VInt 42)])])].

(** After [CompleteReview]. *)
Definition world3 : World :=
  snd (GalleryManager.add_docent_message mgr item_id (VDict review)
         (Some svc) world2).

(** The record as [get_gallery_item] returns it after creation. *)
Definition item1 : GalleryItem.t :=
  GalleryItem.init t0 "65e01a2b3c4d5e6f708192a3"
    (VStr "u1") (VStr "a quiet day") (VList [VStr "calm"; VStr "tired"])
    vad (VStr "a calm lake at dawn")
    (VStr "data/gallery_images/reflection/u1_20250307_090501_reflection.png")
    (VStr "") (VDict []) (VList []) (VStr "") (VStr "2025-03-07T09:05:01")
    (VStr "balanced") (VBool true) (VInt 120) (VBool true) (VInt 0)
    zero_float (VStr "gpt") (VStr "gpt") (VStr "diary-7").

(** The first document of the collection. *)
Definition stored (w : World) : StoredDoc :=
  match gallery_items w with
  | d :: _ => d
  | [] => {| doc_id := []; doc_fields := [] |}
  end.

(** A record that skipped the title: the state after creation. *)
Definition doc1 : StoredDoc := stored world1.
Definition doc2 : StoredDoc := stored world2.
Definition doc3 : StoredDoc := stored world3.

(** The record read back at the end of the scenario. *)
Definition item3 : GalleryItem.t :=
  match GalleryManager._doc_to_gallery_item t0 doc3 with
  | Ok r => r
  | Raise _ => item1
  end.

(** The three calls of the scenario. *)
Definition calls : list Call :=
  [ call_create t0 t0 oid "u1" "a quiet day" ["calm"; "tired"] vad
      "a calm lake at dawn" (PILImage img) "balanced" 120 (S754_zero false)
      (Some "diary-7") (Some svc);
    call_title item_id "Quiet Morning" "What made this moment calm?" (Some svc);
    call_docent item_id (VDict review) (Some svc) ].

(** The world after a creation with two VAD scores. *)
Definition world_short : World :=
  snd (create short_vad (PILImage img) world0).

(** An empty store reached from synchronous code: no event loop. *)
Definition world_noloop : World :=
  {| gallery_items := []; image_files := []; io_faults := [];
     loop_running := false; scheduled := [] |}.

(** A record created from synchronous code, without a sync. *)
Definition world_noloop1 : World :=
  snd (GalleryManager.create_gallery_item mgr t0 t0 oid "u1" "a quiet day"
         ["calm"; "tired"] vad "a calm lake at dawn" (PILImage img)
         "balanced" 120 (S754_zero false) None None world_noloop).

(** Python's [+], as far as the token counts need it. *)
Definition add_ints (a b : PyVal) : result PyVal :=
  match a, b with
  | VInt x, VInt y => Ok (VInt (x + y))
  | _, _ => Raise (Exn TypeError "unsupported operand type(s) for +")
  end.

(** A second record of the same user the next evening, then one of
    another user. *)
Definition t1 : datetime :=
  {| year := 2025; month := 3; day := 8;
     hour := 21; minute := 30; second := 0; microsecond := 0 |}.

Definition oid2 : ObjectId :=
  [x65; xe0; x1a; x2b; x3c; x4d; x5e; x6f; x70; x81; x92; xa4]%byte.

Definition oid3 : ObjectId :=
  [x65; xe0; x1a; x2b; x3c; x4d; x5e; x6f; x70; x81; x92; xa5]%byte.

Definition world4 : World :=
  snd (GalleryManager.create_gallery_item mgr t1 t1 oid2 "u1" "rain all day"
         ["gloomy"] vad "rain on a window" (PILImage img)
         "balanced" 90 (S754_zero false) None None world3).

Definition world5 : World :=
  snd (GalleryManager.create_gallery_item mgr t1 t1 oid3 "u2" "a long walk"
         ["content"] vad "a path through pines" (PILImage img)
         "balanced" 75 (S754_zero false) None None world4).

(** Calls made on [world4]: a creation for ["u1"] in the second of the
    first record, which the unique index refuses; a creation for ["u2"];
    and a title for the second record. *)
Definition calls2 : list Call :=
  [ call_create t0 t0 oid3 "u1" "a second look" ["calm"] vad
      "the same lake" (PILImage img) "balanced" 60 (S754_zero false)
      None None;
    call_create t1 t1 oid3 "u2" "a long walk" ["content"] vad
      "a path through pines" (PILImage img) "balanced" 75 (S754_zero false)
      None None;
    call_title "u1-20250308_213000" "Rain" "What did the rain bring?" None ].

(** A clock that has stopped. *)
Definition clock : nat -> datetime := fun _ => t1.

(** What a listing of ["u1"] returns. *)
Definition page (limit offset : Z) (date_from date_to : option string)
    (w : World) : list GalleryItem.t :=
  match fst (GalleryManager.get_user_gallery mgr clock "u1" limit offset
               date_from date_to w) with
  | Ok rs => rs
  | Raise _ => []
  end.

(** A document written by another program, with scores that cannot be
    iterated. *)
Definition foreign_doc : StoredDoc :=
  {| doc_id := oid3;
     doc_fields := [("user_id", VStr "u1"); ("vad_scores", VInt 0)] |}.

Definition world_foreign : World :=
  with_items (gallery_items world4 ++ [foreign_doc]) world4.

(** An endpoint that answers every request with HTTP 500. *)
Definition net500 : Network :=
  fun _ => Responded {| status := 500;
                        json_body := Raise (Exn DecodeError "not JSON");
                        text_body := Ok "Internal Server Error" |}.

(** An endpoint that answers 200 with a JSON body. *)
Definition net200 : Network :=
  fun _ => Responded {| status := 200;
                        json_body := Ok (VDict [("ok", VBool true)]);
                        text_body := Ok "{ok: true}" |}.

End Sample.

(* ================================================================== *)
(** * Properties *)
(* ================================================================== *)

(** ** Values: induction and equality *)

Section PyVal_induction.
Variable P : PyVal -> Prop.
Hypothesis HNone : P VNone.
Hypothesis HBool : forall b, P (VBool b).
Hypothesis HInt : forall z, P (VInt z).
Hypothesis HFloat : forall f, P (VFloat f).
Hypothesis HStr : forall s, P (VStr s).
Hypothesis HList : forall l, Forall P l -> P (VList l).
Hypothesis HTuple : forall l, Forall P l -> P (VTuple l).
Hypothesis HDict : forall d, Forall (fun kv => P (snd kv)) d -> P (VDict d).

Fixpoint PyVal_ind (v : PyVal) : P v :=
  match v with
  | VNone => HNone
  | VBool b => HBool b
  | VInt z => HInt z
  | VFloat f => HFloat f
  | VStr s => HStr s
  | VList l =>
      HList l ((fix all (l : list PyVal) : Forall P l :=
                  match l with
                  | [] => Forall_nil _
                  | x :: l' => Forall_cons x (PyVal_ind x) (all l')
                  end) l)
  | VTuple l =>
      HTuple l ((fix all (l : list PyVal) : Forall P l :=
                   match l with
                   | [] => Forall_nil _
                   | x :: l' => Forall_cons x (PyVal_ind x) (all l')
                   end) l)
  | VDict d =>
      HDict d ((fix all (d : dict) : Forall (fun kv => P (snd kv)) d :=
                  match d with
                  | [] => Forall_nil _
                  | kv :: d' => Forall_cons kv (PyVal_ind (snd kv)) (all d')
                  end) d)
  end.
End PyVal_induction.

Lemma spec_float_eqb_eq (x y : spec_float) :
  spec_float_eqb x y = true <-> x = y.
Proof.
  destruct x, y; simpl; try (split; [discriminate | congruence]).
  - rewrite Bool.eqb_true_iff. split; congruence.
  - rewrite Bool.eqb_true_iff. split; congruence.
  - split; reflexivity.
  - rewrite !andb_true_iff, Bool.eqb_true_iff, Pos.eqb_eq, Z.eqb_eq. split.
    + intros [[-> ->] ->]; reflexivity.
    + intros H; inversion H; auto.
Qed.

(** The comparison on lists that [pyval_eqb] unfolds to. *)
Lemma list_eqb_eq (l1 : list PyVal) :
  Forall (fun a => forall b, pyval_eqb a b = true <-> a = b) l1 ->
  forall l2,
    (fix go (l1 l2 : list PyVal) : bool :=
       match l1, l2 with
       | [], [] => true
       | h1 :: t1, h2 :: t2 => pyval_eqb h1 h2 && go t1 t2
       | _, _ => false
       end) l1 l2 = true <-> l1 = l2.
Proof.
  induction 1 as [|a l1 Ha _ IH]; intros [|b l2];
    try (split; [discriminate | congruence]).
  - split; reflexivity.
  - rewrite andb_true_iff, Ha, IH. split.
    + intros [-> ->]; reflexivity.
    + intros E; inversion E; auto.
Qed.

Lemma dict_eqb_eq_aux (d1 : dict) :
  Forall (fun kv => forall b, pyval_eqb (snd kv) b = true <-> snd kv = b) d1 ->
  forall d2, dict_eqb d1 d2 = true <-> d1 = d2.
Proof.
  induction 1 as [|[k v] d1 Ha _ IH]; intros [|[k' v'] d2]; simpl;
    try (split; [discriminate | congruence]).
  - split; reflexivity.
  - rewrite !andb_true_iff, String.eqb_eq, (Ha v'), IH. split.
    + intros [[-> E] ->]. simpl in E. subst. reflexivity.
    + intros E; inversion E; auto.
Qed.

Lemma pyval_eqb_eq (a : PyVal) : forall b, pyval_eqb a b = true <-> a = b.
Proof.
  induction a using PyVal_ind; intros [] ;
    try (simpl; split; [discriminate | congruence]).
  - split; reflexivity.
  - simpl. rewrite Bool.eqb_true_iff. split; congruence.
  - simpl. rewrite Z.eqb_eq. split; congruence.
  - simpl. rewrite spec_float_eqb_eq. split; congruence.
  - simpl. rewrite String.eqb_eq. split; congruence.
  - cbn [pyval_eqb]. rewrite (list_eqb_eq l H). split; congruence.
  - cbn [pyval_eqb]. rewrite (list_eqb_eq l H). split; congruence.
  - change (pyval_eqb (VDict d) (VDict d0)) with (dict_eqb d d0).
    rewrite (dict_eqb_eq_aux d H). split; congruence.
Qed.

Lemma dict_eqb_eq (d1 d2 : dict) : dict_eqb d1 d2 = true <-> d1 = d2.
Proof.
  apply dict_eqb_eq_aux, Forall_forall. intros kv _ b. apply pyval_eqb_eq.
Qed.

Lemma pyval_eqb_refl (a : PyVal) : pyval_eqb a a = true.
Proof. apply pyval_eqb_eq; reflexivity. Qed.

(** ** Dicts *)

Lemma dict_get_set_same k v d : dict_get k (dict_set k v d) = Some v.
Proof.
  induction d as [|[k' v'] d IH]; simpl.
  - rewrite String.eqb_refl; reflexivity.
  - destruct (k' =? k) eqn:E; simpl; rewrite E; auto.
Qed.

Lemma dict_get_set_other k k' v d :
  k <> k' -> dict_get k' (dict_set k v d) = dict_get k' d.
Proof.
  intros Hne. induction d as [|[k0 v0] d IH]; simpl.
  - destruct (k =? k') eqn:E; [apply String.eqb_eq in E; contradiction | reflexivity].
  - destruct (k0 =? k) eqn:E; simpl.
    + apply String.eqb_eq in E; subst k0.
      destruct (k =? k') eqn:E'; [apply String.eqb_eq in E'; contradiction | reflexivity].
    + rewrite IH; reflexivity.
Qed.

Lemma dict_set_same_value k v d : dict_get k d = Some v -> dict_set k v d = d.
Proof.
  induction d as [|[k' v'] d IH]; simpl; [discriminate|].
  destruct (k' =? k)%string eqn:E; intros H.
  - congruence.
  - rewrite IH; auto.
Qed.

Lemma get_default_set_other k k' v d x :
  k <> k' -> get_default (dict_set k v d) k' x = get_default d k' x.
Proof.
  intros H. unfold get_default. rewrite dict_get_set_other; auto.
Qed.

(** ** The completion state machine *)

Lemma docent_present_dict (r : GalleryItem.t) :
  isinstance_dict (GalleryItem.docent_message r) = true ->
  truthy (GalleryItem.docent_present r) = truthy (GalleryItem.docent_message r).
Proof.
  unfold GalleryItem.docent_present, py_and. intros H. rewrite H.
  destruct (truthy (GalleryItem.docent_message r)) eqn:E; simpl;
    rewrite ?E; simpl; rewrite ?E; auto.
Qed.

(** C1.  [get_next_step] is the specification's [nextStep]: it depends on
    the record only through the image path, the title and the docent
    message, which it scans in that order.  An empty image path gives
    "reflection"; otherwise an empty title gives the title step (which the
    code calls "artwork_title"); otherwise an empty docent message gives the
    review step ("docent_message"); otherwise "completed".  The docent
    message is a dict, as [__init__] annotates it. *)
Theorem get_next_step_spec (r : GalleryItem.t) :
  isinstance_dict (GalleryItem.docent_message r) = true ->
  GalleryItem.get_next_step r =
    step_label (nextStep (empty (GalleryItem.reflection_image_path r))
                         (empty (GalleryItem.artwork_title r))
                         (empty (GalleryItem.docent_message r)))
  /\ (empty (GalleryItem.reflection_image_path r) = true ->
      GalleryItem.get_next_step r = "reflection")
  /\ (empty (GalleryItem.reflection_image_path r) = false ->
      empty (GalleryItem.artwork_title r) = true ->
      GalleryItem.get_next_step r = "artwork_title")
  /\ (empty (GalleryItem.reflection_image_path r) = false ->
      empty (GalleryItem.artwork_title r) = false ->
      empty (GalleryItem.docent_message r) = true ->
      GalleryItem.get_next_step r = "docent_message")
  /\ (empty (GalleryItem.reflection_image_path r) = false ->
      empty (GalleryItem.artwork_title r) = false ->
      empty (GalleryItem.docent_message r) = false ->
      GalleryItem.get_next_step r = "completed")
  /\ (forall r' : GalleryItem.t,
        GalleryItem.reflection_image_path r' = GalleryItem.reflection_image_path r ->
        GalleryItem.artwork_title r' = GalleryItem.artwork_title r ->
        GalleryItem.docent_message r' = GalleryItem.docent_message r ->
        GalleryItem.get_next_step r' = GalleryItem.get_next_step r).
Proof.
  intros Hd.
  assert (E : GalleryItem.get_next_step r =
              step_label (nextStep (empty (GalleryItem.reflection_image_path r))
                                   (empty (GalleryItem.artwork_title r))
                                   (empty (GalleryItem.docent_message r)))).
  { unfold GalleryItem.get_next_step, GalleryItem.get_completion_status,
      nextStep, empty; cbn [GalleryItem.st_reflection
      GalleryItem.st_artwork_title GalleryItem.st_docent_message].
    rewrite (docent_present_dict r Hd).
    destruct (truthy (GalleryItem.reflection_image_path r)),
             (truthy (GalleryItem.artwork_title r)),
             (truthy (GalleryItem.docent_message r)); reflexivity. }
  split; [exact E|].
  repeat split.
  - intros H1. rewrite E, H1. reflexivity.
  - intros H1 H2. rewrite E, H1, H2. reflexivity.
  - intros H1 H2 H3. rewrite E, H1, H2, H3. reflexivity.
  - intros H1 H2 H3. rewrite E, H1, H2, H3. reflexivity.
  - intros r' E1 E2 E3.
    unfold GalleryItem.get_next_step, GalleryItem.get_completion_status,
      GalleryItem.docent_present.
    cbn [GalleryItem.st_reflection GalleryItem.st_artwork_title
         GalleryItem.st_docent_message].
    rewrite E1, E2, E3. reflexivity.
Qed.

Lemma get_next_step_spec_witness :
  isinstance_dict (GalleryItem.docent_message Sample.item1) = true /\
  GalleryItem.get_next_step Sample.item1 = "artwork_title".
Proof.
  split; [reflexivity|].
  apply (get_next_step_spec Sample.item1); reflexivity.
Defined.

(** ** Strings, paths and object ids *)

Lemma append_empty_l (s u : string) : s ++ u = "" -> s = "".
Proof. destruct s; [reflexivity | discriminate]. Qed.

Lemma append_empty_r (s u : string) : s ++ u = "" -> u = "".
Proof. destruct s; [auto | discriminate]. Qed.

Lemma chars_append (s u : string) :
  list_ascii_of_string (s ++ u) =
  (list_ascii_of_string s ++ list_ascii_of_string u)%list.
Proof. induction s; simpl; [reflexivity | rewrite IHs; reflexivity]. Qed.

Lemma concat_nonempty (sep x : string) (l : list string) :
  In x l -> x <> "" -> String.concat sep l <> "".
Proof.
  induction l as [|a l IH]; intros Hin Hx; [contradiction|].
  destruct l as [|b l].
  - destruct Hin as [->|[]]. exact Hx.
  - cbn [String.concat]. destruct Hin as [->|Hin].
    + intros E. apply append_empty_l in E. contradiction.
    + intros E. apply append_empty_r, append_empty_r in E.
      revert E. apply IH; assumption.
Qed.

Lemma path_str_absolute (p : Path) : absolute p = true -> path_str p <> "".
Proof. unfold path_str. intros ->. discriminate. Qed.

(** [str(images_dir / "reflection" / name)] is never empty. *)
Lemma reflection_path_nonempty (p : Path) (name : string) :
  path_str (path_div (path_div p "reflection") name) <> "".
Proof.
  unfold path_div at 1.
  destruct (absolute (Path_of name)) eqn:Ea.
  - apply path_str_absolute; exact Ea.
  - change (path_div p "reflection")
      with {| absolute := absolute p; parts := (parts p ++ ["reflection"])%list |}.
    cbn [absolute parts]. unfold path_str. cbn [absolute parts].
    destruct (absolute p); [discriminate|].
    assert (Hne : String.concat "/"
                    ((parts p ++ ["reflection"]) ++ parts (Path_of name))%list <> "").
    { apply concat_nonempty with (x := "reflection"); [|discriminate].
      apply in_or_app; left. apply in_or_app; right. left; reflexivity. }
    destruct ((parts p ++ ["reflection"]) ++ parts (Path_of name))%list;
      [discriminate | exact Hne].
Qed.

Lemma hex_of_byte_is_hex (b : byte) (c : ascii) :
  In c (list_ascii_of_string (hex_of_byte b)) -> is_hex c = true.
Proof.
  destruct b; cbn; intros [<-|[<-|[]]]; reflexivity.
Qed.

Lemma ObjectId_str_is_hex (o : ObjectId) (c : ascii) :
  In c (list_ascii_of_string (ObjectId_str o)) -> is_hex c = true.
Proof.
  induction o as [|b o IH]; [contradiction|].
  cbn [ObjectId_str]. rewrite chars_append.
  intros H. apply in_app_or in H. destruct H as [H|H].
  - exact (hex_of_byte_is_hex b c H).
  - exact (IH H).
Qed.

Lemma bytes_fromhex_is_hex (bs : list byte) :
  forall s c, bytes_fromhex s = Some bs ->
              In c (list_ascii_of_string s) -> is_hex c = true.
Proof.
  induction bs as [|b bs IH]; intros s c E Hin.
  - destruct s as [|c1 [|c2 s']]; simpl in *.
    + contradiction.
    + discriminate.
    + destruct (hex_value c1), (hex_value c2), (bytes_fromhex s');
        try discriminate.
      destruct (Byte.of_N _); discriminate.
  - destruct s as [|c1 [|c2 s']]; simpl in E; try discriminate.
    unfold is_hex.
    destruct (hex_value c1) eqn:E1; [|discriminate].
    destruct (hex_value c2) eqn:E2; [|discriminate].
    destruct (bytes_fromhex s') eqn:E3; [|discriminate].
    destruct (Byte.of_N _); [|discriminate].
    injection E as _ ->.
    simpl in Hin. destruct Hin as [<-|[<-|Hin]].
    + rewrite E1; reflexivity.
    + rewrite E2; reflexivity.
    + exact (IH s' c E3 Hin).
Qed.

Lemma dash_in_readable_id (user_id : string) (t2 : datetime) :
  In "-"%char (list_ascii_of_string (readable_id user_id t2)).
Proof.
  unfold readable_id. rewrite chars_append. apply in_or_app; right.
  left; reflexivity.
Qed.

(** An identifier of the form user-timestamp is not an [ObjectId]. *)
Lemma readable_id_invalid (user_id : string) (t2 : datetime) :
  exists e, ObjectId_of_str (readable_id user_id t2) = Raise e.
Proof.
  unfold ObjectId_of_str.
  destruct (Nat.eqb _ 24); [|eauto].
  destruct (bytes_fromhex (readable_id user_id t2)) eqn:E; [|eauto].
  pose proof (bytes_fromhex_is_hex _ _ _ E (dash_in_readable_id user_id t2)) as H.
  discriminate H.
Qed.

(** ... nor the text of one. *)
Lemma ObjectId_str_not_readable (o : ObjectId) (user_id : string) (t2 : datetime) :
  ObjectId_str o <> readable_id user_id t2.
Proof.
  intros E.
  pose proof (dash_in_readable_id user_id t2) as H. rewrite <- E in H.
  apply ObjectId_str_is_hex in H. discriminate H.
Qed.

(** Parsing the text of a 12-byte id gives the id back. *)
Lemma bytes_fromhex_str (o : ObjectId) : bytes_fromhex (ObjectId_str o) = Some o.
Proof.
  induction o as [|b o IH]; [reflexivity|].
  cbn [ObjectId_str hex_of_byte append]. cbn [bytes_fromhex].
  rewrite IH. destruct b; reflexivity.
Qed.

Lemma ObjectId_str_length (o : ObjectId) :
  String.length (ObjectId_str o) = 2 * length o.
Proof.
  induction o as [|b o IH]; [reflexivity|].
  cbn [ObjectId_str hex_of_byte append String.length length]. rewrite IH. lia.
Qed.

Lemma ObjectId_roundtrip (o : ObjectId) :
  length o = 12 -> ObjectId_of_str (ObjectId_str o) = Ok o.
Proof.
  intros H. unfold ObjectId_of_str.
  rewrite ObjectId_str_length, H, bytes_fromhex_str. reflexivity.
Qed.

Lemma oid_eqb_eq (a b : ObjectId) : oid_eqb a b = true <-> a = b.
Proof.
  revert b. induction a as [|x a IH]; intros [|y b]; simpl;
    try (split; [discriminate | congruence]).
  - split; reflexivity.
  - rewrite andb_true_iff, IH. split.
    + intros [E ->]. apply Byte.byte_dec_bl in E. subst; reflexivity.
    + intros E; inversion E; subst. split; [apply Byte.byte_dec_lb|]; reflexivity.
Qed.

(** ** The store *)

Open Scope list_scope.

Lemma io_call_no_fault {A} (cls : exn_class) (act : M A) (w : World) :
  io_faults w = [] -> io_call cls act w = act w.
Proof. unfold io_call. intros ->. reflexivity. Qed.

Lemma update_one_no_fault (f : Filter) (sets : dict) (w : World) :
  io_faults w = [] ->
  update_one f sets w =
    (Ok (snd (update_first f sets (gallery_items w))),
     with_items (fst (update_first f sets (gallery_items w))) w).
Proof.
  intros H. unfold update_one. rewrite io_call_no_fault; auto.
  destruct (update_first f sets (gallery_items w)); reflexivity.
Qed.

(** What [update_first] does when a document matches. *)
Lemma update_first_hit (f : Filter) (sets : dict) (ds : list StoredDoc)
    (d : StoredDoc) :
  find (matches f) ds = Some d ->
  exists pre post,
    ds = pre ++ d :: post /\
    Forall (fun x => matches f x = false) pre /\
    matches f d = true /\
    update_first f sets ds =
      (pre ++ {| doc_id := doc_id d;
                 doc_fields := apply_set sets (doc_fields d) |} :: post,
       {| matched_count := 1;
          modified_count :=
            if dict_eqb (apply_set sets (doc_fields d)) (doc_fields d)
            then 0 else 1 |}).
Proof.
  induction ds as [|x ds IH]; simpl; [discriminate|].
  destruct (matches f x) eqn:Em.
  - intros E; injection E as ->.
    exists [], ds. repeat split; auto.
  - intros E. destruct (IH E) as (pre & post & -> & Hpre & Hd & Hu).
    exists (x :: pre), post. rewrite Hu. repeat split; auto.
Qed.

Lemma update_first_miss (f : Filter) (sets : dict) (ds : list StoredDoc) :
  find (matches f) ds = None ->
  update_first f sets ds = (ds, {| matched_count := 0; modified_count := 0 |}).
Proof.
  induction ds as [|x ds IH]; simpl; [reflexivity|].
  destruct (matches f x); [discriminate|].
  intros E. rewrite (IH E). reflexivity.
Qed.

Lemma find_app_first {A} (p : A -> bool) (pre post : list A) (d : A) :
  Forall (fun x => p x = false) pre -> p d = true ->
  find p (pre ++ d :: post) = Some d.
Proof.
  induction 1 as [|x pre Hx _ IH]; simpl; intros Hd.
  - rewrite Hd; reflexivity.
  - rewrite Hx. auto.
Qed.

Lemma find_app_none {A} (p : A -> bool) (l1 l2 : list A) :
  find p l1 = None -> find p (l1 ++ l2) = find p l2.
Proof.
  induction l1 as [|x l1 IH]; simpl; [reflexivity|].
  destruct (p x); [discriminate | exact IH].
Qed.

Lemma find_In {A} (p : A -> bool) (l : list A) (d : A) :
  find p l = Some d -> In d l.
Proof. intros H. apply find_some in H. tauto. Qed.

(** A [$set] that does not name a key leaves its value alone. *)
Lemma apply_set_other (k : string) (sets fields : dict) :
  Forall (fun kv => fst kv <> k) sets ->
  dict_get k (apply_set sets fields) = dict_get k fields.
Proof.
  unfold apply_set. revert fields.
  induction sets as [|[k' v'] sets IH]; intros fields H; simpl; [reflexivity|].
  inversion H as [|? ? Hk Hrest]; subst. simpl in Hk.
  rewrite (IH _ Hrest). apply dict_get_set_other; exact Hk.
Qed.

Lemma update_first_unchanged (f : Filter) (sets : dict) (ds : list StoredDoc) :
  modified_count (snd (update_first f sets ds)) = 0%N ->
  fst (update_first f sets ds) = ds.
Proof.
  induction ds as [|x ds IH]; simpl; [reflexivity|].
  destruct (matches f x).
  - simpl. destruct (dict_eqb _ _) eqn:E; [|discriminate].
    apply dict_eqb_eq in E. rewrite E. destruct x; reflexivity.
  - destruct (update_first f sets ds) as [ds' r]. simpl in *.
    intros H. rewrite (IH H). reflexivity.
Qed.

Lemma update_first_changed (f : Filter) (sets : dict) (ds : list StoredDoc) :
  modified_count (snd (update_first f sets ds)) <> 0%N ->
  fst (update_first f sets ds) <> ds.
Proof.
  induction ds as [|x ds IH]; simpl; [congruence|].
  destruct (matches f x).
  - simpl. destruct (dict_eqb _ _) eqn:E; [congruence|].
    intros _ Heq.
    apply (f_equal (fun l => match l with
                             | d :: _ => doc_fields d
                             | [] => []
                             end)) in Heq.
    cbn [doc_fields] in Heq. apply dict_eqb_eq in Heq. congruence.
  - destruct (update_first f sets ds) as [ds' r]. simpl in *.
    intros H Heq. injection Heq as Heq. exact (IH H Heq).
Qed.

(** An update keeps the stored VAD scores of every document. *)
Lemma update_first_vad3 (f : Filter) (sets : dict) (ds : list StoredDoc) :
  Forall (fun kv => fst kv <> "vad_scores") sets ->
  Forall (fun d => vad3 d = true) ds ->
  Forall (fun d => vad3 d = true) (fst (update_first f sets ds)).
Proof.
  intros Hs. induction 1 as [|x ds Hx Hds IH]; simpl; [constructor|].
  destruct (matches f x).
  - simpl. constructor; [|exact Hds].
    unfold vad3 in *. cbn [doc_fields].
    rewrite (apply_set_other _ _ _ Hs). exact Hx.
  - destruct (update_first f sets ds) as [ds' r]. simpl in *.
    constructor; assumption.
Qed.

(** ** Creation *)

Ltac unfold_M :=
  unfold bind, try_except, lift, ret, raise, io_call, create_task in *.

Section Creation.

Variable self : GalleryManager.t.
Variables t1 t2 : datetime.
Variable new_id : ObjectId.
Variables user_id diary_text : string.
Variable emotion_keywords : list string.
Variables reflection_prompt coping_style : string.
Variable gpt_prompt_tokens : Z.
Variable prompt_generation_time : spec_float.
Variable diary_id : option string.
Variable svc : option EmoseumWebhookService.t.

Local Abbreviation create vad image :=
  (GalleryManager.create_gallery_item self t1 t2 new_id user_id diary_text
     emotion_keywords vad reflection_prompt image coping_style
     gpt_prompt_tokens prompt_generation_time diary_id svc).

Local Abbreviation the_doc vl :=
  (created_doc self t1 t2 new_id user_id diary_text emotion_keywords vl
     reflection_prompt coping_style gpt_prompt_tokens prompt_generation_time
     diary_id).

Local Abbreviation the_path :=
  (path_str (GalleryManager.reflection_path_of self user_id t1)).

(** Something that is not an image is refused before anything is written. *)
Lemma create_not_image (v vad : PyVal) (w : World) :
  create vad (NotAnImage v) w =
    (Raise (Exn AttributeError "object has no attribute 'save'"), w).
Proof. reflexivity. Qed.

(** When the image cannot be saved, nothing is written either. *)
Lemma create_save_fault (img : Image) (vad : PyVal) (fl : list bool) (w : World) :
  io_faults w = true :: fl ->
  create vad (PILImage img) w =
    (Raise (Exn OSError "I/O failure"), with_faults fl w).
Proof.
  intros H. unfold GalleryManager.create_gallery_item, Image_save.
  unfold_M. rewrite H. reflexivity.
Qed.

(** VAD scores that cannot be iterated stop the call after the image
    file has been written and before the document is inserted. *)
Lemma create_not_iterable (img : Image) (vad : PyVal) (e : exn) (w : World) :
  io_faults w = [] -> py_iter vad = Raise e ->
  create vad (PILImage img) w =
    (Raise e, with_files (image_files w ++ [(the_path, img)]) w).
Proof.
  intros H Hv. unfold GalleryManager.create_gallery_item, Image_save, py_list.
  unfold_M. rewrite H, Hv. reflexivity.
Qed.

(** The successful path. *)
Lemma create_ok (img : Image) (vad : PyVal) (vl : list PyVal) (w : World) :
  io_faults w = [] -> py_iter vad = Ok vl ->
  violates_unique new_id (doc_fields (the_doc vl)) (gallery_items w) = false ->
  wants_sync svc diary_id = false \/ loop_running w = true ->
  exists w',
    create vad (PILImage img) w = (Ok (readable_id user_id t2), w') /\
    gallery_items w' = gallery_items w ++ [the_doc vl] /\
    image_files w' = image_files w ++ [(the_path, img)] /\
    io_faults w' = [] /\
    loop_running w' = loop_running w.
Proof.
  intros H Hv Hu Hs.
  unfold GalleryManager.create_gallery_item, Image_save, py_list, insert_one.
  unfold_M. rewrite H, Hv. cbn [io_faults with_files gallery_items].
  rewrite H.
  change (bson_doc (GalleryManager.item_doc _ _ _ _ _ _ _ _ _ _ _ _))
    with (doc_fields (the_doc vl)).
  cbn [gallery_items with_files]. rewrite Hu.
  unfold wants_sync in Hs.
  destruct svc as [s|], diary_id as [d|];
    try (eexists; repeat split; try reflexivity; cbn; exact H).
  destruct (negb (d =? "")) eqn:Ed.
  - destruct Hs as [Hs|Hs]; [discriminate|].
    cbn [loop_running with_items with_files]. rewrite Hs.
    eexists; repeat split; try reflexivity; cbn; auto.
  - eexists; repeat split; try reflexivity; cbn; exact H.
Qed.

(** Whatever it is given, a creation adds at most the one new document. *)
Lemma create_items (vad : PyVal) (image : ImageArg) (w : World) :
  gallery_items (snd (create vad image w)) = gallery_items w \/
  exists vl, py_iter vad = Ok vl /\
             gallery_items (snd (create vad image w))
             = gallery_items w ++ [the_doc vl].
Proof.
  destruct image as [img|v]; [|left; reflexivity].
  unfold GalleryManager.create_gallery_item, Image_save, py_list, insert_one.
  unfold_M.
  destruct (io_faults w) as [|[] fl] eqn:Hf; [|left; reflexivity|];
    destruct (py_iter vad) as [vl|e] eqn:Hv; try (left; reflexivity);
    cbn [io_faults with_files with_faults gallery_items];
    rewrite ?Hf.
  - change (bson_doc (GalleryManager.item_doc _ _ _ _ _ _ _ _ _ _ _ _))
      with (doc_fields (the_doc vl)).
    destruct (violates_unique _ _ _); [left; reflexivity|].
    right. exists vl. split; [reflexivity|].
    destruct svc as [s|], diary_id as [d|]; try reflexivity.
    destruct (negb (d =? "")); [|reflexivity].
    cbn [loop_running with_items with_files].
    destruct (loop_running w); reflexivity.
  - change (bson_doc (GalleryManager.item_doc _ _ _ _ _ _ _ _ _ _ _ _))
      with (doc_fields (the_doc vl)).
    destruct fl as [|[] fl']; try (left; reflexivity).
    + destruct (violates_unique _ _ _); [left; reflexivity|].
      right. exists vl. split; [reflexivity|].
      destruct svc as [s|], diary_id as [d|]; try reflexivity.
      destruct (negb (d =? "")); [|reflexivity].
      cbn [loop_running with_items with_files with_faults].
      destruct (loop_running w); reflexivity.
    + cbn [gallery_items with_faults with_files].
      destruct (violates_unique _ _ _); [left; reflexivity|].
      right. exists vl. split; [reflexivity|].
      destruct svc as [s|], diary_id as [d|]; try reflexivity.
      destruct (negb (d =? "")); [|reflexivity].
      cbn [loop_running with_items with_files with_faults].
      destruct (loop_running w); reflexivity.
Qed.

End Creation.

(** ** Lookup *)

Ltac break_match :=
  match goal with
  | |- context [match ?x with _ => _ end] => destruct x eqn:?
  | H : context [match ?x with _ => _ end] |- _ => destruct x eqn:?
  end.

Section Lookup.

Variable self : GalleryManager.t.
Variable now : datetime.

(** With the store reachable, [get_gallery_item] is the two-step resolver
    and leaves the world alone. *)
Lemma get_gallery_item_no_fault (item_id : string) (w : World) :
  io_faults w = [] ->
  GalleryManager.get_gallery_item self now item_id w =
    (Ok (GetRecord now (gallery_items w) item_id), w).
Proof.
  intros H.
  unfold GalleryManager.get_gallery_item, GetRecord, lookup_primary,
    lookup_secondary, to_item, find_one.
  unfold_M. rewrite H.
  destruct (ObjectId_of_str item_id) as [oid|e].
  - destruct (find (matches (by_id oid)) (gallery_items w)) as [d|].
    + destruct (GalleryManager._doc_to_gallery_item now d) as [r|e];
        [reflexivity|].
      rewrite H.
      destruct (find _ (gallery_items w)) as [d'|]; [|reflexivity].
      destruct (GalleryManager._doc_to_gallery_item now d'); reflexivity.
    + rewrite H.
      destruct (find _ (gallery_items w)) as [d'|]; [|reflexivity].
      destruct (GalleryManager._doc_to_gallery_item now d'); reflexivity.
  - rewrite H.
    destruct (find _ (gallery_items w)) as [d'|]; [|reflexivity].
    destruct (GalleryManager._doc_to_gallery_item now d'); reflexivity.
Qed.

(** It never raises, whatever the store does. *)
Lemma get_gallery_item_total (item_id : string) (w : World) :
  exists res w',
    GalleryManager.get_gallery_item self now item_id w = (Ok res, w').
Proof.
  unfold GalleryManager.get_gallery_item. unfold try_except at 1.
  match goal with
  | |- context [match ?m with _ => _ end] => destruct m as [[a|e] w']
  end; unfold ret; eauto.
Qed.

(** It does not write to the collection. *)
Lemma get_gallery_item_items (item_id : string) (w : World) :
  gallery_items (snd (GalleryManager.get_gallery_item self now item_id w))
  = gallery_items w.
Proof.
  unfold GalleryManager.get_gallery_item, find_one. unfold_M.
  repeat (break_match;
          cbn [io_faults with_faults gallery_items fst snd] in *;
          try discriminate);
    repeat match goal with
           | H : (_, _) = (_, _) |- _ => inversion H; clear H; subst
           end;
    reflexivity.
Qed.

(** A record it returns is the conversion of a stored document. *)
Lemma get_gallery_item_source (item_id : string) (w w' : World)
    (r : GalleryItem.t) :
  GalleryManager.get_gallery_item self now item_id w = (Ok (Some r), w') ->
  exists d, In d (gallery_items w) /\
            GalleryManager._doc_to_gallery_item now d = Ok r.
Proof.
  unfold GalleryManager.get_gallery_item, find_one. unfold_M.
  intros E.
  repeat (break_match;
          cbn [io_faults with_faults gallery_items fst snd] in *;
          try discriminate);
    repeat match goal with
           | H : (_, _) = (_, _) |- _ => inversion H; clear H; subst
           end;
    try discriminate;
    match goal with
    | H : find _ _ = Some ?d |- _ =>
        exists d; split; [exact (find_In _ _ _ H) | assumption]
    end.
Qed.

End Lookup.

(** C7.  [get_gallery_item] resolves an identifier in two steps: it first
    parses it as a primary key and looks the key up; when the identifier
    is not a valid key, or no document has that key, it looks the
    identifier up in the [item_id] field.  It always returns: a record, or
    [None] when nothing matches under either form; it never raises, even
    when the store fails. *)
Theorem get_gallery_item_resolves (self : GalleryManager.t) (now : datetime)
    (item_id : string) (w : World) :
  (exists res w',
     GalleryManager.get_gallery_item self now item_id w = (Ok res, w')) /\
  (io_faults w = [] ->
   GalleryManager.get_gallery_item self now item_id w =
     (Ok (GetRecord now (gallery_items w) item_id), w) /\
   (forall oid d r,
      ObjectId_of_str item_id = Ok oid ->
      find (matches (by_id oid)) (gallery_items w) = Some d ->
      GalleryManager._doc_to_gallery_item now d = Ok r ->
      fst (GalleryManager.get_gallery_item self now item_id w) = Ok (Some r)) /\
   (forall e,
      ObjectId_of_str item_id = Raise e ->
      fst (GalleryManager.get_gallery_item self now item_id w)
      = Ok (lookup_secondary now (gallery_items w) item_id)) /\
   (forall oid,
      ObjectId_of_str item_id = Ok oid ->
      find (matches (by_id oid)) (gallery_items w) = None ->
      fst (GalleryManager.get_gallery_item self now item_id w)
      = Ok (lookup_secondary now (gallery_items w) item_id)) /\
   (lookup_primary now (gallery_items w) item_id = None ->
    find (matches (by_field "item_id" (VStr item_id))) (gallery_items w) = None ->
    fst (GalleryManager.get_gallery_item self now item_id w) = Ok None)).
Proof.
  split; [apply get_gallery_item_total|].
  intros H. rewrite (get_gallery_item_no_fault self now item_id w H).
  split; [reflexivity|]. cbn [fst].
  unfold GetRecord, lookup_primary, to_item. repeat split.
  - intros oid d r -> -> ->. reflexivity.
  - intros e ->. reflexivity.
  - intros oid -> ->. reflexivity.
  - unfold lookup_secondary, to_item. intros -> ->. reflexivity.
Qed.

(** Both forms of identifier lead to the sample record: the readable
    id through the fallback, the text of [_id] through the primary key. *)
Lemma get_gallery_item_resolves_witness :
  io_faults Sample.world1 = [] /\
  ObjectId_of_str Sample.item_id
    = Raise (Exn InvalidId "not a valid ObjectId") /\
  fst (GalleryManager.get_gallery_item Sample.mgr Sample.t0 Sample.item_id
         Sample.world1) = Ok (Some Sample.item1) /\
  ObjectId_of_str "65e01a2b3c4d5e6f708192a3" = Ok Sample.oid /\
  fst (GalleryManager.get_gallery_item Sample.mgr Sample.t0
         "65e01a2b3c4d5e6f708192a3" Sample.world1) = Ok (Some Sample.item1) /\
  fst (GalleryManager.get_gallery_item Sample.mgr Sample.t0 "nobody-0"
         Sample.world1) = Ok None.
Proof.
  split; [reflexivity|]. split; [reflexivity|].
  destruct (get_gallery_item_resolves Sample.mgr Sample.t0 Sample.item_id
              Sample.world1) as [_ H].
  destruct (H eq_refl) as (_ & _ & Hinv & _).
  split; [rewrite (Hinv _ eq_refl); reflexivity|].
  split; [reflexivity|].
  destruct (get_gallery_item_resolves Sample.mgr Sample.t0
              "65e01a2b3c4d5e6f708192a3" Sample.world1) as [_ H'].
  destruct (H' eq_refl) as (_ & Hhit & _).
  split; [exact (Hhit Sample.oid Sample.doc1 Sample.item1
                   eq_refl eq_refl eq_refl)|].
  destruct (get_gallery_item_resolves Sample.mgr Sample.t0 "nobody-0"
              Sample.world1) as [_ H''].
  destruct (H'' eq_refl) as (_ & _ & _ & _ & Hnone).
  exact (Hnone eq_refl eq_refl).
Defined.

(** A lookup by primary key finds a document with that key. *)
Lemma find_by_id_sound (o : ObjectId) (ds : list StoredDoc) (d : StoredDoc) :
  find (matches (by_id o)) ds = Some d -> doc_id d = o.
Proof.
  intros H. apply find_some in H. destruct H as [_ H].
  apply oid_eqb_eq. exact H.
Qed.

(** The text of a document's 12-byte [_id] resolves to that document. *)
Lemma get_gallery_item_by_key (self : GalleryManager.t) (now : datetime)
    (w : World) (d : StoredDoc) (r : GalleryItem.t) :
  io_faults w = [] -> length (doc_id d) = 12 ->
  find (matches (by_id (doc_id d))) (gallery_items w) = Some d ->
  GalleryManager._doc_to_gallery_item now d = Ok r ->
  GalleryManager.get_gallery_item self now (ObjectId_str (doc_id d)) w
  = (Ok (Some r), w).
Proof.
  intros Hf Hl Hfind Hr.
  rewrite (get_gallery_item_no_fault self now _ w Hf).
  unfold GetRecord, lookup_primary.
  rewrite (ObjectId_roundtrip _ Hl), Hfind. unfold to_item. rewrite Hr.
  reflexivity.
Qed.

(** ** Created records *)

Lemma py_or_dict (v : PyVal) :
  isinstance_dict v = true -> py_or v (VDict []) = v.
Proof. destruct v as [| | | | | | |[|kv d]]; try discriminate; reflexivity. Qed.

(** Reading a document gives its primary key as [item_id]. *)
Lemma doc_to_gallery_item_id (now : datetime) (d : StoredDoc) (r : GalleryItem.t) :
  GalleryManager._doc_to_gallery_item now d = Ok r ->
  GalleryItem.item_id r = ObjectId_str (doc_id d).
Proof.
  unfold GalleryManager._doc_to_gallery_item.
  destruct (py_tuple _); [|discriminate].
  intros E; injection E as <-. reflexivity.
Qed.

Section Created.

Variable self : GalleryManager.t.
Variables t1 t2 : datetime.
Variable new_id : ObjectId.
Variables user_id diary_text : string.
Variable emotion_keywords : list string.
Variables reflection_prompt coping_style : string.
Variable gpt_prompt_tokens : Z.
Variable prompt_generation_time : spec_float.
Variable diary_id : option string.
Variable svc : option EmoseumWebhookService.t.

Local Abbreviation create vad image :=
  (GalleryManager.create_gallery_item self t1 t2 new_id user_id diary_text
     emotion_keywords vad reflection_prompt image coping_style
     gpt_prompt_tokens prompt_generation_time diary_id svc).

Local Abbreviation the_doc vl :=
  (created_doc self t1 t2 new_id user_id diary_text emotion_keywords vl
     reflection_prompt coping_style gpt_prompt_tokens prompt_generation_time
     diary_id).

Local Abbreviation the_path :=
  (path_str (GalleryManager.reflection_path_of self user_id t1)).

Local Abbreviation the_item now vl :=
  (created_item self t1 t2 new_id user_id diary_text emotion_keywords vl
     reflection_prompt coping_style gpt_prompt_tokens prompt_generation_time
     diary_id now).

Lemma map_to_bson_VStr (l : list string) :
  map to_bson (map VStr l) = map VStr l.
Proof. induction l; simpl; congruence. Qed.

Lemma to_bson_py_str_opt (o : option string) :
  to_bson (py_str_opt o) = py_str_opt o.
Proof. destruct o; reflexivity. Qed.

Lemma created_doc_reads (now : datetime) (vl : list PyVal) :
  GalleryManager._doc_to_gallery_item now (the_doc vl)
  = Ok (the_item now vl).
Proof.
  unfold GalleryManager._doc_to_gallery_item, created_item, created_doc.
  cbn [doc_fields doc_id bson_doc GalleryManager.item_doc map fst snd
       get_default dict_get String.eqb Ascii.eqb Bool.eqb to_bson py_tuple
       py_iter].
  rewrite map_to_bson_VStr, to_bson_py_str_opt. reflexivity.
Qed.

Lemma created_doc_item_id (vl : list PyVal) :
  dict_get "item_id" (doc_fields (the_doc vl))
  = Some (VStr (readable_id user_id t2)).
Proof. reflexivity. Qed.

Lemma created_item_next_step (now : datetime) (vl : list PyVal) :
  GalleryItem.get_next_step (the_item now vl) = "artwork_title".
Proof.
  unfold GalleryItem.get_next_step, GalleryItem.get_completion_status,
    created_item, GalleryItem.init.
  cbn [GalleryItem.st_reflection GalleryItem.reflection_image_path truthy].
  destruct (the_path =? "")%string eqn:E.
  - apply String.eqb_eq in E. exfalso. revert E.
    apply reflection_path_nonempty.
  - reflexivity.
Qed.

(** The new document is the one a lookup by the readable id finds. *)
Lemma find_created (vl : list PyVal) (ds : list StoredDoc) :
  violates_unique new_id (doc_fields (the_doc vl)) ds = false ->
  find (matches (by_field "item_id" (VStr (readable_id user_id t2))))
       (ds ++ [the_doc vl]) = Some (the_doc vl).
Proof.
  intros Hu. rewrite find_app_none.
  - cbn [find]. unfold matches. rewrite created_doc_item_id.
    cbn [option_eqb]. rewrite pyval_eqb_refl. reflexivity.
  - induction ds as [|x ds IH]; [reflexivity|].
    cbn [violates_unique existsb] in Hu. apply orb_false_iff in Hu.
    destruct Hu as [Hx Hds]. apply orb_false_iff in Hx. destruct Hx as [_ Hx].
    rewrite created_doc_item_id in Hx.
    cbn [find]. unfold matches at 1. rewrite Hx. apply IH. exact Hds.
Qed.

(** After a successful creation, the readable id leads to the new record. *)
Lemma get_created (now : datetime) (vl : list PyVal) (w' : World)
    (ds : list StoredDoc) :
  io_faults w' = [] ->
  gallery_items w' = ds ++ [the_doc vl] ->
  violates_unique new_id (doc_fields (the_doc vl)) ds = false ->
  GalleryManager.get_gallery_item self now (readable_id user_id t2) w'
  = (Ok (Some (the_item now vl)), w').
Proof.
  intros Hf Hi Hu. rewrite (get_gallery_item_no_fault self now _ w' Hf).
  unfold GetRecord, lookup_primary.
  destruct (readable_id_invalid user_id t2) as [e ->].
  unfold lookup_secondary. rewrite Hi, (find_created vl ds Hu).
  unfold to_item. rewrite created_doc_reads. reflexivity.
Qed.

(** C2.  A creation with valid input (a decoded image that can be saved,
    iterable VAD scores, a reachable store in which the new keys are free,
    and an event loop if the server is to be notified) returns the readable
    id and persists a document whose image path is a non-empty string and
    whose title and docent message are empty.  Read back, by conversion or
    through [get_gallery_item], the record's next step is the title step
    ("artwork_title"), never "reflection". *)
Theorem create_gallery_item_next_step (now : datetime) (img : Image)
    (vad : PyVal) (vl : list PyVal) (w : World) :
  io_faults w = [] -> py_iter vad = Ok vl ->
  violates_unique new_id (doc_fields (the_doc vl)) (gallery_items w) = false ->
  wants_sync svc diary_id = false \/ loop_running w = true ->
  exists w',
    create vad (PILImage img) w = (Ok (readable_id user_id t2), w') /\
    gallery_items w' = gallery_items w ++ [the_doc vl] /\
    (exists p, dict_get "reflection_image_path" (doc_fields (the_doc vl))
               = Some (VStr p) /\ p <> "") /\
    dict_get "artwork_title" (doc_fields (the_doc vl)) = Some (VStr "") /\
    dict_get "docent_message" (doc_fields (the_doc vl)) = Some (VDict []) /\
    exists r,
      GalleryManager._doc_to_gallery_item now (the_doc vl) = Ok r /\
      GalleryManager.get_gallery_item self now (readable_id user_id t2) w'
      = (Ok (Some r), w') /\
      empty (GalleryItem.reflection_image_path r) = false /\
      empty (GalleryItem.artwork_title r) = true /\
      empty (GalleryItem.docent_message r) = true /\
      GalleryItem.get_next_step r = step_label title /\
      GalleryItem.get_next_step r <> "reflection".
Proof.
  intros Hf Hv Hu Hs.
  destruct (create_ok self t1 t2 new_id user_id diary_text emotion_keywords
              reflection_prompt coping_style gpt_prompt_tokens
              prompt_generation_time diary_id svc img vad vl w Hf Hv Hu Hs)
    as (w' & Hc & Hi & _ & Hf' & _).
  exists w'. split; [exact Hc|]. split; [exact Hi|].
  split.
  { exists the_path. split; [reflexivity|]. apply reflection_path_nonempty. }
  split; [reflexivity|]. split; [reflexivity|].
  exists (the_item now vl).
  pose proof (created_item_next_step now vl) as Hn.
  split; [apply created_doc_reads|].
  split; [exact (get_created now vl w' (gallery_items w) Hf' Hi Hu)|].
  split.
  { unfold empty, created_item, GalleryItem.init.
    cbn [GalleryItem.reflection_image_path truthy].
    destruct (the_path =? "")%string eqn:E; [|reflexivity].
    apply String.eqb_eq in E. exfalso. revert E.
    apply reflection_path_nonempty. }
  split; [reflexivity|]. split; [reflexivity|].
  rewrite Hn. split; [reflexivity | discriminate].
Qed.

(** C3, as the code has it.  [create_gallery_item] does not validate its
    input.  It fails, before any document is inserted, when the image has
    no [save] method or saving it raises (nothing is written then) and when
    the VAD scores are not iterable (the image file is already written
    then).  VAD scores of any length and element type are stored as a list
    and the call succeeds. *)
Theorem create_gallery_item_checks (vad : PyVal) (w : World) :
  (forall v,
     create vad (NotAnImage v) w
     = (Raise (Exn AttributeError "object has no attribute 'save'"), w)) /\
  (forall img fl,
     io_faults w = true :: fl ->
     create vad (PILImage img) w
     = (Raise (Exn OSError "I/O failure"), with_faults fl w)) /\
  (forall img e,
     io_faults w = [] -> py_iter vad = Raise e ->
     fst (create vad (PILImage img) w) = Raise e /\
     gallery_items (snd (create vad (PILImage img) w)) = gallery_items w /\
     image_files (snd (create vad (PILImage img) w))
     = image_files w ++ [(the_path, img)]) /\
  (forall img vl,
     io_faults w = [] -> py_iter vad = Ok vl ->
     violates_unique new_id (doc_fields (the_doc vl)) (gallery_items w) = false ->
     wants_sync svc diary_id = false \/ loop_running w = true ->
     fst (create vad (PILImage img) w) = Ok (readable_id user_id t2) /\
     gallery_items (snd (create vad (PILImage img) w))
     = gallery_items w ++ [the_doc vl] /\
     dict_get "vad_scores" (doc_fields (the_doc vl))
     = Some (VList (map to_bson vl))).
Proof.
  split; [intros v; apply create_not_image|].
  split; [intros img fl H; apply create_save_fault; exact H|].
  split.
  - intros img e Hf Hv.
    rewrite (create_not_iterable self t1 t2 new_id user_id diary_text
               emotion_keywords reflection_prompt coping_style
               gpt_prompt_tokens prompt_generation_time diary_id svc
               img vad e w Hf Hv).
    repeat split.
  - intros img vl Hf Hv Hu Hs.
    destruct (create_ok self t1 t2 new_id user_id diary_text emotion_keywords
                reflection_prompt coping_style gpt_prompt_tokens
                prompt_generation_time diary_id svc img vad vl w Hf Hv Hu Hs)
      as (w' & Hc & Hi & _).
    rewrite Hc. repeat split. exact Hi.
Qed.

(** C10.  The [item_id] of a record that [get_gallery_item] returns is the
    text of the primary key of the document it was read from.  The id that
    [create_gallery_item] hands out is of the form user-timestamp, so the
    record fetched with it carries a different [item_id]: the text of the
    [_id] the store generated. *)
Theorem get_gallery_item_id_is_primary_key (now : datetime) :
  (forall item_id w w' r,
     GalleryManager.get_gallery_item self now item_id w = (Ok (Some r), w') ->
     exists d, In d (gallery_items w) /\
               GalleryManager._doc_to_gallery_item now d = Ok r /\
               GalleryItem.item_id r = ObjectId_str (doc_id d)) /\
  (forall img vad vl w,
     io_faults w = [] -> py_iter vad = Ok vl ->
     violates_unique new_id (doc_fields (the_doc vl)) (gallery_items w) = false ->
     wants_sync svc diary_id = false \/ loop_running w = true ->
     exists w' r,
       create vad (PILImage img) w = (Ok (readable_id user_id t2), w') /\
       GalleryManager.get_gallery_item self now (readable_id user_id t2) w'
       = (Ok (Some r), w') /\
       GalleryItem.item_id r = ObjectId_str new_id /\
       GalleryItem.item_id r <> readable_id user_id t2).
Proof.
  split.
  - intros item_id w w' r H.
    destruct (get_gallery_item_source self now item_id w w' r H) as (d & Hin & Hd).
    exists d. repeat split; auto. exact (doc_to_gallery_item_id now d r Hd).
  - intros img vad vl w Hf Hv Hu Hs.
    destruct (create_ok self t1 t2 new_id user_id diary_text emotion_keywords
                reflection_prompt coping_style gpt_prompt_tokens
                prompt_generation_time diary_id svc img vad vl w Hf Hv Hu Hs)
      as (w' & Hc & Hi & _ & Hf' & _).
    exists w', (the_item now vl).
    split; [exact Hc|].
    split; [exact (get_created now vl w' (gallery_items w) Hf' Hi Hu)|].
    split; [reflexivity|].
    apply ObjectId_str_not_readable.
Qed.

End Created.

Lemma create_gallery_item_next_step_witness :
  io_faults Sample.world0 = [] /\
  py_iter Sample.vad = Ok [Sample.f_0_2; Sample.f_m0_1; Sample.f_0_5] /\
  exists w' r,
    Sample.create Sample.vad (PILImage Sample.img) Sample.world0
    = (Ok Sample.item_id, w') /\
    GalleryManager.get_gallery_item Sample.mgr Sample.t0 Sample.item_id w'
    = (Ok (Some r), w') /\
    GalleryItem.get_next_step r = "artwork_title".
Proof.
  split; [reflexivity|]. split; [reflexivity|].
  destruct (create_gallery_item_next_step
              Sample.mgr Sample.t0 Sample.t0 Sample.oid "u1" "a quiet day"
              ["calm"; "tired"] "a calm lake at dawn" "balanced" 120%Z
              (S754_zero false) (Some "diary-7") (Some Sample.svc)
              Sample.t0 Sample.img Sample.vad
              [Sample.f_0_2; Sample.f_m0_1; Sample.f_0_5] Sample.world0
              eq_refl eq_refl eq_refl (or_intror eq_refl))
    as (w' & Hc & _ & _ & _ & _ & r & _ & Hg & _ & _ & _ & Hn & _).
  exists w', r. split; [exact Hc|]. split; [exact Hg | exact Hn].
Defined.

(** Two VAD scores instead of three: the record is created all the same. *)
Lemma create_gallery_item_accepts_two_scores :
  three_floats Sample.short_vad = false /\
  fst (Sample.create Sample.short_vad (PILImage Sample.img) Sample.world0)
  = Ok Sample.item_id /\
  length (gallery_items
            (snd (Sample.create Sample.short_vad (PILImage Sample.img)
                    Sample.world0))) = 1.
Proof. repeat split. Qed.

Lemma create_gallery_item_checks_witness :
  io_faults Sample.world0 = [] /\
  py_iter Sample.short_vad = Ok [Sample.f_0_2; Sample.f_m0_1] /\
  py_iter VNone = Raise (Exn TypeError "object is not iterable") /\
  fst (Sample.create Sample.short_vad (PILImage Sample.img) Sample.world0)
  = Ok Sample.item_id /\
  fst (Sample.create VNone (PILImage Sample.img) Sample.world0)
  = Raise (Exn TypeError "object is not iterable") /\
  gallery_items (snd (Sample.create VNone (PILImage Sample.img) Sample.world0))
  = [].
Proof.
  split; [reflexivity|]. split; [reflexivity|]. split; [reflexivity|].
  split.
  - destruct (create_gallery_item_checks
                Sample.mgr Sample.t0 Sample.t0 Sample.oid "u1" "a quiet day"
                ["calm"; "tired"] "a calm lake at dawn" "balanced" 120%Z
                (S754_zero false) (Some "diary-7") (Some Sample.svc)
                Sample.short_vad Sample.world0) as (_ & _ & _ & H).
    destruct (H Sample.img [Sample.f_0_2; Sample.f_m0_1]
                eq_refl eq_refl eq_refl (or_intror eq_refl)) as (E & _).
    exact E.
  - destruct (create_gallery_item_checks
                Sample.mgr Sample.t0 Sample.t0 Sample.oid "u1" "a quiet day"
                ["calm"; "tired"] "a calm lake at dawn" "balanced" 120%Z
                (S754_zero false) (Some "diary-7") (Some Sample.svc)
                VNone Sample.world0) as (_ & _ & H & _).
    destruct (H Sample.img (Exn TypeError "object is not iterable")
                eq_refl eq_refl) as (E1 & E2 & _).
    split; [exact E1 | exact E2].
Defined.

Lemma get_gallery_item_id_is_primary_key_witness :
  io_faults Sample.world0 = [] /\
  exists w' r,
    Sample.create Sample.vad (PILImage Sample.img) Sample.world0
    = (Ok Sample.item_id, w') /\
    GalleryManager.get_gallery_item Sample.mgr Sample.t0 Sample.item_id w'
    = (Ok (Some r), w') /\
    GalleryItem.item_id r = "65e01a2b3c4d5e6f708192a3" /\
    GalleryItem.item_id r <> Sample.item_id.
Proof.
  split; [reflexivity|].
  destruct (get_gallery_item_id_is_primary_key
              Sample.mgr Sample.t0 Sample.t0 Sample.oid "u1" "a quiet day"
              ["calm"; "tired"] "a calm lake at dawn" "balanced" 120%Z
              (S754_zero false) (Some "diary-7") (Some Sample.svc)
              Sample.t0) as [_ H].
  destruct (H Sample.img Sample.vad
              [Sample.f_0_2; Sample.f_m0_1; Sample.f_0_5] Sample.world0
              eq_refl eq_refl eq_refl (or_intror eq_refl))
    as (w' & r & Hc & Hg & Hid & Hne).
  exists w', r. repeat split; assumption.
Defined.

(** ** Stage completions *)

Section Updates.

Variable self : GalleryManager.t.
Variable item_id : string.
Variable svc : option EmoseumWebhookService.t.

Local Abbreviation by_item_id := (by_field "item_id" (VStr item_id)).

(** An update that does not set [item_id] keeps the document findable. *)
Lemma matches_item_id_apply_set (sets : dict) (d : StoredDoc) :
  Forall (fun kv => fst kv <> "item_id") sets ->
  matches by_item_id
    {| doc_id := doc_id d; doc_fields := apply_set sets (doc_fields d) |}
  = matches by_item_id d.
Proof.
  intros H. unfold matches. cbn [doc_fields].
  rewrite (apply_set_other _ _ _ H). reflexivity.
Qed.

(** [update_one] either fails on a fault, touching nothing, or performs
    [update_first]. *)
Lemma update_one_cases (f : Filter) (sets : dict) (w : World) :
  (exists fl,
     update_one f sets w
     = (Raise (Exn ConnectionFailure "I/O failure"), with_faults fl w)) \/
  (exists w0,
     gallery_items w0 = gallery_items w /\
     loop_running w0 = loop_running w /\
     update_one f sets w
     = (Ok (snd (update_first f sets (gallery_items w))),
        with_items (fst (update_first f sets (gallery_items w))) w0)).
Proof.
  unfold update_one, io_call.
  destruct (io_faults w) as [|[] fl].
  - right. exists w. repeat split.
    destruct (update_first f sets (gallery_items w)); reflexivity.
  - left. exists fl. reflexivity.
  - right. exists (with_faults fl w). repeat split.
    cbn [gallery_items with_faults].
    destruct (update_first f sets (gallery_items w)); reflexivity.
Qed.

Lemma modified_zero_iff (f : Filter) (sets : dict) (ds : list StoredDoc) :
  (0 <? modified_count (snd (update_first f sets ds)))%N = false <->
  fst (update_first f sets ds) = ds.
Proof.
  rewrite N.ltb_ge. split.
  - intros H. apply update_first_unchanged. lia.
  - intros H.
    destruct (N.eq_dec (modified_count (snd (update_first f sets ds))) 0)
      as [E|E]; [lia|].
    exfalso. exact (update_first_changed f sets ds E H).
Qed.

(** [update_one], with what the store's state decides: a fault ahead
    makes it raise, otherwise it performs [update_first]. *)
Lemma update_one_reach (f : Filter) (sets : dict) (w : World) :
  (exists fl,
     io_faults w = true :: fl /\
     update_one f sets w
     = (Raise (Exn ConnectionFailure "I/O failure"), with_faults fl w)) \/
  ((forall fl, io_faults w <> true :: fl) /\
   exists w0,
     gallery_items w0 = gallery_items w /\
     update_one f sets w
     = (Ok (snd (update_first f sets (gallery_items w))),
        with_items (fst (update_first f sets (gallery_items w))) w0)).
Proof.
  unfold update_one, io_call.
  destruct (io_faults w) as [|[] fl].
  - right. split; [discriminate|]. exists w. split; [reflexivity|].
    destruct (update_first f sets (gallery_items w)); reflexivity.
  - left. exists fl. split; reflexivity.
  - right. split; [discriminate|]. exists (with_faults fl w).
    split; [reflexivity|]. cbn [gallery_items with_faults].
    destruct (update_first f sets (gallery_items w)); reflexivity.
Qed.

(** The title update leaves a document's fields as they are exactly when
    both values are already stored. *)
Lemma title_set_fixed (artwork_title guided_question : string) (fields : dict) :
  apply_set [("artwork_title", VStr artwork_title);
             ("guided_question", VStr guided_question)] fields = fields <->
  dict_get "artwork_title" fields = Some (VStr artwork_title) /\
  dict_get "guided_question" fields = Some (VStr guided_question).
Proof.
  unfold apply_set. cbn [fold_left fst snd to_bson]. split.
  - intros E. split; rewrite <- E.
    + rewrite dict_get_set_other by discriminate. apply dict_get_set_same.
    + apply dict_get_set_same.
  - intros [Ht Hq].
    rewrite (dict_set_same_value _ _ _ Ht), (dict_set_same_value _ _ _ Hq).
    reflexivity.
Qed.

(** The update modifies nothing exactly when no document has the
    [item_id], or the first that has it already holds both values. *)
Lemma title_update_modifies (artwork_title guided_question : string)
    (ds : list StoredDoc) :
  (0 <? modified_count
          (snd (update_first by_item_id
                  [("artwork_title", VStr artwork_title);
                   ("guided_question", VStr guided_question)] ds)))%N = false <->
  find (matches by_item_id) ds = None \/
  exists d,
    find (matches by_item_id) ds = Some d /\
    dict_get "artwork_title" (doc_fields d) = Some (VStr artwork_title) /\
    dict_get "guided_question" (doc_fields d) = Some (VStr guided_question).
Proof.
  destruct (find (matches by_item_id) ds) as [d|] eqn:Ef.
  - destruct (update_first_hit by_item_id
                [("artwork_title", VStr artwork_title);
                 ("guided_question", VStr guided_question)] ds d Ef)
      as (pre & post & _ & _ & _ & Hu).
    rewrite Hu. cbn [snd modified_count].
    destruct (dict_eqb _ _) eqn:E.
    + apply dict_eqb_eq in E. apply title_set_fixed in E.
      split; [|reflexivity]. intros _. right. exists d. tauto.
    + split; [discriminate|].
      intros [H | (d' & Hd' & Ht & Hq)]; [discriminate|].
      injection Hd' as <-.
      assert (E' : apply_set [("artwork_title", VStr artwork_title);
                              ("guided_question", VStr guided_question)]
                     (doc_fields d) = doc_fields d)
        by (apply title_set_fixed; tauto).
      apply dict_eqb_eq in E'. congruence.
  - rewrite (update_first_miss _ _ _ Ef). cbn [snd modified_count].
    split; [left; reflexivity | reflexivity].
Qed.

(** C6.  [complete_artwork_title] never raises.  Read off the state it is
    called in, it returns [False] exactly when the store cannot be
    reached, no document has the given [item_id], or the first document
    that has it already holds the given title and question (the update
    modifies zero fields); in each of these cases the collection is left
    as it was, and [False] is returned exactly when no document has the
    [item_id] or the collection is unchanged.  In every other case it
    returns [True], and the first document with that [item_id] has had
    [artwork_title] and [guided_question] set together by the one update,
    and nothing else has changed. *)
Theorem complete_artwork_title_result (artwork_title guided_question : string)
    (w : World) :
  exists b w',
    GalleryManager.complete_artwork_title self item_id artwork_title
      guided_question svc w = (Ok b, w') /\
    (b = false <->
       (exists fl, io_faults w = true :: fl) \/
       find (matches by_item_id) (gallery_items w) = None \/
       (exists d,
          find (matches by_item_id) (gallery_items w) = Some d /\
          dict_get "artwork_title" (doc_fields d)
          = Some (VStr artwork_title) /\
          dict_get "guided_question" (doc_fields d)
          = Some (VStr guided_question))) /\
    (b = false <->
       find (matches by_item_id) (gallery_items w) = None \/
       gallery_items w' = gallery_items w) /\
    (b = false -> gallery_items w' = gallery_items w) /\
    (b = true ->
       exists pre d post,
         gallery_items w = pre ++ d :: post /\
         Forall (fun x => matches by_item_id x = false) pre /\
         matches by_item_id d = true /\
         gallery_items w' =
           pre ++ {| doc_id := doc_id d;
                     doc_fields :=
                       dict_set "guided_question" (VStr guided_question)
                         (dict_set "artwork_title" (VStr artwork_title)
                            (doc_fields d)) |} :: post /\
         dict_get "artwork_title"
           (dict_set "guided_question" (VStr guided_question)
              (dict_set "artwork_title" (VStr artwork_title) (doc_fields d)))
         = Some (VStr artwork_title) /\
         dict_get "guided_question"
           (dict_set "guided_question" (VStr guided_question)
              (dict_set "artwork_title" (VStr artwork_title) (doc_fields d)))
         = Some (VStr guided_question)).
Proof.
  unfold GalleryManager.complete_artwork_title. unfold_M.
  set (sets := [("artwork_title", VStr artwork_title);
                ("guided_question", VStr guided_question)]).
  destruct (update_one_reach by_item_id sets w)
    as [(fl & Hfl & ->) | (Hreach & w0 & Hi & ->)].
  - exists false, (with_faults fl w). split; [reflexivity|].
    split; [|split; [|split]].
    + split; [left; exists fl; exact Hfl | reflexivity].
    + split; [right; reflexivity | reflexivity].
    + reflexivity.
    + discriminate.
  - eexists _, _. split; [reflexivity|].
    cbn [gallery_items with_items]. split; [|split; [|split]].
    + unfold sets. rewrite title_update_modifies. split.
      * intros H. right. exact H.
      * intros [(fl & Hfl) | H]; [exfalso; exact (Hreach fl Hfl) | exact H].
    + rewrite modified_zero_iff. split; [auto|].
      intros [Hn|He]; [|exact He].
      rewrite (update_first_miss _ _ _ Hn). reflexivity.
    + intros Hb. apply modified_zero_iff in Hb. exact Hb.
    + intros Hb.
      destruct (find (matches by_item_id) (gallery_items w)) as [d|] eqn:Ef.
      * destruct (update_first_hit by_item_id sets _ d Ef)
          as (pre & post & Hds & Hpre & Hd & Hu).
        exists pre, d, post. rewrite Hu. cbn [fst].
        repeat split; auto.
        rewrite dict_get_set_other by discriminate.
        apply dict_get_set_same.
        apply dict_get_set_same.
      * rewrite (update_first_miss _ _ _ Ef) in Hb. discriminate Hb.
Qed.

Local Abbreviation reviewed dm tok d :=
  {| doc_id := doc_id d;
     doc_fields :=
       dict_set "gpt_docent_tokens" (to_bson tok)
         (dict_set "docent_message" (to_bson dm) (doc_fields d)) |}.

(** What [add_docent_message] does to a record that exists: the one
    [update_one] sets both fields; the call returns [True] when that
    changed the document (and the task, if any, could be scheduled). *)
Lemma add_docent_message_effect (dm tok : PyVal) (w : World) (d : StoredDoc) :
  io_faults w = [] ->
  find (matches by_item_id) (gallery_items w) = Some d ->
  GalleryManager.docent_tokens dm = Ok tok ->
  exists b w',
    GalleryManager.add_docent_message self item_id dm svc w = (Ok b, w') /\
    gallery_items w' =
      fst (update_first by_item_id
             [("docent_message", dm); ("gpt_docent_tokens", tok)]
             (gallery_items w)) /\
    find (matches by_item_id) (gallery_items w') = Some (reviewed dm tok d) /\
    io_faults w' = [] /\
    (b = true -> doc_fields (reviewed dm tok d) <> doc_fields d) /\
    (doc_fields (reviewed dm tok d) <> doc_fields d ->
     svc = None \/ loop_running w = true -> b = true).
Proof.
  intros Hf Hfind Htok.
  unfold GalleryManager.add_docent_message. unfold_M. rewrite Htok.
  set (sets := [("docent_message", dm); ("gpt_docent_tokens", tok)]).
  rewrite (update_one_no_fault by_item_id sets w Hf).
  destruct (update_first_hit by_item_id sets _ d Hfind)
    as (pre & post & Hds & Hpre & Hd & Hu).
  rewrite Hu. cbn [fst snd modified_count].
  assert (Hfind' : find (matches by_item_id) (pre ++ reviewed dm tok d :: post)
                   = Some (reviewed dm tok d)).
  { apply find_app_first; [exact Hpre|].
    change (reviewed dm tok d)
      with {| doc_id := doc_id d;
              doc_fields := apply_set sets (doc_fields d) |}.
    rewrite matches_item_id_apply_set; [exact Hd|].
    repeat constructor; discriminate. }
  change (apply_set sets (doc_fields d))
    with (doc_fields (reviewed dm tok d)).
  destruct (dict_eqb (doc_fields (reviewed dm tok d)) (doc_fields d)) eqn:E.
  - apply dict_eqb_eq in E.
    change (0 <? 0)%N with false. cbv beta iota.
    exists false, (with_items (pre ++ reviewed dm tok d :: post) w).
    repeat split; auto; try discriminate; try contradiction.
  - assert (Hne : doc_fields (reviewed dm tok d) <> doc_fields d).
    { intros Heq. apply dict_eqb_eq in Heq. congruence. }
    change (0 <? 1)%N with true. cbv beta iota.
    destruct svc as [s|].
    + cbn [loop_running with_items].
      destruct (loop_running w) eqn:El.
      * eexists true, _. repeat split; auto.
      * eexists false, _. repeat split; auto; try discriminate;
          try (intros _ [Hs|Hs]; discriminate).
    + eexists true, _. repeat split; auto.
Qed.

(** Storing a review the record does not hold yet changes the record. *)
Lemma reviewed_changes (dm tok : PyVal) (d : StoredDoc) :
  dict_get "docent_message" (doc_fields d) <> Some (to_bson dm) ->
  doc_fields (reviewed dm tok d) <> doc_fields d.
Proof.
  intros Hnew E. apply Hnew. rewrite <- E. cbn [doc_fields].
  rewrite dict_get_set_other by discriminate. apply dict_get_set_same.
Qed.


Lemma doc_to_gallery_item_fields (now : datetime) (d : StoredDoc)
    (r : GalleryItem.t) :
  GalleryManager._doc_to_gallery_item now d = Ok r ->
  GalleryItem.reflection_image_path r
  = get_default (doc_fields d) "reflection_image_path" (VStr "") /\
  GalleryItem.artwork_title r
  = get_default (doc_fields d) "artwork_title" (VStr "") /\
  GalleryItem.docent_message r
  = py_or (get_default (doc_fields d) "docent_message" (VDict [])) (VDict []) /\
  GalleryItem.gpt_docent_tokens r
  = get_default (doc_fields d) "gpt_docent_tokens" (VInt 0) /\
  GalleryItem.guided_question r
  = get_default (doc_fields d) "guided_question" (VStr "") /\
  py_tuple (get_default (doc_fields d) "vad_scores"
              (VList [zero_float; zero_float; zero_float]))
  = Ok (GalleryItem.vad_scores r).
Proof.
  unfold GalleryManager._doc_to_gallery_item.
  destruct (py_tuple _) as [v|]; [|discriminate].
  intros E; injection E as <-. repeat split.
Qed.


(** C9.  [add_docent_message] does not look at the title: on a record
    whose title is still empty it returns [True] and stores the review,
    and the title stays empty.  (Store reachable, record present and not
    already holding this review, review with readable metadata, event loop
    running if a webhook service is passed.) *)
Theorem add_docent_message_without_title (dm tok : PyVal) (w : World)
    (d : StoredDoc) :
  io_faults w = [] ->
  find (matches by_item_id) (gallery_items w) = Some d ->
  empty (get_default (doc_fields d) "artwork_title" (VStr "")) = true ->
  svc = None \/ loop_running w = true ->
  GalleryManager.docent_tokens dm = Ok tok ->
  dict_get "docent_message" (doc_fields d) <> Some (to_bson dm) ->
  exists w' d',
    GalleryManager.add_docent_message self item_id dm svc w = (Ok true, w') /\
    find (matches by_item_id) (gallery_items w') = Some d' /\
    doc_id d' = doc_id d /\
    dict_get "docent_message" (doc_fields d') = Some (to_bson dm) /\
    forall now r,
      GalleryManager._doc_to_gallery_item now d' = Ok r ->
      GalleryItem.docent_message r = to_bson dm /\
      empty (GalleryItem.artwork_title r) = true.
Proof.
  intros Hf Hfind Ht Hs Htok Hnew.
  destruct (add_docent_message_effect dm tok w d Hf Hfind Htok)
    as (b & w' & Hc & _ & Hfind' & _ & _ & Hb).
  rewrite (Hb (reviewed_changes dm tok d Hnew) Hs) in Hc.
  exists w', (reviewed dm tok d).
  assert (Hdm : dict_get "docent_message" (doc_fields (reviewed dm tok d))
                = Some (to_bson dm)).
  { cbn [doc_fields]. rewrite dict_get_set_other by discriminate.
    apply dict_get_set_same. }
  repeat (split; [assumption || reflexivity|]).
  intros now r Hr.
  destruct (doc_to_gallery_item_fields now _ r Hr) as (_ & Eti & Edm & _).
  split.
  - rewrite Edm. unfold get_default. rewrite Hdm.
    apply py_or_dict.
    unfold GalleryManager.docent_tokens, py_get in Htok.
    destruct dm; try discriminate. reflexivity.
  - rewrite Eti. cbn [doc_fields].
    rewrite !get_default_set_other by discriminate. exact Ht.
Qed.

End Updates.

(** The title step of the scenario, and the same call once more. *)
Lemma complete_artwork_title_result_witness :
  (exists w' d,
     GalleryManager.complete_artwork_title Sample.mgr Sample.item_id
       "Quiet Morning" "What made this moment calm?" (Some Sample.svc)
       Sample.world1 = (Ok true, w') /\
     In d (gallery_items w') /\
     dict_get "artwork_title" (doc_fields d) = Some (VStr "Quiet Morning") /\
     dict_get "guided_question" (doc_fields d)
     = Some (VStr "What made this moment calm?")) /\
  fst (GalleryManager.complete_artwork_title Sample.mgr Sample.item_id
         "Quiet Morning" "What made this moment calm?" (Some Sample.svc)
         Sample.world2) = Ok false /\
  fst (GalleryManager.complete_artwork_title Sample.mgr "nobody-0"
         "Quiet Morning" "What made this moment calm?" (Some Sample.svc)
         Sample.world1) = Ok false.
Proof.
  split; [|split].
  - destruct (complete_artwork_title_result Sample.mgr Sample.item_id
                (Some Sample.svc) "Quiet Morning"
                "What made this moment calm?" Sample.world1)
      as (b & w' & Hc & Hin & _ & _ & Htrue).
    assert (Eb : b = true).
    { destruct b; [reflexivity|]. exfalso.
      destruct (proj1 Hin eq_refl)
        as [(fl & Hfl) | [Hn | (d & Hd & Ht & _)]].
      - discriminate Hfl.
      - discriminate Hn.
      - injection Hd as <-. discriminate Ht. }
    subst b.
    destruct (Htrue eq_refl)
      as (pre & d & post & _ & _ & _ & Hi & Ht & Hq).
    exists w'. eexists. split; [exact Hc|]. split; [|split].
    + rewrite Hi. apply in_or_app. right. left. reflexivity.
    + exact Ht.
    + exact Hq.
  - destruct (complete_artwork_title_result Sample.mgr Sample.item_id
                (Some Sample.svc) "Quiet Morning"
                "What made this moment calm?" Sample.world2)
      as (b & w' & Hc & Hin & _).
    rewrite Hc. cbn [fst]. f_equal. apply Hin. right. right.
    exists Sample.doc2. repeat split.
  - destruct (complete_artwork_title_result Sample.mgr "nobody-0"
                (Some Sample.svc) "Quiet Morning"
                "What made this moment calm?" Sample.world1)
      as (b & w' & Hc & Hin & _).
    rewrite Hc. cbn [fst]. f_equal. apply Hin. right. left. reflexivity.
Defined.


Lemma add_docent_message_without_title_witness :
  io_faults Sample.world1 = [] /\
  find (matches (by_field "item_id" (VStr Sample.item_id)))
       (gallery_items Sample.world1) = Some Sample.doc1 /\
  empty (get_default (doc_fields Sample.doc1) "artwork_title" (VStr "")) = true /\
  exists w' d',
    GalleryManager.add_docent_message Sample.mgr Sample.item_id
      (VDict Sample.review) None Sample.world1 = (Ok true, w') /\
    find (matches (by_field "item_id" (VStr Sample.item_id)))
         (gallery_items w') = Some d' /\
    dict_get "docent_message" (doc_fields d') = Some (VDict Sample.review).
Proof.
  split; [reflexivity|]. split; [reflexivity|]. split; [reflexivity|].
  assert (Hnew : dict_get "docent_message" (doc_fields Sample.doc1)
                 <> Some (to_bson (VDict Sample.review)))
    by (vm_compute; discriminate).
  destruct (add_docent_message_without_title Sample.mgr Sample.item_id
              None (VDict Sample.review) (VInt 42) Sample.world1
              Sample.doc1 eq_refl eq_refl eq_refl (or_introl eq_refl)
              eq_refl Hnew)
    as (w' & d' & Hc & Hfind & _ & Hdm & _).
  exists w', d'. split; [exact Hc|]. split; [exact Hfind | exact Hdm].
Defined.

(** ** The VAD scores of stored documents *)

Section Invariant.

Variable self : GalleryManager.t.

Local Abbreviation all_vad3 ds := (Forall (fun d => vad3 d = true) ds).

Lemma created_doc_vad3 t1 t2 new_id user_id diary_text emotion_keywords vl
    reflection_prompt coping_style gpt_prompt_tokens prompt_generation_time
    diary_id :
  length vl = 3 ->
  vad3 (created_doc self t1 t2 new_id user_id diary_text emotion_keywords vl
          reflection_prompt coping_style gpt_prompt_tokens
          prompt_generation_time diary_id) = true.
Proof.
  intros H. unfold vad3, created_doc.
  cbn [doc_fields bson_doc GalleryManager.item_doc map fst snd dict_get
       String.eqb Ascii.eqb Bool.eqb to_bson].
  rewrite length_map, H. reflexivity.
Qed.

Lemma complete_artwork_title_vad3 item_id artwork_title guided_question svc w :
  all_vad3 (gallery_items w) ->
  all_vad3 (gallery_items
              (snd (GalleryManager.complete_artwork_title self item_id
                      artwork_title guided_question svc w))).
Proof.
  intros H. unfold GalleryManager.complete_artwork_title. unfold_M.
  match goal with
  | |- context [update_one ?f ?s w] =>
      destruct (update_one_cases f s w) as [(fl & ->) | (w0 & Hi & _ & ->)]
  end.
  - exact H.
  - cbn [snd gallery_items with_items]. apply update_first_vad3; [|exact H].
    repeat constructor; discriminate.
Qed.

Lemma add_docent_message_vad3 item_id docent_message svc w :
  all_vad3 (gallery_items w) ->
  all_vad3 (gallery_items
              (snd (GalleryManager.add_docent_message self item_id
                      docent_message svc w))).
Proof.
  intros H. unfold GalleryManager.add_docent_message. unfold_M.
  destruct (GalleryManager.docent_tokens docent_message) as [tok|e];
    [|exact H].
  match goal with
  | |- context [update_one ?f ?s w] =>
      destruct (update_one_cases f s w) as [(fl & ->) | (w0 & Hi & _ & ->)]
  end.
  - exact H.
  - assert (Hu : all_vad3
                   (fst (update_first (by_field "item_id" (VStr item_id))
                           [("docent_message", docent_message);
                            ("gpt_docent_tokens", tok)] (gallery_items w)))).
    { apply update_first_vad3; [|exact H]. repeat constructor; discriminate. }
    destruct (0 <? _)%N; [|exact Hu].
    destruct svc as [s|]; [|exact Hu].
    cbn [loop_running with_items].
    destruct (loop_running w0); exact Hu.
Qed.

Lemma run_task_items net now task w :
  gallery_items (snd (GalleryManager.run_task self net now task w))
  = gallery_items w.
Proof.
  destruct task as [s did kw vad | s iid]; cbn [GalleryManager.run_task].
  - unfold GalleryManager._update_emotion_data_async. unfold_M.
    destruct (EmoseumWebhookService.send_gallery_item_update _ _ _ _ _ _ _ _ _);
      reflexivity.
  - unfold GalleryManager._update_docent_data_async, find_one. unfold_M.
    repeat (break_match;
            cbn [io_faults with_faults gallery_items fst snd] in *;
            try discriminate);
      repeat match goal with
             | H : (_, _) = (_, _) |- _ => inversion H; clear H; subst
             end;
      reflexivity.
Qed.

(** Every call keeps the stored VAD scores three long, as long as each
    creation is given three. *)
Lemma run_call_vad3 (c : Call) (w : World) :
  create_has_three c = true ->
  all_vad3 (gallery_items w) ->
  all_vad3 (gallery_items (run_call self c w)).
Proof.
  intros Hc H. destruct c; cbn [run_call create_has_three] in *.
  - match goal with
    | |- context [GalleryManager.create_gallery_item ?a ?b ?c ?d ?e ?f ?g ?h
                    ?i ?j ?k ?l ?m ?n ?o w] =>
        destruct (create_items a b c d e f g i k l m n o h j w)
          as [-> | (vl & Hv & ->)]
    end; [exact H|].
    apply Forall_app. split; [exact H|]. constructor; [|constructor].
    apply created_doc_vad3.
    unfold three_elements in Hc. rewrite Hv in Hc.
    apply Nat.eqb_eq. exact Hc.
  - apply complete_artwork_title_vad3; exact H.
  - apply add_docent_message_vad3; exact H.
  - rewrite get_gallery_item_items. exact H.
  - rewrite run_task_items. exact H.
Qed.

Lemma run_calls_vad3 (cs : list Call) (w : World) :
  Forall (fun c => create_has_three c = true) cs ->
  all_vad3 (gallery_items w) ->
  all_vad3 (gallery_items (run_calls self cs w)).
Proof.
  intros Hcs. revert w.
  induction Hcs as [|c cs Hc _ IH]; intros w H; [exact H|].
  cbn [run_calls fold_left]. apply IH. apply run_call_vad3; assumption.
Qed.

(** A document with three stored scores, or none, reads back with three. *)
Lemma doc_to_gallery_item_vad3 (now : datetime) (d : StoredDoc)
    (r : GalleryItem.t) :
  vad3 d = true ->
  GalleryManager._doc_to_gallery_item now d = Ok r ->
  exists a b c, GalleryItem.vad_scores r = VTuple [a; b; c].
Proof.
  intros Hv Hr.
  destruct (doc_to_gallery_item_fields now d r Hr) as (_ & _ & _ & _ & _ & E).
  unfold vad3 in Hv. unfold get_default in E.
  destruct (dict_get "vad_scores" (doc_fields d)) as [v|].
  - destruct v as [| | | | |l| |]; try discriminate.
    destruct l as [|a [|b [|c [|x l]]]]; try discriminate.
    injection E as <-. eauto.
  - injection E as <-. eauto.
Qed.

(** C8, as the code has it.  The manager stores whatever VAD scores a
    creation is given.  If every creation is given exactly three, every
    stored document keeps a three-element [vad_scores] (or none, which
    reads as three zeros) through all later calls, and every record that
    [get_gallery_item] returns has a 3-tuple. *)
Theorem vad_scores_three (cs : list Call) (w0 : World) :
  Forall (fun d => vad3 d = true) (gallery_items w0) ->
  Forall (fun c => create_has_three c = true) cs ->
  Forall (fun d => vad3 d = true) (gallery_items (run_calls self cs w0)) /\
  forall now item_id r w',
    GalleryManager.get_gallery_item self now item_id (run_calls self cs w0)
    = (Ok (Some r), w') ->
    exists a b c, GalleryItem.vad_scores r = VTuple [a; b; c].
Proof.
  intros H0 Hcs.
  pose proof (run_calls_vad3 cs w0 Hcs H0) as Hinv.
  split; [exact Hinv|].
  intros now item_id r w' Hg.
  destruct (get_gallery_item_source self now item_id _ w' r Hg)
    as (d & Hin & Hd).
  apply (doc_to_gallery_item_vad3 now d r); [|exact Hd].
  rewrite Forall_forall in Hinv. exact (Hinv d Hin).
Qed.

End Invariant.

Lemma vad_scores_three_witness :
  Forall (fun d => vad3 d = true) (gallery_items Sample.world0) /\
  Forall (fun c => create_has_three c = true) Sample.calls /\
  run_calls Sample.mgr Sample.calls Sample.world0 = Sample.world3 /\
  exists a b c, GalleryItem.vad_scores Sample.item3 = VTuple [a; b; c].
Proof.
  assert (H0 : Forall (fun d => vad3 d = true) (gallery_items Sample.world0))
    by constructor.
  assert (Hcs : Forall (fun c => create_has_three c = true) Sample.calls)
    by (repeat constructor).
  split; [exact H0|]. split; [exact Hcs|]. split; [reflexivity|].
  destruct (vad_scores_three Sample.mgr Sample.calls Sample.world0 H0 Hcs)
    as [_ H].
  apply (H Sample.t0 Sample.item_id Sample.item3 Sample.world3).
  reflexivity.
Defined.

(** A record created with two VAD scores reads back with two. *)
Lemma read_back_two_scores :
  fst (Sample.create Sample.short_vad (PILImage Sample.img) Sample.world0)
  = Ok Sample.item_id /\
  exists r,
    fst (GalleryManager.get_gallery_item Sample.mgr Sample.t0 Sample.item_id
           Sample.world_short) = Ok (Some r) /\
    GalleryItem.vad_scores r = VTuple [Sample.f_0_2; Sample.f_m0_1] /\
    py_len (GalleryItem.vad_scores r) = 2.
Proof.
  split; [reflexivity|].
  eexists. split; [vm_compute; reflexivity|]. split; reflexivity.
Qed.

(** ** The webhook *)

Section Webhook.

Variable self : EmoseumWebhookService.t.
Variable net : Network.
Variable now : datetime.
Variables diary_id emotion_keywords artwork_title guided_question
          vad_scores user_id : PyVal.

Local Abbreviation send :=
  (EmoseumWebhookService.send_gallery_item_update self net now diary_id
     emotion_keywords artwork_title guided_question vad_scores user_id).

(** The one request the call makes. *)
Local Abbreviation request :=
  {| req_url := (EmoseumWebhookService.emoseum_server_url self
                 ++ "/api/ai/webhook/gallery-update")%string;
     req_json := EmoseumWebhookService.build_payload now diary_id
                   emotion_keywords artwork_title guided_question
                   vad_scores user_id;
     req_content_type := "application/json";
     req_timeout_total := 10 |}.

(** C4.  [send_gallery_item_update] never raises: it always returns a
    result dict.  The dict says [success: True] exactly when the endpoint
    answered with status 200 and a body that decodes as JSON.  In every
    other case (another status, a body that does not decode, a timeout, a
    transport error) it says [success: False] and
    [retry_recommended: True]. *)
Theorem send_gallery_item_update_result :
  exists res,
    send = Ok res /\
    (dict_get "success" res = Some (VBool true) <->
     exists response body,
       net request = Responded response /\
       status response = 200%N /\
       json_body response = Ok body) /\
    (dict_get "success" res <> Some (VBool true) ->
     dict_get "success" res = Some (VBool false) /\
     dict_get "retry_recommended" res = Some (VBool true)).
Proof.
  unfold EmoseumWebhookService.send_gallery_item_update,
    EmoseumWebhookService.post_update.
  destruct (net request) as [response|e] eqn:En.
  - destruct (status response =? 200)%N eqn:Es.
    + apply N.eqb_eq in Es.
      destruct (json_body response) as [body|e] eqn:Ej.
      * eexists. split; [reflexivity|]. split.
        -- split; [intros _; exists response, body; auto | reflexivity].
        -- intros H. exfalso. apply H. reflexivity.
      * destruct (is_timeout e); (eexists; split; [reflexivity|]; split;
          [split; [discriminate|]
          | intros _; split; reflexivity]);
          intros (r' & b' & Hr & _ & Hb); injection Hr as <-; congruence.
    + apply N.eqb_neq in Es.
      destruct (text_body response) as [txt|e] eqn:Et;
        [|destruct (is_timeout e)];
        (eexists; split; [reflexivity|]; split;
          [split; [discriminate|]
          | intros _; split; reflexivity]);
        intros (r' & b' & Hr & Hs & _); injection Hr as <-; congruence.
  - destruct (is_timeout e); (eexists; split; [reflexivity|]; split;
      [split; [discriminate|]
      | intros _; split; reflexivity]);
      intros (r' & b' & Hr & _); discriminate Hr.
Qed.

End Webhook.

(** The endpoint answers HTTP 500: the call returns, without success and
    with the retry flag. *)
Lemma send_gallery_item_update_result_witness :
  exists res,
    EmoseumWebhookService.send_gallery_item_update Sample.svc Sample.net500
      Sample.t0 (VStr "diary-7") (VList [VStr "calm"; VStr "tired"])
      VNone VNone (VList [Sample.f_0_2; Sample.f_m0_1; Sample.f_0_5]) VNone
    = Ok res /\
    dict_get "success" res = Some (VBool false) /\
    dict_get "retry_recommended" res = Some (VBool true).
Proof.
  destruct (send_gallery_item_update_result Sample.svc Sample.net500
              Sample.t0 (VStr "diary-7") (VList [VStr "calm"; VStr "tired"])
              VNone VNone (VList [Sample.f_0_2; Sample.f_m0_1; Sample.f_0_5])
              VNone) as (res & Hs & Hiff & Hfail).
  exists res. split; [exact Hs|].
  apply Hfail. intros Hsucc.
  destruct (proj1 Hiff Hsucc) as (response & body & Hr & Hst & _).
  injection Hr as <-. discriminate Hst.
Defined.

(** The endpoint answers HTTP 500: no success, retry recommended. *)
Example send_gallery_item_update_500 :
  EmoseumWebhookService.send_gallery_item_update Sample.svc Sample.net500
    Sample.t0 (VStr "diary-7") (VList [VStr "calm"; VStr "tired"]) VNone VNone
    (VList [Sample.f_0_2; Sample.f_m0_1; Sample.f_0_5]) VNone
  = Ok [("success", VBool false);
        ("error", VStr "HTTP 500: Internal Server Error");
        ("retry_recommended", VBool true)].
Proof. reflexivity. Qed.

(** The endpoint answers 200 with a JSON body: success, with the body. *)
Example send_gallery_item_update_200 :
  EmoseumWebhookService.send_gallery_item_update Sample.svc Sample.net200
    Sample.t0 (VStr "diary-7") VNone (VStr "Quiet Morning") VNone VNone VNone
  = Ok [("success", VBool true);
        ("message", VStr "Gallery item updated successfully");
        ("data", VDict [("ok", VBool true)])].
Proof. reflexivity. Qed.

(** A timeout is reported, not raised. *)
Example send_gallery_item_update_timeout :
  EmoseumWebhookService.send_gallery_item_update Sample.svc
    (fun _ => Failed (Exn TimeoutError "")) Sample.t0
    (VStr "diary-7") VNone VNone VNone VNone VNone
  = Ok [("success", VBool false);
        ("error", VStr "Request timeout");
        ("retry_recommended", VBool true)].
Proof. reflexivity. Qed.

(** Only the fields that are given go into the payload. *)
Example build_payload_partial :
  EmoseumWebhookService.build_payload Sample.t0 (VStr "diary-7")
    (VList [VStr "calm"]) VNone (VStr "") (VList []) VNone
  = [("diary_id", VStr "diary-7");
     ("updated_at", VStr "2025-03-07T09:05:01");
     ("keywords", VList [VStr "calm"])].
Proof. reflexivity. Qed.

(** A scheduled task never raises, and the call that scheduled it has
    returned before the task runs: its result does not depend on the
    network. *)
Lemma run_task_total (self : GalleryManager.t) (net : Network)
    (now : datetime) (task : Task) (w : World) :
  exists w', GalleryManager.run_task self net now task w = (Ok tt, w').
Proof.
  destruct task as [s did kw vad | s iid]; cbn [GalleryManager.run_task].
  - unfold GalleryManager._update_emotion_data_async. unfold_M.
    destruct (EmoseumWebhookService.send_gallery_item_update _ _ _ _ _ _ _ _ _);
      eauto.
  - unfold GalleryManager._update_docent_data_async. unfold try_except.
    match goal with
    | |- context [match ?m with _ => _ end] => destruct m as [[[]|e] w']
    end; unfold ret; eauto.
Qed.

(** The scenario of the specification, end to end. *)
Example scenario :
  fst (Sample.create Sample.vad (PILImage Sample.img) Sample.world0)
  = Ok Sample.item_id /\
  fst (GalleryManager.get_gallery_item Sample.mgr Sample.t0 Sample.item_id
         Sample.world1) = Ok (Some Sample.item1) /\
  GalleryItem.get_next_step Sample.item1 = "artwork_title" /\
  fst (GalleryManager.complete_artwork_title Sample.mgr Sample.item_id
         "Quiet Morning" "What made this moment calm?" (Some Sample.svc)
         Sample.world1) = Ok true /\
  to_item Sample.t0 (Some Sample.doc2) <> None /\
  (forall r, to_item Sample.t0 (Some Sample.doc2) = Some r ->
             GalleryItem.get_next_step r = "docent_message") /\
  fst (GalleryManager.add_docent_message Sample.mgr Sample.item_id
         (VDict Sample.review) (Some Sample.svc) Sample.world2) = Ok true /\
  GalleryItem.gpt_docent_tokens Sample.item3 = VInt 42 /\
  GalleryItem.get_next_step Sample.item3 = "completed".
Proof.
  repeat split; try reflexivity.
  - discriminate.
  - intros r H. vm_compute in H. injection H as <-. reflexivity.
Qed.

(* ================================================================== *)
(** * Further properties of the code *)
(* ================================================================== *)

(** ** The webhook payload and URL *)

Lemma dict_get_in_keys (k : string) (d : dict) :
  dict_get k d <> None -> In k (map fst d).
Proof.
  induction d as [|[k' v] d IH]; simpl; [congruence|].
  destruct (k' =? k)%string eqn:E.
  - apply String.eqb_eq in E. auto.
  - auto.
Qed.

(** X1.  The payload always carries [diary_id] and [updated_at]; each of the
    five optional fields is in it exactly when the argument is truthy,
    with the value given; there is no other key.  An empty title, an empty
    list of keywords or [None] is therefore never sent. *)
Theorem build_payload_fields (now : datetime)
    (diary_id emotion_keywords artwork_title guided_question vad_scores
     user_id : PyVal) :
  let payload :=
    EmoseumWebhookService.build_payload now diary_id emotion_keywords
      artwork_title guided_question vad_scores user_id in
  dict_get "diary_id" payload = Some diary_id /\
  dict_get "updated_at" payload = Some (VStr (isoformat now)) /\
  dict_get "keywords" payload
  = (if truthy emotion_keywords then Some emotion_keywords else None) /\
  dict_get "title" payload
  = (if truthy artwork_title then Some artwork_title else None) /\
  dict_get "guided_question" payload
  = (if truthy guided_question then Some guided_question else None) /\
  dict_get "vad_scores" payload
  = (if truthy vad_scores then Some vad_scores else None) /\
  dict_get "user_id" payload
  = (if truthy user_id then Some user_id else None) /\
  forall k, dict_get k payload <> None ->
            In k ["diary_id"; "updated_at"; "keywords"; "title";
                  "guided_question"; "vad_scores"; "user_id"].
Proof.
  unfold EmoseumWebhookService.build_payload, EmoseumWebhookService.add_if.
  cbv zeta.
  destruct (truthy emotion_keywords), (truthy artwork_title),
    (truthy guided_question), (truthy vad_scores), (truthy user_id);
    (repeat (split; [reflexivity|]));
    intros k H; apply dict_get_in_keys in H; cbn in H;
    repeat (destruct H as [<-|H]; [cbn; tauto|]); contradiction.
Qed.

Lemma drop_slashes_head (l : list ascii) :
  drop_slashes l = [] \/
  exists c l', drop_slashes l = c :: l' /\ c <> "/"%char.
Proof.
  induction l as [|c l IH]; simpl; [auto|].
  destruct (Ascii.eqb c "/") eqn:E; [exact IH|].
  right. exists c, l. split; [reflexivity|].
  intros ->. discriminate E.
Qed.

Lemma drop_slashes_split (l : list ascii) :
  exists k, l = repeat "/"%char k ++ drop_slashes l.
Proof.
  induction l as [|c l [k IH]]; simpl.
  - exists 0. reflexivity.
  - destruct (Ascii.eqb c "/") eqn:E.
    + apply Ascii.eqb_eq in E. subst c. exists (S k). simpl. congruence.
    + exists 0. reflexivity.
Qed.

Lemma rev_repeat {A} (x : A) (k : nat) : rev (repeat x k) = repeat x k.
Proof.
  induction k as [|k IH]; [reflexivity|].
  simpl. rewrite IH. clear IH.
  induction k as [|k IH]; [reflexivity|]. simpl. congruence.
Qed.

(** X2.  The service keeps its base URL without any trailing slash: the URL
    given is the kept one followed by slashes only, the kept one does not
    end in a slash, and a URL given with one more slash is kept the
    same. *)
Theorem init_strips_slashes (url : string) :
  let base :=
    EmoseumWebhookService.emoseum_server_url (EmoseumWebhookService.init url) in
  (exists k, list_ascii_of_string url
             = list_ascii_of_string base ++ repeat "/"%char k) /\
  (forall s, base <> (s ++ "/")%string) /\
  EmoseumWebhookService.init (url ++ "/")%string = EmoseumWebhookService.init url /\
  EmoseumWebhookService.init base = EmoseumWebhookService.init url.
Proof.
  unfold EmoseumWebhookService.init.
  cbn [EmoseumWebhookService.emoseum_server_url]. cbv zeta.
  unfold rstrip_slash.
  set (l := list_ascii_of_string url).
  assert (Hsplit : exists k, l = rev (drop_slashes (rev l)) ++ repeat "/"%char k).
  { destruct (drop_slashes_split (rev l)) as [k Hk].
    exists k. rewrite <- (rev_involutive l) at 1. rewrite Hk at 1.
    rewrite rev_app_distr, rev_repeat. reflexivity. }
  assert (Hlast : forall s : string,
             rev (drop_slashes (rev l)) <> list_ascii_of_string (s ++ "/")%string).
  { intros s E. rewrite chars_append in E. cbn in E.
    apply (f_equal (@rev ascii)) in E.
    rewrite rev_involutive, rev_app_distr in E. cbn in E.
    destruct (drop_slashes_head (rev l)) as [H|(c & l' & H & Hc)];
      rewrite H in E; [discriminate|].
    injection E as E _. contradiction. }
  split; [|split; [|split]].
  - destruct Hsplit as [k Hk]. exists k.
    rewrite list_ascii_of_string_of_list_ascii. exact Hk.
  - intros s E. apply (Hlast s). rewrite <- E.
    rewrite list_ascii_of_string_of_list_ascii. reflexivity.
  - f_equal. rewrite chars_append. cbn.
    rewrite rev_app_distr. reflexivity.
  - f_equal. rewrite list_ascii_of_string_of_list_ascii, rev_involutive.
    destruct (drop_slashes_head (rev l)) as [H|(c & l' & H & Hc)]; rewrite H.
    + reflexivity.
    + simpl. destruct (Ascii.eqb c "/") eqn:E; [|reflexivity].
      apply Ascii.eqb_eq in E. contradiction.
Qed.

(** ** Creation: round trip and failures after a partial write *)

Section CreationEdges.

Variable self : GalleryManager.t.
Variables t1 t2 : datetime.
Variable new_id : ObjectId.
Variables user_id diary_text : string.
Variable emotion_keywords : list string.
Variables reflection_prompt coping_style : string.
Variable gpt_prompt_tokens : Z.
Variable prompt_generation_time : spec_float.
Variable diary_id : option string.
Variable svc : option EmoseumWebhookService.t.

Local Abbreviation create vad image :=
  (GalleryManager.create_gallery_item self t1 t2 new_id user_id diary_text
     emotion_keywords vad reflection_prompt image coping_style
     gpt_prompt_tokens prompt_generation_time diary_id svc).

Local Abbreviation the_doc vl :=
  (created_doc self t1 t2 new_id user_id diary_text emotion_keywords vl
     reflection_prompt coping_style gpt_prompt_tokens prompt_generation_time
     diary_id).

Local Abbreviation the_item now vl :=
  (created_item self t1 t2 new_id user_id diary_text emotion_keywords vl
     reflection_prompt coping_style gpt_prompt_tokens prompt_generation_time
     diary_id now).

Local Abbreviation the_path :=
  (path_str (GalleryManager.reflection_path_of self user_id t1)).

(** X3.  Round trip of a creation: the record fetched with the id that
    [create_gallery_item] returned, turned into a dict by [to_dict], is
    the stored document field for field and in the same order, except
    that [item_id] now holds the text of the primary key and
    [vad_scores] is a tuple. *)
Theorem created_record_to_dict (now : datetime) (img : Image) (vad : PyVal)
    (vl : list PyVal) (w : World) :
  io_faults w = [] -> py_iter vad = Ok vl ->
  violates_unique new_id (doc_fields (the_doc vl)) (gallery_items w) = false ->
  wants_sync svc diary_id = false \/ loop_running w = true ->
  exists w' r,
    create vad (PILImage img) w = (Ok (readable_id user_id t2), w') /\
    gallery_items w' = gallery_items w ++ [the_doc vl] /\
    GalleryManager.get_gallery_item self now (readable_id user_id t2) w'
    = (Ok (Some r), w') /\
    GalleryItem.to_dict r
    = dict_set "vad_scores" (VTuple (map to_bson vl))
        (dict_set "item_id" (VStr (ObjectId_str new_id))
           (doc_fields (the_doc vl))).
Proof.
  intros Hf Hv Hu Hs.
  destruct (create_ok self t1 t2 new_id user_id diary_text emotion_keywords
              reflection_prompt coping_style gpt_prompt_tokens
              prompt_generation_time diary_id svc img vad vl w Hf Hv Hu Hs)
    as (w' & Hc & Hi & _ & Hf' & _).
  exists w', (the_item now vl).
  split; [exact Hc|]. split; [exact Hi|].
  split.
  { exact (get_created self t1 t2 new_id user_id diary_text emotion_keywords
             reflection_prompt coping_style gpt_prompt_tokens
             prompt_generation_time diary_id now vl w' (gallery_items w)
             Hf' Hi Hu). }
  unfold GalleryItem.to_dict, created_item, created_doc, GalleryItem.init.
  cbn [GalleryItem.item_id GalleryItem.user_id GalleryItem.diary_text
       GalleryItem.emotion_keywords GalleryItem.vad_scores
       GalleryItem.reflection_prompt GalleryItem.reflection_image_path
       GalleryItem.artwork_title GalleryItem.docent_message
       GalleryItem.message_reactions GalleryItem.guided_question
       GalleryItem.created_date GalleryItem.coping_style GalleryItem.diary_id
       GalleryItem.gpt_prompt_used GalleryItem.gpt_prompt_tokens
       GalleryItem.gpt_docent_used GalleryItem.gpt_docent_tokens
       GalleryItem.prompt_generation_time GalleryItem.prompt_generation_method
       GalleryItem.docent_generation_method
       doc_fields bson_doc GalleryManager.item_doc map fst snd to_bson
       dict_set String.eqb Ascii.eqb Bool.eqb py_or truthy length Nat.eqb negb].
  rewrite map_to_bson_VStr, to_bson_py_str_opt.
  assert (E : py_or (VStr (isoformat t2)) (VStr (isoformat now))
              = VStr (isoformat t2)).
  { unfold py_or. cbn [truthy].
    destruct (isoformat t2 =? "")%string eqn:E; [|reflexivity].
    apply String.eqb_eq in E. unfold isoformat in E.
    apply append_empty_r in E. discriminate E. }
  rewrite E. reflexivity.
Qed.

Lemma existsb_In {A} (p : A -> bool) (l : list A) (x : A) :
  In x l -> p x = true -> existsb p l = true.
Proof. intros Hin Hp. apply existsb_exists. exists x. auto. Qed.

(** X4.  A second record for the same user within the same second gets
    the same readable id: the unique index refuses the insert, the call
    raises [DuplicateKeyError], the collection is unchanged, and the image
    file written before the insert stays written. *)
Theorem create_gallery_item_duplicate (img : Image) (vad : PyVal)
    (vl : list PyVal) (w : World) (d : StoredDoc) :
  io_faults w = [] -> py_iter vad = Ok vl ->
  In d (gallery_items w) ->
  dict_get "item_id" (doc_fields d) = Some (VStr (readable_id user_id t2)) ->
  create vad (PILImage img) w
  = (Raise (Exn DuplicateKeyError "E11000 duplicate key error"),
     with_files (image_files w ++ [(the_path, img)]) w).
Proof.
  intros Hf Hv Hin Hd.
  unfold GalleryManager.create_gallery_item, Image_save, py_list, insert_one.
  unfold_M. rewrite Hf, Hv. cbn [io_faults with_files gallery_items].
  rewrite Hf.
  change (bson_doc (GalleryManager.item_doc _ _ _ _ _ _ _ _ _ _ _ _))
    with (doc_fields (the_doc vl)).
  assert (Hu : violates_unique new_id (doc_fields (the_doc vl))
                 (gallery_items w) = true).
  { unfold violates_unique. apply (existsb_In _ _ d Hin).
    apply orb_true_iff. right. rewrite Hd.
    change (dict_get "item_id" (doc_fields (the_doc vl)))
      with (Some (VStr (readable_id user_id t2))).
    cbn [option_eqb]. apply pyval_eqb_refl. }
  rewrite Hu. reflexivity.
Qed.

(** X5.  When a sync is requested and no event loop is running (the
    manager is called from synchronous code), [asyncio.create_task]
    raises after the insert: the call fails with [RuntimeError], no task
    is scheduled, and yet the record is stored and can be fetched. *)
Theorem create_gallery_item_without_loop (now : datetime) (img : Image)
    (vad : PyVal) (vl : list PyVal) (w : World) :
  io_faults w = [] -> py_iter vad = Ok vl ->
  violates_unique new_id (doc_fields (the_doc vl)) (gallery_items w) = false ->
  wants_sync svc diary_id = true -> loop_running w = false ->
  exists w',
    create vad (PILImage img) w
    = (Raise (Exn RuntimeError "no running event loop"), w') /\
    gallery_items w' = gallery_items w ++ [the_doc vl] /\
    scheduled w' = scheduled w /\
    GalleryManager.get_gallery_item self now (readable_id user_id t2) w'
    = (Ok (Some (the_item now vl)), w').
Proof.
  intros Hf Hv Hu Hs Hl.
  unfold GalleryManager.create_gallery_item, Image_save, py_list, insert_one.
  unfold_M. rewrite Hf, Hv. cbn [io_faults with_files gallery_items].
  rewrite Hf.
  change (bson_doc (GalleryManager.item_doc _ _ _ _ _ _ _ _ _ _ _ _))
    with (doc_fields (the_doc vl)).
  rewrite Hu.
  unfold wants_sync in Hs.
  destruct svc as [s|]; [|discriminate].
  destruct diary_id as [did|]; [|discriminate].
  rewrite Hs. cbn [loop_running with_items with_files]. rewrite Hl.
  eexists. split; [reflexivity|].
  split; [reflexivity|]. split; [reflexivity|].
  apply (get_created self t1 t2 new_id user_id diary_text emotion_keywords
           reflection_prompt coping_style gpt_prompt_tokens
           prompt_generation_time (Some did) now vl _ (gallery_items w));
    [exact Hf | reflexivity | exact Hu].
Qed.

End CreationEdges.

Lemma created_record_to_dict_witness :
  io_faults Sample.world0 = [] /\
  exists w' r,
    Sample.create Sample.vad (PILImage Sample.img) Sample.world0
    = (Ok Sample.item_id, w') /\
    GalleryManager.get_gallery_item Sample.mgr Sample.t0 Sample.item_id w'
    = (Ok (Some r), w') /\
    dict_get "item_id" (GalleryItem.to_dict r)
    = Some (VStr "65e01a2b3c4d5e6f708192a3") /\
    dict_get "user_id" (GalleryItem.to_dict r) = Some (VStr "u1") /\
    dict_get "vad_scores" (GalleryItem.to_dict r) = Some Sample.vad.
Proof.
  split; [reflexivity|].
  destruct (created_record_to_dict
              Sample.mgr Sample.t0 Sample.t0 Sample.oid "u1" "a quiet day"
              ["calm"; "tired"] "a calm lake at dawn" "balanced" 120%Z
              (S754_zero false) (Some "diary-7") (Some Sample.svc)
              Sample.t0 Sample.img Sample.vad
              [Sample.f_0_2; Sample.f_m0_1; Sample.f_0_5] Sample.world0
              eq_refl eq_refl eq_refl (or_intror eq_refl))
    as (w' & r & Hc & _ & Hg & Hd).
  exists w', r. split; [exact Hc|]. split; [exact Hg|].
  rewrite Hd. repeat split.
Defined.

(** The scenario's record exists; the same user creates again within the
    same second. *)
Lemma create_gallery_item_duplicate_witness :
  io_faults Sample.world1 = [] /\
  In Sample.doc1 (gallery_items Sample.world1) /\
  dict_get "item_id" (doc_fields Sample.doc1) = Some (VStr Sample.item_id) /\
  fst (GalleryManager.create_gallery_item Sample.mgr Sample.t0 Sample.t0
         [x01; x02; x03; x04; x05; x06; x07; x08; x09; x0a; x0b; x0c]%byte
         "u1" "another entry" ["glad"] Sample.vad "a bright field"
         (PILImage Sample.img) "balanced" 80 (S754_zero false) None None
         Sample.world1)
  = Raise (Exn DuplicateKeyError "E11000 duplicate key error").
Proof.
  assert (Hin : In Sample.doc1 (gallery_items Sample.world1))
    by (left; reflexivity).
  split; [reflexivity|]. split; [exact Hin|]. split; [reflexivity|].
  rewrite (create_gallery_item_duplicate
             Sample.mgr Sample.t0 Sample.t0
             [x01; x02; x03; x04; x05; x06; x07; x08; x09; x0a; x0b; x0c]%byte
             "u1" "another entry" ["glad"] "a bright field" "balanced" 80%Z
             (S754_zero false) None None
             Sample.img Sample.vad
             [Sample.f_0_2; Sample.f_m0_1; Sample.f_0_5] Sample.world1
             Sample.doc1 eq_refl eq_refl Hin eq_refl).
  reflexivity.
Defined.

Lemma create_gallery_item_without_loop_witness :
  io_faults Sample.world_noloop = [] /\
  loop_running Sample.world_noloop = false /\
  exists w',
    Sample.create Sample.vad (PILImage Sample.img) Sample.world_noloop
    = (Raise (Exn RuntimeError "no running event loop"), w') /\
    length (gallery_items w') = 1 /\
    GalleryManager.get_gallery_item Sample.mgr Sample.t0 Sample.item_id w'
    = (Ok (Some Sample.item1), w').
Proof.
  split; [reflexivity|]. split; [reflexivity|].
  destruct (create_gallery_item_without_loop
              Sample.mgr Sample.t0 Sample.t0 Sample.oid "u1" "a quiet day"
              ["calm"; "tired"] "a calm lake at dawn" "balanced" 120%Z
              (S754_zero false) (Some "diary-7") (Some Sample.svc)
              Sample.t0 Sample.img Sample.vad
              [Sample.f_0_2; Sample.f_m0_1; Sample.f_0_5] Sample.world_noloop
              eq_refl eq_refl eq_refl eq_refl eq_refl)
    as (w' & Hc & Hi & _ & Hg).
  exists w'. split; [exact Hc|]. split; [rewrite Hi; reflexivity|].
  exact Hg.
Defined.

(** ** Stage completions: repetition, malformed reviews, missing loop *)

(** Setting two different keys twice is setting them once. *)
Lemma apply_set_twice (k1 k2 : string) (v1 v2 : PyVal) (fields : dict) :
  k1 <> k2 ->
  apply_set [(k1, v1); (k2, v2)] (apply_set [(k1, v1); (k2, v2)] fields)
  = apply_set [(k1, v1); (k2, v2)] fields.
Proof.
  intros Hne. unfold apply_set. cbn [fold_left fst snd].
  set (d' := dict_set k2 (to_bson v2) (dict_set k1 (to_bson v1) fields)).
  assert (H1 : dict_get k1 d' = Some (to_bson v1)).
  { unfold d'. rewrite dict_get_set_other by auto. apply dict_get_set_same. }
  assert (H2 : dict_get k2 d' = Some (to_bson v2)).
  { unfold d'. apply dict_get_set_same. }
  rewrite (dict_set_same_value _ _ _ H1), (dict_set_same_value _ _ _ H2).
  reflexivity.
Qed.

(** An update applied to its own result modifies nothing. *)
Lemma update_first_again (f : Filter) (sets : dict) (ds : list StoredDoc) :
  (forall d, matches f {| doc_id := doc_id d;
                          doc_fields := apply_set sets (doc_fields d) |}
             = matches f d) ->
  (forall fields, apply_set sets (apply_set sets fields)
                  = apply_set sets fields) ->
  modified_count (snd (update_first f sets (fst (update_first f sets ds))))
  = 0%N.
Proof.
  intros Hm Hi. induction ds as [|x ds IH]; [reflexivity|].
  cbn [update_first]. destruct (matches f x) eqn:Ex.
  - cbn [fst update_first]. rewrite (Hm x), Ex. cbn [snd modified_count doc_fields].
    rewrite Hi, (proj2 (dict_eqb_eq _ _) eq_refl). reflexivity.
  - destruct (update_first f sets ds) as [ds' r] eqn:Eu.
    cbn [fst update_first] in *. rewrite Ex.
    destruct (update_first f sets ds') as [ds'' r'']. exact IH.
Qed.

Lemma with_items_same (w : World) : with_items (gallery_items w) w = w.
Proof. destruct w; reflexivity. Qed.

Section CompletionEdges.

Variable self : GalleryManager.t.
Variable item_id : string.
Variable svc : option EmoseumWebhookService.t.

Local Abbreviation by_item_id := (by_field "item_id" (VStr item_id)).

Local Abbreviation reviewed dm tok d :=
  {| doc_id := doc_id d;
     doc_fields :=
       dict_set "gpt_docent_tokens" (to_bson tok)
         (dict_set "docent_message" (to_bson dm) (doc_fields d)) |}.

Lemma second_update_one (sets : dict) (w1 : World) (ds : list StoredDoc) :
  io_faults w1 = [] ->
  gallery_items w1 = fst (update_first by_item_id sets ds) ->
  Forall (fun kv => fst kv <> "item_id") sets ->
  (forall fields, apply_set sets (apply_set sets fields)
                  = apply_set sets fields) ->
  exists r, update_one by_item_id sets w1 = (Ok r, w1) /\
            modified_count r = 0%N.
Proof.
  intros Hf Hi Hk Hidem.
  rewrite (update_one_no_fault by_item_id sets w1 Hf).
  assert (H0 : modified_count (snd (update_first by_item_id sets
                                      (gallery_items w1))) = 0%N).
  { rewrite Hi. apply update_first_again; [|exact Hidem].
    intros d. apply matches_item_id_apply_set. exact Hk. }
  eexists. split; [|exact H0].
  rewrite (update_first_unchanged _ _ _ H0), with_items_same. reflexivity.
Qed.

(** X6.  Completing the title a second time with the same title and
    question returns [False] and changes nothing, whatever the first call
    returned. *)
Theorem complete_artwork_title_twice (artwork_title guided_question : string)
    (w : World) :
  io_faults w = [] ->
  let w1 := snd (GalleryManager.complete_artwork_title self item_id
                   artwork_title guided_question svc w) in
  GalleryManager.complete_artwork_title self item_id artwork_title
    guided_question svc w1 = (Ok false, w1).
Proof.
  intros Hf. cbv zeta.
  set (sets := [("artwork_title", VStr artwork_title);
                ("guided_question", VStr guided_question)]).
  assert (Hw1 : exists w1,
             snd (GalleryManager.complete_artwork_title self item_id
                    artwork_title guided_question svc w) = w1 /\
             io_faults w1 = [] /\
             gallery_items w1
             = fst (update_first by_item_id sets (gallery_items w))).
  { unfold GalleryManager.complete_artwork_title. unfold_M. fold sets.
    rewrite (update_one_no_fault by_item_id sets w Hf).
    eexists. split; [reflexivity|]. split; [exact Hf | reflexivity]. }
  destruct Hw1 as (w1 & -> & Hf1 & Hi1).
  destruct (second_update_one sets w1 (gallery_items w) Hf1 Hi1)
    as (r & Hu & H0).
  { repeat constructor; discriminate. }
  { intros fields. apply apply_set_twice. discriminate. }
  unfold GalleryManager.complete_artwork_title. unfold_M.
  fold sets. rewrite Hu, H0. reflexivity.
Qed.

(** X7.  Sending the same review a second time returns [False], changes
    nothing and schedules no further sync, whatever the first call
    returned. *)
Theorem add_docent_message_twice (docent_message : PyVal) (w : World) :
  io_faults w = [] ->
  let w1 := snd (GalleryManager.add_docent_message self item_id
                   docent_message svc w) in
  GalleryManager.add_docent_message self item_id docent_message svc w1
  = (Ok false, w1).
Proof.
  intros Hf. cbv zeta.
  destruct (GalleryManager.docent_tokens docent_message) as [tok|e] eqn:Et.
  2:{ unfold GalleryManager.add_docent_message. unfold_M. rewrite Et.
      reflexivity. }
  set (sets := [("docent_message", docent_message);
                ("gpt_docent_tokens", tok)]).
  assert (Hw1 : exists w1,
             snd (GalleryManager.add_docent_message self item_id
                    docent_message svc w) = w1 /\
             io_faults w1 = [] /\
             gallery_items w1
             = fst (update_first by_item_id sets (gallery_items w))).
  { unfold GalleryManager.add_docent_message. unfold_M. rewrite Et.
    cbv beta iota. fold sets.
    rewrite (update_one_no_fault by_item_id sets w Hf).
    destruct (0 <? _)%N.
    - destruct svc as [s|].
      + cbn [loop_running with_items]. destruct (loop_running w);
          (eexists; split; [reflexivity|]; split; [exact Hf | reflexivity]).
      + eexists; split; [reflexivity|]; split; [exact Hf | reflexivity].
    - eexists; split; [reflexivity|]; split; [exact Hf | reflexivity]. }
  destruct Hw1 as (w1 & -> & Hf1 & Hi1).
  destruct (second_update_one sets w1 (gallery_items w) Hf1 Hi1)
    as (r & Hu & H0).
  { repeat constructor; discriminate. }
  { intros fields. apply apply_set_twice. discriminate. }
  unfold GalleryManager.add_docent_message. unfold_M. rewrite Et.
  cbv beta iota. fold sets. rewrite Hu, H0. reflexivity.
Qed.

Lemma get_default_set_same k v d x : get_default (dict_set k v d) k x = v.
Proof. unfold get_default. rewrite dict_get_set_same. reflexivity. Qed.

(** X8.  After [complete_artwork_title], fetching the record by the same
    readable id shows the title and the guided question just given, and
    every other attribute as it was before, whether the call returned
    [True] or found the values already there. *)
Theorem complete_artwork_title_then_get (artwork_title guided_question : string)
    (now : datetime) (w : World) (d : StoredDoc) (r : GalleryItem.t) (e : exn) :
  io_faults w = [] ->
  ObjectId_of_str item_id = Raise e ->
  find (matches by_item_id) (gallery_items w) = Some d ->
  GalleryManager._doc_to_gallery_item now d = Ok r ->
  let w1 := snd (GalleryManager.complete_artwork_title self item_id
                   artwork_title guided_question svc w) in
  GalleryManager.get_gallery_item self now item_id w1
  = (Ok (Some (with_title (VStr artwork_title) (VStr guided_question) r)), w1).
Proof.
  intros Hf Hoid Hfind Hr. cbv zeta.
  set (sets := [("artwork_title", VStr artwork_title);
                ("guided_question", VStr guided_question)]).
  set (d' := {| doc_id := doc_id d;
                doc_fields := apply_set sets (doc_fields d) |}).
  assert (Hw1 : exists w1,
             snd (GalleryManager.complete_artwork_title self item_id
                    artwork_title guided_question svc w) = w1 /\
             io_faults w1 = [] /\
             find (matches by_item_id) (gallery_items w1) = Some d').
  { unfold GalleryManager.complete_artwork_title. unfold_M. fold sets.
    rewrite (update_one_no_fault by_item_id sets w Hf).
    eexists. split; [reflexivity|]. split; [exact Hf|].
    cbn [gallery_items with_items].
    destruct (update_first_hit by_item_id sets _ d Hfind)
      as (pre & post & _ & Hpre & Hd & Hu).
    rewrite Hu. cbn [fst]. apply find_app_first; [exact Hpre|].
    unfold d'. rewrite matches_item_id_apply_set; [exact Hd|].
    repeat constructor; discriminate. }
  destruct Hw1 as (w1 & -> & Hf1 & Hfind1).
  rewrite (get_gallery_item_no_fault self now item_id w1 Hf1).
  unfold GetRecord, lookup_primary. rewrite Hoid.
  unfold lookup_secondary. rewrite Hfind1. unfold to_item.
  f_equal. f_equal.
  unfold GalleryManager._doc_to_gallery_item in *.
  unfold d', sets, apply_set. cbn [doc_fields doc_id fold_left fst snd to_bson].
  rewrite !get_default_set_same.
  rewrite !(get_default_set_other "guided_question") by discriminate.
  rewrite !get_default_set_same.
  rewrite !(get_default_set_other "artwork_title") by discriminate.
  destruct (py_tuple _) as [v|]; [|discriminate].
  injection Hr as <-. reflexivity.
Qed.

(** X9.  A review that is not a dict, or whose [metadata] or
    [token_usage] entry is not a dict, is refused: the call returns [False]
    without contacting the store, and nothing changes. *)
Theorem add_docent_message_malformed (docent_message : PyVal) (w : World) :
  isinstance_dict docent_message = false \/
  (exists d v, docent_message = VDict d /\
               dict_get "metadata" d = Some v /\
               isinstance_dict v = false) \/
  (exists d md v, docent_message = VDict d /\
                  dict_get "metadata" d = Some (VDict md) /\
                  dict_get "token_usage" md = Some v /\
                  isinstance_dict v = false) ->
  GalleryManager.add_docent_message self item_id docent_message svc w
  = (Ok false, w).
Proof.
  intros H.
  assert (Ht : exists e, GalleryManager.docent_tokens docent_message = Raise e).
  { unfold GalleryManager.docent_tokens, py_get, get_default.
    destruct H as [H | [(d & v & -> & Hm & Hv) | (d & md & v & -> & Hm & Ht & Hv)]].
    - destruct docent_message; try discriminate; eauto.
    - rewrite Hm. destruct v; try discriminate; eauto.
    - rewrite Hm, Ht. destruct v; try discriminate; eauto. }
  destruct Ht as [e Ht].
  unfold GalleryManager.add_docent_message. unfold_M. rewrite Ht.
  reflexivity.
Qed.

(** X10.  With a webhook service but no running event loop, a review that
    changes the record is stored and the call still returns [False]:
    [asyncio.create_task] raises after the update, and the handler turns
    that into [False].  No task is scheduled. *)
Theorem add_docent_message_without_loop (s : EmoseumWebhookService.t)
    (dm tok : PyVal) (w : World) (d : StoredDoc) :
  svc = Some s ->
  io_faults w = [] -> loop_running w = false ->
  find (matches by_item_id) (gallery_items w) = Some d ->
  GalleryManager.docent_tokens dm = Ok tok ->
  dict_get "docent_message" (doc_fields d) <> Some (to_bson dm) ->
  exists w',
    GalleryManager.add_docent_message self item_id dm svc w = (Ok false, w') /\
    find (matches by_item_id) (gallery_items w') = Some (reviewed dm tok d) /\
    dict_get "docent_message" (doc_fields (reviewed dm tok d))
    = Some (to_bson dm) /\
    scheduled w' = scheduled w.
Proof.
  intros Hs Hf Hl Hfind Htok Hnew.
  set (sets := [("docent_message", dm); ("gpt_docent_tokens", tok)]).
  destruct (update_first_hit by_item_id sets _ d Hfind)
    as (pre & post & _ & Hpre & Hd & Hu).
  assert (Hne : dict_eqb (apply_set sets (doc_fields d)) (doc_fields d) = false).
  { destruct (dict_eqb _ _) eqn:E; [|reflexivity].
    apply dict_eqb_eq in E. exfalso. apply Hnew. rewrite <- E.
    unfold sets, apply_set. cbn [fold_left fst snd].
    rewrite dict_get_set_other by discriminate. apply dict_get_set_same. }
  unfold GalleryManager.add_docent_message. unfold_M. rewrite Htok.
  cbv beta iota. fold sets.
  rewrite (update_one_no_fault by_item_id sets w Hf), Hu.
  cbn [fst snd modified_count]. rewrite Hne.
  change (0 <? 1)%N with true. cbv beta iota. rewrite Hs.
  cbn [loop_running with_items]. rewrite Hl.
  eexists. split; [reflexivity|]. cbn [gallery_items with_items scheduled].
  split; [|split; [|reflexivity]].
  - apply find_app_first; [exact Hpre|].
    change (reviewed dm tok d)
      with {| doc_id := doc_id d;
              doc_fields := apply_set sets (doc_fields d) |}.
    rewrite matches_item_id_apply_set; [exact Hd|].
    repeat constructor; discriminate.
  - cbn [doc_fields]. rewrite dict_get_set_other by discriminate.
    apply dict_get_set_same.
Qed.

Section UsageAfterReview.

Variable py_add : PyVal -> PyVal -> result PyVal.
Hypothesis py_add_int :
  forall a b, py_add (VInt a) (VInt b) = Ok (VInt (a + b)).

(** X11.  After a review with an integer [total_tokens] has been added to
    a record whose prompt token count is an integer, the usage summary of
    the record read back reports both counts and their sum. *)
Theorem usage_summary_after_review (dm : dict) (p t : Z) (w : World)
    (d : StoredDoc) :
  io_faults w = [] ->
  find (matches by_item_id) (gallery_items w) = Some d ->
  dict_get "gpt_prompt_tokens" (doc_fields d) = Some (VInt p) ->
  GalleryManager.docent_tokens (VDict dm) = Ok (VInt t) ->
  exists b w' d',
    GalleryManager.add_docent_message self item_id (VDict dm) svc w
    = (Ok b, w') /\
    find (matches by_item_id) (gallery_items w') = Some d' /\
    forall now r,
      GalleryManager._doc_to_gallery_item now d' = Ok r ->
      exists summary,
        GalleryItem.get_gpt_usage_summary py_add r = Ok summary /\
        dict_get "total_tokens" summary = Some (VInt (p + t)) /\
        dict_get "prompt_tokens" summary = Some (VInt p) /\
        dict_get "docent_tokens" summary = Some (VInt t).
Proof.
  intros Hf Hfind Hp Htok.
  destruct (add_docent_message_effect self item_id svc (VDict dm) (VInt t)
              w d Hf Hfind Htok)
    as (b & w' & Hc & _ & Hfind' & _).
  exists b, w', (reviewed (VDict dm) (VInt t) d).
  split; [exact Hc|]. split; [exact Hfind'|].
  intros now r Hr.
  unfold GalleryManager._doc_to_gallery_item in Hr.
  destruct (py_tuple _) as [v|]; [|discriminate].
  injection Hr as <-.
  set (r := GalleryItem.init _ _ _ _ _ _ _ _ _ _ _ _ _ _ _ _ _ _ _ _ _ _).
  assert (Hpt : GalleryItem.gpt_prompt_tokens r = VInt p).
  { unfold r, GalleryItem.init.
    cbn [GalleryItem.gpt_prompt_tokens doc_fields].
    rewrite !(get_default_set_other _ "gpt_prompt_tokens") by discriminate.
    unfold get_default. rewrite Hp. reflexivity. }
  assert (Hdt : GalleryItem.gpt_docent_tokens r = VInt t).
  { unfold r, GalleryItem.init.
    cbn [GalleryItem.gpt_docent_tokens doc_fields].
    rewrite get_default_set_same. reflexivity. }
  unfold GalleryItem.get_gpt_usage_summary.
  rewrite Hpt, Hdt, py_add_int.
  eexists. split; [reflexivity|].
  split; [reflexivity|]. split; reflexivity.
Qed.

End UsageAfterReview.

End CompletionEdges.

Lemma complete_artwork_title_twice_witness :
  io_faults Sample.world1 = [] /\
  fst (GalleryManager.complete_artwork_title Sample.mgr Sample.item_id
         "Quiet Morning" "What made this moment calm?" (Some Sample.svc)
         Sample.world1) = Ok true /\
  GalleryManager.complete_artwork_title Sample.mgr Sample.item_id
    "Quiet Morning" "What made this moment calm?" (Some Sample.svc)
    Sample.world2 = (Ok false, Sample.world2).
Proof.
  split; [reflexivity|]. split; [reflexivity|].
  exact (complete_artwork_title_twice Sample.mgr Sample.item_id
           (Some Sample.svc) "Quiet Morning" "What made this moment calm?"
           Sample.world1 eq_refl).
Defined.

Lemma add_docent_message_twice_witness :
  io_faults Sample.world2 = [] /\
  fst (GalleryManager.add_docent_message Sample.mgr Sample.item_id
         (VDict Sample.review) (Some Sample.svc) Sample.world2) = Ok true /\
  GalleryManager.add_docent_message Sample.mgr Sample.item_id
    (VDict Sample.review) (Some Sample.svc) Sample.world3
  = (Ok false, Sample.world3).
Proof.
  split; [reflexivity|]. split; [reflexivity|].
  exact (add_docent_message_twice Sample.mgr Sample.item_id
           (Some Sample.svc) (VDict Sample.review) Sample.world2 eq_refl).
Defined.

Lemma complete_artwork_title_then_get_witness :
  io_faults Sample.world1 = [] /\
  find (matches (by_field "item_id" (VStr Sample.item_id)))
       (gallery_items Sample.world1) = Some Sample.doc1 /\
  GalleryManager._doc_to_gallery_item Sample.t0 Sample.doc1
  = Ok Sample.item1 /\
  exists r,
    GalleryManager.get_gallery_item Sample.mgr Sample.t0 Sample.item_id
      Sample.world2 = (Ok (Some r), Sample.world2) /\
    GalleryItem.artwork_title r = VStr "Quiet Morning" /\
    GalleryItem.guided_question r = VStr "What made this moment calm?" /\
    GalleryItem.docent_message r = VDict [] /\
    GalleryItem.get_next_step r = "docent_message".
Proof.
  split; [reflexivity|]. split; [reflexivity|]. split; [reflexivity|].
  eexists. split.
  - exact (complete_artwork_title_then_get Sample.mgr Sample.item_id
             (Some Sample.svc) "Quiet Morning" "What made this moment calm?"
             Sample.t0 Sample.world1 Sample.doc1 Sample.item1
             (Exn InvalidId "not a valid ObjectId")
             eq_refl eq_refl eq_refl eq_refl).
  - repeat split.
Defined.

Lemma add_docent_message_malformed_witness :
  GalleryManager.add_docent_message Sample.mgr Sample.item_id
    (VStr "a fine picture") None Sample.world2 = (Ok false, Sample.world2) /\
  GalleryManager.add_docent_message Sample.mgr Sample.item_id
    (VDict [("content", VStr "a fine picture"); ("metadata", VNone)])
    None Sample.world2 = (Ok false, Sample.world2).
Proof.
  split.
  - apply add_docent_message_malformed. left. reflexivity.
  - apply add_docent_message_malformed. right. left.
    exists [("content", VStr "a fine picture"); ("metadata", VNone)], VNone.
    repeat split.
Defined.

Lemma add_docent_message_without_loop_witness :
  io_faults Sample.world_noloop1 = [] /\
  loop_running Sample.world_noloop1 = false /\
  find (matches (by_field "item_id" (VStr Sample.item_id)))
       (gallery_items Sample.world_noloop1)
  = Some (Sample.stored Sample.world_noloop1) /\
  exists w' d',
    GalleryManager.add_docent_message Sample.mgr Sample.item_id
      (VDict Sample.review) (Some Sample.svc) Sample.world_noloop1
    = (Ok false, w') /\
    find (matches (by_field "item_id" (VStr Sample.item_id)))
         (gallery_items w') = Some d' /\
    dict_get "docent_message" (doc_fields d') = Some (VDict Sample.review).
Proof.
  split; [reflexivity|]. split; [reflexivity|]. split; [reflexivity|].
  assert (Hnew : dict_get "docent_message"
                   (doc_fields (Sample.stored Sample.world_noloop1))
                 <> Some (to_bson (VDict Sample.review)))
    by (vm_compute; discriminate).
  destruct (add_docent_message_without_loop Sample.mgr Sample.item_id
              (Some Sample.svc) Sample.svc (VDict Sample.review) (VInt 42)
              Sample.world_noloop1 (Sample.stored Sample.world_noloop1)
              eq_refl eq_refl eq_refl eq_refl eq_refl Hnew)
    as (w' & Hc & Hfind & Hdm & _).
  exists w'. eexists. split; [exact Hc|]. split; [exact Hfind | exact Hdm].
Defined.

Lemma usage_summary_after_review_witness :
  (forall a b, Sample.add_ints (VInt a) (VInt b) = Ok (VInt (a + b))) /\
  io_faults Sample.world2 = [] /\
  dict_get "gpt_prompt_tokens" (doc_fields Sample.doc2) = Some (VInt 120) /\
  exists summary,
    GalleryItem.get_gpt_usage_summary Sample.add_ints Sample.item3
    = Ok summary /\
    dict_get "total_tokens" summary = Some (VInt 162).
Proof.
  assert (Hadd : forall a b,
             Sample.add_ints (VInt a) (VInt b) = Ok (VInt (a + b)))
    by reflexivity.
  split; [exact Hadd|]. split; [reflexivity|]. split; [reflexivity|].
  destruct (usage_summary_after_review Sample.mgr Sample.item_id
              (Some Sample.svc) Sample.add_ints Hadd Sample.review 120 42
              Sample.world2 Sample.doc2 eq_refl eq_refl eq_refl eq_refl)
    as (b & w' & d' & Hc & Hfind & Hsum).
  assert (Ew : w' = Sample.world3)
    by (exact (eq_sym (f_equal snd Hc))).
  subst w'.
  assert (Ed : d' = Sample.doc3).
  { change (find (matches (by_field "item_id" (VStr Sample.item_id)))
                 (gallery_items Sample.world3))
      with (Some Sample.doc3) in Hfind.
    injection Hfind as Hfind. symmetry; exact Hfind. }
  subst d'.
  destruct (Hsum Sample.t0 Sample.item3 eq_refl) as (summary & Hs & Ht & _).
  exists summary. split; [exact Hs | exact Ht].
Defined.

(** ** What no call changes *)

Lemma option_eqb_eq (a b : option PyVal) : option_eqb a b = true <-> a = b.
Proof.
  destruct a, b; simpl; try (split; [discriminate | congruence]).
  - rewrite pyval_eqb_eq. split; congruence.
  - split; reflexivity.
Qed.

Lemma filter_dict_set (p : string -> bool) (k : string) (v : PyVal) (d : dict) :
  p k = false ->
  filter (fun kv => p (fst kv)) (dict_set k v d)
  = filter (fun kv => p (fst kv)) d.
Proof.
  intros Hk. induction d as [|[k' v'] d IH]; simpl.
  - rewrite Hk. reflexivity.
  - destruct (k' =? k)%string eqn:E; simpl.
    + apply String.eqb_eq in E. subst k'. rewrite Hk. reflexivity.
    + rewrite IH. reflexivity.
Qed.

Lemma filter_apply_set (p : string -> bool) (sets fields : dict) :
  Forall (fun kv => p (fst kv) = false) sets ->
  filter (fun kv => p (fst kv)) (apply_set sets fields)
  = filter (fun kv => p (fst kv)) fields.
Proof.
  unfold apply_set. revert fields.
  induction sets as [|[k v] sets IH]; intros fields H; simpl; [reflexivity|].
  inversion H as [|? ? Hk Hrest]; subst. simpl in Hk.
  rewrite (IH _ Hrest). apply filter_dict_set. exact Hk.
Qed.

(** An update that writes only the four stage fields keeps the fixed
    part of every document, in place. *)
Lemma update_first_immutable (f : Filter) (sets : dict) (ds : list StoredDoc) :
  Forall (fun kv => mutable_key (fst kv) = true) sets ->
  map immutable_part (fst (update_first f sets ds)) = map immutable_part ds.
Proof.
  intros Hs. induction ds as [|x ds IH]; [reflexivity|].
  cbn [update_first]. destruct (matches f x).
  - cbn [fst map]. f_equal. unfold immutable_part. cbn [doc_id doc_fields].
    f_equal.
    apply (filter_apply_set (fun k => negb (mutable_key k))).
    apply Forall_forall. intros kv Hin.
    rewrite Forall_forall in Hs. rewrite (Hs kv Hin). reflexivity.
  - destruct (update_first f sets ds) as [ds' r]. cbn [fst map] in *.
    rewrite IH. reflexivity.
Qed.

Section Immutable.

Variable self : GalleryManager.t.

(** The collection after a stage completion is the collection before, or
    the result of the one update. *)
Lemma complete_artwork_title_items item_id artwork_title guided_question svc w :
  gallery_items (snd (GalleryManager.complete_artwork_title self item_id
                        artwork_title guided_question svc w))
  = gallery_items w \/
  gallery_items (snd (GalleryManager.complete_artwork_title self item_id
                        artwork_title guided_question svc w))
  = fst (update_first (by_field "item_id" (VStr item_id))
           [("artwork_title", VStr artwork_title);
            ("guided_question", VStr guided_question)] (gallery_items w)).
Proof.
  unfold GalleryManager.complete_artwork_title. unfold_M.
  match goal with
  | |- context [update_one ?f ?s w] =>
      destruct (update_one_cases f s w) as [(fl & ->) | (w0 & Hi & _ & ->)]
  end; [left | right]; reflexivity.
Qed.

Lemma add_docent_message_items item_id docent_message svc w :
  gallery_items (snd (GalleryManager.add_docent_message self item_id
                        docent_message svc w))
  = gallery_items w \/
  exists tok,
    gallery_items (snd (GalleryManager.add_docent_message self item_id
                          docent_message svc w))
    = fst (update_first (by_field "item_id" (VStr item_id))
             [("docent_message", docent_message);
              ("gpt_docent_tokens", tok)] (gallery_items w)).
Proof.
  unfold GalleryManager.add_docent_message. unfold_M.
  destruct (GalleryManager.docent_tokens docent_message) as [tok|e];
    [|left; reflexivity].
  match goal with
  | |- context [update_one ?f ?s w] =>
      destruct (update_one_cases f s w) as [(fl & ->) | (w0 & Hi & _ & ->)]
  end; [left; reflexivity|].
  right. exists tok.
  destruct (0 <? _)%N; [|reflexivity].
  destruct svc as [s|]; [|reflexivity].
  cbn [loop_running with_items].
  destruct (loop_running w0); reflexivity.
Qed.

(** A creation leaves the collection alone or appends the new document,
    and appends only when the unique indexes allow it. *)
Lemma create_items_unique t1 t2 new_id user_id diary_text emotion_keywords
    vad reflection_prompt image coping_style gpt_prompt_tokens
    prompt_generation_time diary_id svc (w : World) :
  let w' := snd (GalleryManager.create_gallery_item self t1 t2 new_id user_id
                   diary_text emotion_keywords vad reflection_prompt image
                   coping_style gpt_prompt_tokens prompt_generation_time
                   diary_id svc w) in
  gallery_items w' = gallery_items w \/
  exists vl,
    let doc := created_doc self t1 t2 new_id user_id diary_text
                 emotion_keywords vl reflection_prompt coping_style
                 gpt_prompt_tokens prompt_generation_time diary_id in
    py_iter vad = Ok vl /\
    violates_unique new_id (doc_fields doc) (gallery_items w) = false /\
    gallery_items w' = gallery_items w ++ [doc].
Proof.
  cbv zeta.
  destruct image as [img|v]; [|left; reflexivity].
  unfold GalleryManager.create_gallery_item, Image_save, py_list, insert_one.
  unfold_M.
  destruct (io_faults w) as [|[] fl] eqn:Hf; [|left; reflexivity|];
    destruct (py_iter vad) as [vl|e] eqn:Hv; try (left; reflexivity);
    cbn [io_faults with_files with_faults gallery_items];
    rewrite ?Hf;
    change (bson_doc (GalleryManager.item_doc _ _ _ _ _ _ _ _ _ _ _ _))
      with (doc_fields (created_doc self t1 t2 new_id user_id diary_text
                          emotion_keywords vl reflection_prompt coping_style
                          gpt_prompt_tokens prompt_generation_time diary_id)).
  - destruct (violates_unique _ _ _) eqn:Hu; [left; reflexivity|].
    right. exists vl. split; [reflexivity|]. split; [exact Hu|].
    destruct svc as [s|], diary_id as [d|]; try reflexivity.
    destruct (negb (d =? "")); [|reflexivity].
    cbn [loop_running with_items with_files].
    destruct (loop_running w); reflexivity.
  - destruct fl as [|[] fl']; try (left; reflexivity);
      cbn [gallery_items with_faults with_files];
      (destruct (violates_unique _ _ _) eqn:Hu; [left; reflexivity|];
       right; exists vl; split; [reflexivity|]; split; [exact Hu|];
       destruct svc as [s|], diary_id as [d|]; try reflexivity;
       destruct (negb (d =? "")); [|reflexivity];
       cbn [loop_running with_items with_files with_faults];
       destruct (loop_running w); reflexivity).
Qed.

Lemma dict_get_filter (p : string -> bool) (k : string) (d : dict) :
  p k = true ->
  dict_get k (filter (fun kv => p (fst kv)) d) = dict_get k d.
Proof.
  intros Hk. induction d as [|[k' v] d IH]; simpl; [reflexivity|].
  destruct (p k') eqn:Ep; simpl.
  - destruct (k' =? k)%string; [reflexivity | exact IH].
  - destruct (k' =? k)%string eqn:E; [|exact IH].
    apply String.eqb_eq in E. congruence.
Qed.

Lemma immutable_doc_id (d : StoredDoc) : fst (immutable_part d) = doc_id d.
Proof. reflexivity. Qed.

Lemma immutable_get (k : string) (d : StoredDoc) :
  mutable_key k = false ->
  dict_get k (snd (immutable_part d)) = dict_get k (doc_fields d).
Proof.
  intros Hk. unfold immutable_part. cbn [snd].
  apply (dict_get_filter (fun k => negb (mutable_key k))).
  rewrite Hk. reflexivity.
Qed.

Lemma item_key_immutable (d : StoredDoc) :
  item_key d = dict_get "item_id" (snd (immutable_part d)).
Proof. unfold item_key. rewrite immutable_get; reflexivity. Qed.

Lemma stamped_immutable (d d' : StoredDoc) :
  immutable_part d = immutable_part d' -> stamped d = stamped d'.
Proof.
  intros E. unfold stamped.
  rewrite <- !(immutable_get "user_id") by reflexivity.
  rewrite <- !(immutable_get "created_date") by reflexivity.
  rewrite <- !(immutable_get "gpt_prompt_used") by reflexivity.
  rewrite <- !(immutable_get "gpt_docent_used") by reflexivity.
  rewrite E. reflexivity.
Qed.

Lemma Forall_map_eq {A B} (f : A -> B) (P : A -> Prop) (l l' : list A) :
  (forall a a', f a = f a' -> P a -> P a') ->
  map f l = map f l' -> Forall P l -> Forall P l'.
Proof.
  intros Hf. revert l'.
  induction l as [|a l IH]; intros [|a' l'] E H; try discriminate;
    [constructor|].
  injection E as Ea El. inversion H; subst.
  constructor; [eapply Hf; eauto | apply IH; auto].
Qed.

Lemma isoformat_nonempty (t : datetime) : isoformat t <> "".
Proof.
  unfold isoformat. intros E.
  apply append_empty_r in E. discriminate E.
Qed.

Lemma created_doc_stamped t1 t2 new_id user_id diary_text emotion_keywords vl
    reflection_prompt coping_style gpt_prompt_tokens prompt_generation_time
    diary_id :
  stamped (created_doc self t1 t2 new_id user_id diary_text emotion_keywords
             vl reflection_prompt coping_style gpt_prompt_tokens
             prompt_generation_time diary_id) = true.
Proof.
  unfold stamped, created_doc.
  cbn [doc_fields bson_doc GalleryManager.item_doc map fst snd dict_get
       String.eqb Ascii.eqb Bool.eqb to_bson option_eqb pyval_eqb].
  destruct (isoformat t2 =? "")%string eqn:E; [|reflexivity].
  apply String.eqb_eq in E. exfalso. exact (isoformat_nonempty t2 E).
Qed.

(** One call either keeps the fixed part of every document in place, or
    appends one freshly created document whose keys were free. *)
Lemma run_call_step (c : Call) (w : World) :
  map immutable_part (gallery_items (run_call self c w))
  = map immutable_part (gallery_items w) \/
  exists doc,
    gallery_items (run_call self c w) = gallery_items w ++ [doc] /\
    violates_unique (doc_id doc) (doc_fields doc) (gallery_items w) = false /\
    stamped doc = true.
Proof.
  destruct c; cbn [run_call].
  - match goal with
    | |- context [GalleryManager.create_gallery_item ?a ?b ?c ?d ?e ?f ?g ?h
                    ?i ?j ?k ?l ?m ?n ?o w] =>
        destruct (create_items_unique b c d e f g h i j k l m n o w)
          as [H | (vl & Hv & Hu & H)]
    end.
    + left. rewrite H. reflexivity.
    + right. eexists. split; [exact H|]. split; [exact Hu|].
      apply created_doc_stamped.
  - left.
    destruct (complete_artwork_title_items item_id artwork_title
                guided_question emoseum_webhook_service w) as [H|H];
      rewrite H; [reflexivity|].
    apply update_first_immutable. repeat constructor.
  - left.
    destruct (add_docent_message_items item_id docent_message
                emoseum_webhook_service w) as [H|[tok H]];
      rewrite H; [reflexivity|].
    apply update_first_immutable. repeat constructor.
  - left. rewrite get_gallery_item_items. reflexivity.
  - left. rewrite run_task_items. reflexivity.
Qed.

(** X12.  Whatever calls are made, no document is deleted or moved, and
    no document loses or changes its [_id] or any field other than
    [artwork_title], [guided_question], [docent_message] and
    [gpt_docent_tokens]: the collection only grows at its end. *)
Theorem run_calls_keep_documents (cs : list Call) (w : World) :
  exists tail,
    map immutable_part (gallery_items (run_calls self cs w))
    = map immutable_part (gallery_items w) ++ tail.
Proof.
  revert w. induction cs as [|c cs IH]; intros w.
  - exists []. rewrite app_nil_r. reflexivity.
  - cbn [run_calls fold_left].
    destruct (IH (run_call self c w)) as [tail Ht].
    fold (run_calls self cs (run_call self c w)). rewrite Ht.
    destruct (run_call_step c w) as [H | (doc & H & _)].
    + exists tail. rewrite H. reflexivity.
    + exists (immutable_part doc :: tail).
      rewrite H, map_app, <- app_assoc. reflexivity.
Qed.

Lemma map_doc_id_immutable (ds : list StoredDoc) :
  map doc_id ds = map fst (map immutable_part ds).
Proof. rewrite map_map. reflexivity. Qed.

Lemma map_item_key_immutable (ds : list StoredDoc) :
  map item_key ds
  = map (fun p => dict_get "item_id" (snd p)) (map immutable_part ds).
Proof.
  rewrite map_map. apply map_ext. intros d. apply item_key_immutable.
Qed.

Lemma keys_unique_immutable (ds ds' : list StoredDoc) :
  map immutable_part ds = map immutable_part ds' ->
  keys_unique ds -> keys_unique ds'.
Proof.
  intros E [H1 H2]. unfold keys_unique.
  rewrite (map_doc_id_immutable ds'), (map_item_key_immutable ds'), <- E.
  rewrite <- (map_doc_id_immutable ds), <- (map_item_key_immutable ds).
  split; assumption.
Qed.

Lemma violates_unique_false (new_id : ObjectId) (doc : dict)
    (ds : list StoredDoc) :
  violates_unique new_id doc ds = false ->
  ~ In new_id (map doc_id ds) /\
  ~ In (dict_get "item_id" doc) (map item_key ds).
Proof.
  unfold violates_unique. intros H. split; intros Hin;
    apply in_map_iff in Hin; destruct Hin as (d & Hd & Hin);
    assert (Ht : existsb
                   (fun d => oid_eqb (doc_id d) new_id
                             || option_eqb (dict_get "item_id" (doc_fields d))
                                           (dict_get "item_id" doc)) ds = true)
      by (apply existsb_exists; exists d; split; [exact Hin|];
          apply orb_true_iff;
          first [left; apply oid_eqb_eq; exact Hd
                | right; apply option_eqb_eq; exact Hd]);
    congruence.
Qed.

(** X13.  With the unique index on [item_id] that [_ensure_indexes]
    requests in place, so that the store refuses an insert that repeats an
    [_id] or an [item_id], primary keys and readable ids stay unique: if no
    two documents share an [_id] or an [item_id], the same holds after any
    sequence of calls.  A creation that would repeat a readable id adds
    nothing, and no update touches either key. *)
Theorem run_calls_keys_unique (cs : list Call) (w : World) :
  keys_unique (gallery_items w) ->
  keys_unique (gallery_items (run_calls self cs w)).
Proof.
  revert w. induction cs as [|c cs IH]; intros w H; [exact H|].
  cbn [run_calls fold_left]. apply IH.
  destruct (run_call_step c w) as [E | (doc & E & Hu & _)].
  - exact (keys_unique_immutable _ _ (eq_sym E) H).
  - destruct H as [H1 H2].
    destruct (violates_unique_false _ _ _ Hu) as [N1 N2].
    rewrite E. unfold keys_unique. rewrite !map_app. cbn [map].
    split.
    + apply NoDup_rev in H1. rewrite <- rev_involutive.
      apply NoDup_rev. rewrite rev_app_distr. cbn.
      constructor; [rewrite <- in_rev; exact N1 | exact H1].
    + apply NoDup_rev in H2. rewrite <- rev_involutive.
      apply NoDup_rev. rewrite rev_app_distr. cbn.
      constructor; [rewrite <- in_rev; exact N2 | exact H2].
Qed.

(** X14.  Every document the manager writes carries a string [user_id],
    a non-empty [created_date] string and both GPT flags set to [True],
    and no later call changes that: if all documents are so stamped, they
    all are after any sequence of calls. *)
Theorem run_calls_stamped (cs : list Call) (w : World) :
  Forall (fun d => stamped d = true) (gallery_items w) ->
  Forall (fun d => stamped d = true) (gallery_items (run_calls self cs w)).
Proof.
  revert w. induction cs as [|c cs IH]; intros w H; [exact H|].
  cbn [run_calls fold_left]. apply IH.
  destruct (run_call_step c w) as [E | (doc & E & _ & Hs)].
  - apply (Forall_map_eq immutable_part _ (gallery_items w)); auto.
    intros a a' Ea Ha. rewrite <- (stamped_immutable a a' Ea). exact Ha.
  - rewrite E. apply Forall_app. split; [exact H|].
    constructor; [exact Hs | constructor].
Qed.

End Immutable.

Lemma run_calls_keys_unique_witness :
  keys_unique (gallery_items Sample.world4) /\
  length (gallery_items Sample.world4) = 2 /\
  map item_key (gallery_items (run_calls Sample.mgr Sample.calls2 Sample.world4))
  = [Some (VStr "u1-20250307_090501"); Some (VStr "u1-20250308_213000");
     Some (VStr "u2-20250308_213000")] /\
  keys_unique
    (gallery_items (run_calls Sample.mgr Sample.calls2 Sample.world4)).
Proof.
  assert (H0 : keys_unique (gallery_items Sample.world4)).
  { split; vm_compute;
      repeat (constructor;
              [intros H; repeat (destruct H as [H|H]; [discriminate H|]);
               contradiction|]);
      constructor. }
  split; [exact H0|]. split; [reflexivity|]. split; [reflexivity|].
  exact (run_calls_keys_unique Sample.mgr Sample.calls2 Sample.world4 H0).
Defined.

Lemma run_calls_stamped_witness :
  Forall (fun d => stamped d = true) (gallery_items Sample.world0) /\
  length (gallery_items (run_calls Sample.mgr Sample.calls Sample.world0)) = 1 /\
  Forall (fun d => stamped d = true)
    (gallery_items (run_calls Sample.mgr Sample.calls Sample.world0)).
Proof.
  assert (H0 : Forall (fun d => stamped d = true) (gallery_items Sample.world0))
    by constructor.
  split; [exact H0|]. split; [reflexivity|].
  exact (run_calls_stamped Sample.mgr Sample.calls Sample.world0 H0).
Defined.

(** ** Listing a user's gallery *)

Lemma ltb_asym (a b : string) : String.ltb a b = true -> String.ltb b a = false.
Proof.
  unfold String.ltb. rewrite (String.compare_antisym b a).
  destruct (String.compare a b); simpl; congruence.
Qed.

Lemma ltb_false_leb (a b : string) : String.ltb a b = false -> String.leb b a = true.
Proof.
  unfold String.ltb, String.leb. rewrite (String.compare_antisym a b).
  destruct (String.compare b a); simpl; congruence.
Qed.

Lemma date_gt_asym (x d : StoredDoc) : date_gt x d = true -> date_gt d x = false.
Proof.
  unfold date_gt.
  destruct (dict_get "created_date" (doc_fields x)) as [[]|];
    destruct (dict_get "created_date" (doc_fields d)) as [[]|];
    try discriminate; try reflexivity.
  apply ltb_asym.
Qed.

Lemma insert_desc_In (d x : StoredDoc) (l : list StoredDoc) :
  In x (insert_desc d l) <-> x = d \/ In x l.
Proof.
  induction l as [|y l IH]; simpl.
  - split; intros [H|H]; auto; contradiction.
  - destruct (date_gt y d); simpl; [rewrite IH|]; intuition.
Qed.

Lemma sort_desc_In (x : StoredDoc) (l : list StoredDoc) :
  In x (sort_desc l) <-> In x l.
Proof.
  induction l as [|d l IH]; [reflexivity|].
  cbn [sort_desc fold_right]. fold (sort_desc l).
  rewrite insert_desc_In, IH. simpl. intuition.
Qed.

Lemma insert_desc_Sorted (d : StoredDoc) (l : list StoredDoc) :
  Sorted not_earlier l -> Sorted not_earlier (insert_desc d l).
Proof.
  induction 1 as [|y l Hs IH Hhd]; simpl.
  - repeat constructor.
  - destruct (date_gt y d) eqn:E.
    + constructor; [exact IH|].
      destruct l as [|z l]; simpl.
      * constructor. exact (date_gt_asym _ _ E).
      * destruct (date_gt z d).
        -- inversion Hhd; subst. constructor. assumption.
        -- constructor. exact (date_gt_asym _ _ E).
    + constructor; [constructor; assumption|].
      constructor. exact E.
Qed.

Lemma sort_desc_Sorted (l : list StoredDoc) : Sorted not_earlier (sort_desc l).
Proof.
  induction l as [|d l IH]; [constructor|].
  cbn [sort_desc fold_right]. apply insert_desc_Sorted. exact IH.
Qed.

Lemma Sorted_skipn {A} (R : A -> A -> Prop) (n : nat) (l : list A) :
  Sorted R l -> Sorted R (skipn n l).
Proof.
  revert l. induction n as [|n IH]; intros l H; [exact H|].
  destruct l as [|a l]; [constructor|].
  simpl. apply IH. inversion H; assumption.
Qed.

Lemma Sorted_firstn {A} (R : A -> A -> Prop) (n : nat) (l : list A) :
  Sorted R l -> Sorted R (firstn n l).
Proof.
  revert l. induction n as [|n IH]; intros l H; [constructor|].
  destruct l as [|a l]; [constructor|].
  simpl. inversion H as [|? ? Hs Hhd]; subst.
  constructor; [apply IH; exact Hs|].
  destruct n; [constructor|].
  destruct l as [|b l]; [constructor|].
  simpl. inversion Hhd; subst. constructor. assumption.
Qed.

Lemma In_firstn {A} (x : A) (n : nat) (l : list A) :
  In x (firstn n l) -> In x l.
Proof.
  revert l. induction n as [|n IH]; intros [|a l]; simpl; try contradiction.
  intros [H|H]; auto.
Qed.

Lemma In_skipn {A} (x : A) (n : nat) (l : list A) :
  In x (skipn n l) -> In x l.
Proof.
  revert l. induction n as [|n IH]; intros [|a l]; simpl; auto.
Qed.

Lemma cursor_limit_In {A} (x : A) (limit : Z) (l : list A) :
  In x (cursor_limit limit l) -> In x l.
Proof.
  unfold cursor_limit. destruct (limit =? 0)%Z; [auto | apply In_firstn].
Qed.

Lemma cursor_limit_Sorted {A} (R : A -> A -> Prop) (limit : Z) (l : list A) :
  Sorted R l -> Sorted R (cursor_limit limit l).
Proof.
  unfold cursor_limit. destruct (limit =? 0)%Z; [auto | apply Sorted_firstn].
Qed.

Lemma cursor_limit_length {A} (limit : Z) (l : list A) :
  limit <> 0%Z -> length (cursor_limit limit l) <= Z.abs_nat limit.
Proof.
  intros H. unfold cursor_limit.
  destruct (limit =? 0)%Z eqn:E; [apply Z.eqb_eq in E; contradiction|].
  apply firstn_le_length.
Qed.

Lemma cursor_docs_In q offset limit ds d :
  In d (cursor_docs q offset limit ds) ->
  In d ds /\ matches_query q d = true.
Proof.
  intros H. unfold cursor_docs in H.
  apply cursor_limit_In, In_skipn, sort_desc_In, filter_In in H. exact H.
Qed.

Lemma cursor_docs_Sorted q offset limit ds :
  Sorted not_earlier (cursor_docs q offset limit ds).
Proof.
  unfold cursor_docs.
  apply cursor_limit_Sorted, Sorted_skipn, sort_desc_Sorted.
Qed.

(** Converting a cursor succeeds item by item, or not at all. *)
Lemma convert_all_Forall2 (clock : nat -> datetime) (ds : list StoredDoc) :
  forall n rs,
    GalleryManager.convert_all clock n ds = Ok rs ->
    Forall2 (fun d r => exists k,
               GalleryManager._doc_to_gallery_item (clock k) d = Ok r) ds rs.
Proof.
  induction ds as [|d ds IH]; intros n rs H; simpl in H.
  - injection H as <-. constructor.
  - destruct (GalleryManager._doc_to_gallery_item (clock n) d) as [r|e] eqn:Er;
      [|discriminate].
    destruct (GalleryManager.convert_all clock (S n) ds) as [rs'|e] eqn:Ers;
      [|discriminate].
    injection H as <-. constructor; [eauto | eapply IH; eauto].
Qed.

(** What [get_user_gallery] returns, case by case. *)
Lemma get_user_gallery_cases (self : GalleryManager.t)
    (clock : nat -> datetime) (user_id : string) (limit offset : Z)
    (date_from date_to : option string) (w : World) :
  exists w',
    gallery_items w' = gallery_items w /\
    image_files w' = image_files w /\
    scheduled w' = scheduled w /\
    (GalleryManager.get_user_gallery self clock user_id limit offset
       date_from date_to w = (Ok [], w') \/
     exists rs,
       (0 <= offset)%Z /\
       GalleryManager.convert_all clock 0
         (cursor_docs (gallery_query user_id date_from date_to)
            (Z.to_nat offset) limit (gallery_items w)) = Ok rs /\
       GalleryManager.get_user_gallery self clock user_id limit offset
         date_from date_to w = (Ok rs, w')).
Proof.
  unfold GalleryManager.get_user_gallery.
  destruct (offset <? 0)%Z eqn:Eo.
  - exists w. repeat split. left. reflexivity.
  - apply Z.ltb_ge in Eo.
    unfold find_sorted. unfold_M.
    fold (gallery_query user_id date_from date_to).
    destruct (io_faults w) as [|[] fl].
    + fold (cursor_docs (gallery_query user_id date_from date_to)
              (Z.to_nat offset) limit (gallery_items w)).
      destruct (GalleryManager.convert_all clock 0 _) as [rs|e] eqn:Ec.
      * exists w. repeat split. right. exists rs. auto.
      * exists w. repeat split. left. reflexivity.
    + exists (with_faults fl w). repeat split. left. reflexivity.
    + cbn [gallery_items with_faults].
      fold (cursor_docs (gallery_query user_id date_from date_to)
              (Z.to_nat offset) limit (gallery_items w)).
      destruct (GalleryManager.convert_all clock 0 _) as [rs|e] eqn:Ec.
      * exists (with_faults fl w). repeat split. right. exists rs. auto.
      * exists (with_faults fl w). repeat split. left. reflexivity.
Qed.

Lemma Sorted_Forall2 {A B} (R : A -> A -> Prop) (R' : B -> B -> Prop)
    (P : A -> B -> Prop) (l : list A) (l' : list B) :
  (forall a a' b b', In a l -> In a' l -> R a a' -> P a b -> P a' b' ->
                     R' b b') ->
  Sorted R l -> Forall2 P l l' -> Sorted R' l'.
Proof.
  intros Ht Hs HF. induction HF as [|a b l l' Pab HF IH]; [constructor|].
  inversion Hs as [|? ? Hs' Hhd]; subst.
  constructor.
  - apply IH; [|exact Hs'].
    intros x x' y y' Hx Hx'. apply Ht; right; assumption.
  - destruct HF as [|a' b' l l' Pab' HF]; constructor.
    inversion Hhd; subst. apply (Ht a a' b b'); simpl; auto.
Qed.

Lemma Forall2_length_eq {A B} (P : A -> B -> Prop) (l : list A) (l' : list B) :
  Forall2 P l l' -> length l = length l'.
Proof. induction 1; simpl; congruence. Qed.

Lemma Forall2_right {A B} (P : A -> B -> Prop) (Q : B -> Prop)
    (l : list A) (l' : list B) :
  (forall a b, In a l -> P a b -> Q b) -> Forall2 P l l' -> Forall Q l'.
Proof.
  intros H HF. induction HF as [|a b l l' Pab HF IH]; constructor.
  - apply (H a b); simpl; auto.
  - apply IH. intros x y Hx. apply H. right. exact Hx.
Qed.

(** What a stamped document reads as does not depend on the clock. *)
Lemma stamped_fields (d : StoredDoc) :
  stamped d = true ->
  exists u s,
    dict_get "user_id" (doc_fields d) = Some (VStr u) /\
    dict_get "created_date" (doc_fields d) = Some (VStr s) /\
    (s =? "")%string = false /\
    dict_get "gpt_prompt_used" (doc_fields d) = Some (VBool true) /\
    dict_get "gpt_docent_used" (doc_fields d) = Some (VBool true).
Proof.
  unfold stamped. intros H.
  apply andb_prop in H. destruct H as [H H3].
  apply andb_prop in H. destruct H as [H H2].
  apply andb_prop in H. destruct H as [H0 H1].
  apply option_eqb_eq in H2. apply option_eqb_eq in H3.
  destruct (dict_get "user_id" (doc_fields d)) as [[]|]; try discriminate.
  destruct (dict_get "created_date" (doc_fields d)) as [[]|]; try discriminate.
  eexists _, _. repeat split; auto.
  apply negb_true_iff in H1. exact H1.
Qed.

Lemma stamped_reads (now : datetime) (d : StoredDoc) (r : GalleryItem.t) :
  stamped d = true ->
  GalleryManager._doc_to_gallery_item now d = Ok r ->
  (forall now', GalleryManager._doc_to_gallery_item now' d = Ok r) /\
  GalleryItem.user_id r = get_default (doc_fields d) "user_id" (VStr "") /\
  GalleryItem.created_date r
  = get_default (doc_fields d) "created_date" (VStr "").
Proof.
  intros Hs E.
  destruct (stamped_fields d Hs) as (u & s & Hu & Hd & Hne & _).
  unfold GalleryManager._doc_to_gallery_item in *.
  destruct (py_tuple _) as [v|e]; [|discriminate].
  injection E as <-.
  unfold GalleryItem.init.
  cbn [GalleryItem.user_id GalleryItem.created_date].
  assert (Ecd : forall t, py_or (get_default (doc_fields d) "created_date"
                                   (VStr "")) (VStr (isoformat t))
                          = get_default (doc_fields d) "created_date" (VStr "")).
  { intros t. unfold get_default. rewrite Hd. unfold py_or. cbn [truthy].
    rewrite Hne. reflexivity. }
  repeat split.
  - intros now'. rewrite !Ecd. reflexivity.
  - apply Ecd.
Qed.

Lemma vad3_reads (now : datetime) (d : StoredDoc) :
  vad3 d = true ->
  GalleryManager._doc_to_gallery_item now d = Ok (read_doc now d).
Proof.
  intros Hv. unfold read_doc.
  destruct (GalleryManager._doc_to_gallery_item now d) as [r|e] eqn:E;
    [reflexivity|].
  exfalso. unfold GalleryManager._doc_to_gallery_item in E.
  unfold vad3 in Hv. unfold get_default in E.
  destruct (dict_get "vad_scores" (doc_fields d)) as [[]|];
    try discriminate Hv; discriminate E.
Qed.

Lemma convert_all_map (clock : nat -> datetime) (f : StoredDoc -> GalleryItem.t)
    (ds : list StoredDoc) :
  Forall (fun d => forall now,
            GalleryManager._doc_to_gallery_item now d = Ok (f d)) ds ->
  forall n, GalleryManager.convert_all clock n ds = Ok (map f ds).
Proof.
  induction 1 as [|d ds Hd _ IH]; intros n; [reflexivity|].
  simpl. rewrite Hd, IH. reflexivity.
Qed.

Section Listing.

Variable self : GalleryManager.t.
Variable user_id : string.
Variables date_from date_to : option string.

Local Abbreviation listing clock limit offset :=
  (GalleryManager.get_user_gallery self clock user_id limit offset
     date_from date_to).
Local Abbreviation all_stamped ds := (Forall (fun d => stamped d = true) ds).
Local Abbreviation all_vad3 ds := (Forall (fun d => vad3 d = true) ds).
Local Abbreviation query := (gallery_query user_id date_from date_to).

(** X15.  [get_user_gallery] never raises and changes neither the
    collection, the image files nor the scheduled tasks.  A negative
    [offset] and a failure of the store both give the empty list, the
    answer a user without records gets. *)
Theorem get_user_gallery_never_raises (clock : nat -> datetime)
    (limit offset : Z) (w : World) :
  exists rs w',
    listing clock limit offset w = (Ok rs, w') /\
    gallery_items w' = gallery_items w /\
    image_files w' = image_files w /\
    scheduled w' = scheduled w /\
    ((offset < 0)%Z -> rs = [] /\ w' = w) /\
    (forall fl, io_faults w = true :: fl ->
                (0 <= offset)%Z -> rs = [] /\ io_faults w' = fl).
Proof.
  unfold GalleryManager.get_user_gallery.
  destruct (offset <? 0)%Z eqn:Eo.
  - exists [], w. repeat split; intros; try reflexivity.
    apply Z.ltb_lt in Eo. lia.
  - apply Z.ltb_ge in Eo. unfold find_sorted. unfold_M.
    destruct (io_faults w) as [|[] fl] eqn:Ef.
    + destruct (GalleryManager.convert_all clock 0 _) as [rs|e];
        eexists _, w; repeat split; intros; try lia; discriminate.
    + exists [], (with_faults fl w). repeat split; intros; try lia.
      cbn [io_faults with_faults]. congruence.
    + cbn [gallery_items with_faults].
      destruct (GalleryManager.convert_all clock 0 _) as [rs|e];
        eexists _, (with_faults fl w); repeat split; intros; try lia;
        discriminate.
Qed.

Lemma listing_docs (clock : nat -> datetime) (limit offset : Z)
    (w w' : World) (rs : list GalleryItem.t) :
  listing clock limit offset w = (Ok rs, w') ->
  exists ds,
    (ds = [] \/
     ds = cursor_docs query (Z.to_nat offset) limit (gallery_items w)) /\
    Forall2 (fun d r => exists k,
               GalleryManager._doc_to_gallery_item (clock k) d = Ok r) ds rs.
Proof.
  intros E.
  destruct (get_user_gallery_cases self clock user_id limit offset
              date_from date_to w) as (w1 & _ & _ & _ & [H | (rs1 & _ & Hc & H)]);
    rewrite H in E; injection E as <- <-.
  - exists []. split; [left; reflexivity | constructor].
  - eexists. split; [right; reflexivity|].
    exact (convert_all_Forall2 clock _ 0 rs1 Hc).
Qed.

Lemma listing_docs_In (limit offset : Z) (w : World) (ds : list StoredDoc)
    (d : StoredDoc) :
  ds = [] \/ ds = cursor_docs query (Z.to_nat offset) limit (gallery_items w) ->
  In d ds -> In d (gallery_items w) /\ matches_query query d = true.
Proof.
  intros [->| ->] Hin; [contradiction|].
  exact (cursor_docs_In _ _ _ _ _ Hin).
Qed.

(** X16.  Over documents stamped as the manager writes them, every record
    [get_user_gallery] returns is the conversion of a stored document
    whose [user_id] is the requested one and whose [created_date] lies
    within the bounds given (inclusive, compared as strings; an empty
    bound is no bound).  With a non-zero [limit] at most that many records
    are returned. *)
Theorem get_user_gallery_sound (clock : nat -> datetime) (limit offset : Z)
    (w w' : World) (rs : list GalleryItem.t) :
  all_stamped (gallery_items w) ->
  listing clock limit offset w = (Ok rs, w') ->
  (limit <> 0%Z -> length rs <= Z.abs_nat limit) /\
  Forall (fun r =>
            GalleryItem.user_id r = VStr user_id /\
            exists d s,
              In d (gallery_items w) /\
              (forall now,
                 GalleryManager._doc_to_gallery_item now d = Ok r) /\
              dict_get "created_date" (doc_fields d) = Some (VStr s) /\
              (forall lo, date_from = Some lo -> lo <> "" ->
                          String.leb lo s = true) /\
              (forall hi, date_to = Some hi -> hi <> "" ->
                          String.leb s hi = true)) rs.
Proof.
  intros Hst E.
  destruct (listing_docs clock limit offset w w' rs E) as (ds & Hds & HF).
  split.
  - intros Hl. rewrite <- (Forall2_length_eq _ _ _ HF).
    destruct Hds as [->| ->]; [simpl; lia|].
    unfold cursor_docs. apply cursor_limit_length. exact Hl.
  - refine (Forall2_right _ _ _ _ _ HF). intros d r Hin [k Hc].
    destruct (listing_docs_In limit offset w ds d Hds Hin) as [Hd Hq].
    assert (Hs : stamped d = true)
      by (exact (proj1 (Forall_forall _ _) Hst d Hd)).
    destruct (stamped_reads (clock k) d r Hs Hc) as (Hany & Hu & _).
    destruct (stamped_fields d Hs) as (u & s & Eu & Ed & _).
    unfold matches_query in Hq. apply andb_prop in Hq.
    destruct Hq as [Hq1 Hq2]. apply option_eqb_eq in Hq1.
    split.
    + rewrite Hu. unfold get_default. rewrite Hq1. reflexivity.
    + exists d, s. repeat split; auto.
      * intros lo -> Hne. cbn [gallery_query q_date_gte q_date_lte
                               GalleryManager.date_bound] in Hq2.
        rewrite Ed in Hq2. unfold GalleryManager.date_bound in Hq2.
        destruct (lo =? "")%string eqn:El;
          [apply String.eqb_eq in El; contradiction|].
        cbn [negb date_in_range] in Hq2.
        destruct (match date_to with
                  | Some s0 => if negb (s0 =? "")%string then Some s0 else None
                  | None => None
                  end);
          cbn [date_in_range] in Hq2; apply andb_prop in Hq2; tauto.
      * intros hi -> Hne. cbn [gallery_query q_date_gte q_date_lte
                               GalleryManager.date_bound] in Hq2.
        rewrite Ed in Hq2. unfold GalleryManager.date_bound in Hq2.
        destruct (hi =? "")%string eqn:El;
          [apply String.eqb_eq in El; contradiction|].
        cbn [negb date_in_range] in Hq2.
        destruct (match date_from with
                  | Some s0 => if negb (s0 =? "")%string then Some s0 else None
                  | None => None
                  end);
          cbn [date_in_range] in Hq2; apply andb_prop in Hq2; tauto.
Qed.

(** X17.  Over stamped documents the records come newest first: each
    record's [created_date] is, as a string, no smaller than that of the
    record after it. *)
Theorem get_user_gallery_sorted (clock : nat -> datetime) (limit offset : Z)
    (w w' : World) (rs : list GalleryItem.t) :
  all_stamped (gallery_items w) ->
  listing clock limit offset w = (Ok rs, w') ->
  Sorted later_or_equal rs.
Proof.
  intros Hst E.
  destruct (listing_docs clock limit offset w w' rs E) as (ds & Hds & HF).
  refine (Sorted_Forall2 not_earlier later_or_equal _ ds rs _ _ HF).
  - intros a a' b b' Ha Ha' HR [k Hb] [k' Hb'].
    destruct (listing_docs_In limit offset w ds a Hds Ha) as [Hia _].
    destruct (listing_docs_In limit offset w ds a' Hds Ha') as [Hia' _].
    assert (Hs : stamped a = true)
      by (exact (proj1 (Forall_forall _ _) Hst a Hia)).
    assert (Hs' : stamped a' = true)
      by (exact (proj1 (Forall_forall _ _) Hst a' Hia')).
    destruct (stamped_reads _ a b Hs Hb) as (_ & _ & Hcd).
    destruct (stamped_reads _ a' b' Hs' Hb') as (_ & _ & Hcd').
    destruct (stamped_fields a Hs) as (u & s & _ & Ed & _).
    destruct (stamped_fields a' Hs') as (u' & s' & _ & Ed' & _).
    unfold get_default in Hcd, Hcd'. rewrite Ed in Hcd. rewrite Ed' in Hcd'.
    exists s, s'. split; [exact Hcd|]. split; [exact Hcd'|].
    unfold not_earlier, date_gt in HR. rewrite Ed, Ed' in HR.
    apply ltb_false_leb. exact HR.
  - destruct Hds as [->| ->]; [constructor | apply cursor_docs_Sorted].
Qed.

Lemma listing_no_fault (clock : nat -> datetime)
    (f : StoredDoc -> GalleryItem.t) (limit offset : Z) (w : World) :
  io_faults w = [] -> (0 <= offset)%Z ->
  Forall (fun d => forall now,
            GalleryManager._doc_to_gallery_item now d = Ok (f d))
         (gallery_items w) ->
  listing clock limit offset w
  = (Ok (map f (cursor_docs query (Z.to_nat offset) limit (gallery_items w))),
     w).
Proof.
  intros Hf Ho Hall. unfold GalleryManager.get_user_gallery.
  apply Z.ltb_ge in Ho. rewrite Ho.
  unfold find_sorted. unfold_M. rewrite Hf.
  fold query.
  fold (cursor_docs query (Z.to_nat offset) limit (gallery_items w)).
  rewrite (convert_all_map clock f); [reflexivity|].
  apply Forall_forall. intros d Hd.
  apply cursor_docs_In in Hd. destruct Hd as [Hd _].
  exact (proj1 (Forall_forall _ _) Hall d Hd).
Qed.

Lemma stamped_vad3_reads (t : datetime) (ds : list StoredDoc) :
  all_stamped ds -> all_vad3 ds ->
  Forall (fun d => forall now,
            GalleryManager._doc_to_gallery_item now d = Ok (read_doc t d)) ds.
Proof.
  intros Hs Hv. apply Forall_forall. intros d Hd now.
  pose proof (proj1 (Forall_forall _ _) Hs d Hd) as Hsd.
  pose proof (proj1 (Forall_forall _ _) Hv d Hd) as Hvd.
  exact (proj1 (stamped_reads t d _ Hsd (vad3_reads t d Hvd)) now).
Qed.

(** X18.  With a reachable store, over stamped documents with three
    scores each, a page is a slice of the full listing: the first [limit]
    records after skipping [offset] of what [limit = 0], [offset = 0]
    returns, whatever the clock.  (The store is taken to return equal
    dates in insertion order.) *)
Theorem get_user_gallery_pages (clock clock' : nat -> datetime)
    (limit offset : Z) (w : World) :
  io_faults w = [] ->
  all_stamped (gallery_items w) -> all_vad3 (gallery_items w) ->
  (0 <= offset)%Z -> (0 < limit)%Z ->
  exists full,
    listing clock 0 0 w = (Ok full, w) /\
    listing clock' limit offset w
    = (Ok (firstn (Z.to_nat limit) (skipn (Z.to_nat offset) full)), w).
Proof.
  intros Hf Hs Hv Ho Hl.
  pose proof (stamped_vad3_reads (clock 0) _ Hs Hv) as Hall.
  eexists. split.
  - apply (listing_no_fault clock (read_doc (clock 0)) 0 0 w Hf); [lia|].
    exact Hall.
  - rewrite (listing_no_fault clock' (read_doc (clock 0)) limit offset w Hf Ho
               Hall).
    unfold cursor_docs, cursor_limit.
    destruct (limit =? 0)%Z eqn:El; [apply Z.eqb_eq in El; lia|].
    change (0 =? 0)%Z with true. cbv iota.
    change (Z.to_nat 0) with 0. cbn [skipn].
    rewrite Zabs2Nat.abs_nat_nonneg by lia.
    rewrite skipn_map, firstn_map. reflexivity.
Qed.

Lemma Forall2_In_left {A B} (P : A -> B -> Prop) (l : list A) (l' : list B)
    (a : A) :
  Forall2 P l l' -> In a l -> exists b, P a b.
Proof.
  induction 1 as [|x y l l' Pxy _ IH]; [contradiction|].
  intros [<-|Hin]; eauto.
Qed.

(** X19.  The listing is all or nothing: if one document of the requested
    page has [vad_scores] that cannot be iterated, the call returns the
    empty list, not the other records of the page. *)
Theorem get_user_gallery_unreadable (clock : nat -> datetime)
    (limit offset : Z) (w : World) (d : StoredDoc) (e : exn) :
  In d (cursor_docs query (Z.to_nat offset) limit (gallery_items w)) ->
  py_iter (get_default (doc_fields d) "vad_scores"
             (VList [zero_float; zero_float; zero_float])) = Raise e ->
  fst (listing clock limit offset w) = Ok [].
Proof.
  intros Hin Hbad.
  destruct (get_user_gallery_cases self clock user_id limit offset
              date_from date_to w) as (w1 & _ & _ & _ & [H | (rs & _ & Hc & H)]);
    rewrite H; [reflexivity|].
  exfalso.
  pose proof (convert_all_Forall2 clock _ 0 rs Hc) as HF.
  destruct (Forall2_In_left _ _ _ d HF Hin) as (r & k & Hr).
  unfold GalleryManager._doc_to_gallery_item, py_tuple in Hr.
  rewrite Hbad in Hr. discriminate Hr.
Qed.

End Listing.

Lemma get_user_gallery_sound_witness :
  Forall (fun d => stamped d = true) (gallery_items Sample.world5) /\
  GalleryManager.get_user_gallery Sample.mgr Sample.clock "u1" 10 0
    (Some "2025-03-08") None Sample.world5
  = (Ok (Sample.page 10 0 (Some "2025-03-08") None Sample.world5),
     Sample.world5) /\
  length (Sample.page 10 0 (Some "2025-03-08") None Sample.world5) = 1 /\
  Forall (fun r => GalleryItem.user_id r = VStr "u1")
    (Sample.page 10 0 (Some "2025-03-08") None Sample.world5).
Proof.
  assert (Hs : Forall (fun d => stamped d = true) (gallery_items Sample.world5))
    by (repeat constructor).
  assert (E : GalleryManager.get_user_gallery Sample.mgr Sample.clock "u1" 10 0
                (Some "2025-03-08") None Sample.world5
              = (Ok (Sample.page 10 0 (Some "2025-03-08") None Sample.world5),
                 Sample.world5))
    by (vm_compute; reflexivity).
  split; [exact Hs|]. split; [exact E|]. split; [reflexivity|].
  destruct (get_user_gallery_sound Sample.mgr "u1" (Some "2025-03-08") None
              Sample.clock 10 0 Sample.world5 Sample.world5 _ Hs E)
    as [_ H].
  revert H. apply Forall_impl. intros r [Hu _]. exact Hu.
Defined.

Lemma get_user_gallery_sorted_witness :
  Forall (fun d => stamped d = true) (gallery_items Sample.world5) /\
  GalleryManager.get_user_gallery Sample.mgr Sample.clock "u1" 50 0 None None
    Sample.world5
  = (Ok (Sample.page 50 0 None None Sample.world5), Sample.world5) /\
  map GalleryItem.created_date (Sample.page 50 0 None None Sample.world5)
  = [VStr "2025-03-08T21:30:00"; VStr "2025-03-07T09:05:01"] /\
  Sorted later_or_equal (Sample.page 50 0 None None Sample.world5).
Proof.
  assert (Hs : Forall (fun d => stamped d = true) (gallery_items Sample.world5))
    by (repeat constructor).
  assert (E : GalleryManager.get_user_gallery Sample.mgr Sample.clock "u1" 50 0
                None None Sample.world5
              = (Ok (Sample.page 50 0 None None Sample.world5), Sample.world5))
    by (vm_compute; reflexivity).
  split; [exact Hs|]. split; [exact E|]. split; [reflexivity|].
  exact (get_user_gallery_sorted Sample.mgr "u1" None None Sample.clock 50 0
           Sample.world5 Sample.world5 _ Hs E).
Defined.

Lemma get_user_gallery_pages_witness :
  io_faults Sample.world5 = [] /\
  Forall (fun d => stamped d = true) (gallery_items Sample.world5) /\
  Forall (fun d => vad3 d = true) (gallery_items Sample.world5) /\
  exists full,
    GalleryManager.get_user_gallery Sample.mgr Sample.clock "u1" 0 0 None None
      Sample.world5 = (Ok full, Sample.world5) /\
    GalleryManager.get_user_gallery Sample.mgr (fun _ => Sample.t0) "u1" 1 1
      None None Sample.world5
    = (Ok (firstn 1 (skipn 1 full)), Sample.world5).
Proof.
  assert (Hs : Forall (fun d => stamped d = true) (gallery_items Sample.world5))
    by (repeat constructor).
  assert (Hv : Forall (fun d => vad3 d = true) (gallery_items Sample.world5))
    by (repeat constructor).
  split; [reflexivity|]. split; [exact Hs|]. split; [exact Hv|].
  apply (get_user_gallery_pages Sample.mgr "u1" None None Sample.clock
           (fun _ => Sample.t0) 1 1 Sample.world5);
    [reflexivity | exact Hs | exact Hv | lia | lia].
Defined.

Lemma get_user_gallery_unreadable_witness :
  In Sample.foreign_doc
     (cursor_docs (gallery_query "u1" None None) 0 50
        (gallery_items Sample.world_foreign)) /\
  length (Sample.page 50 0 None None Sample.world4) = 2 /\
  fst (GalleryManager.get_user_gallery Sample.mgr Sample.clock "u1" 50 0
         None None Sample.world_foreign) = Ok [].
Proof.
  assert (Hin : In Sample.foreign_doc
                  (cursor_docs (gallery_query "u1" None None) (Z.to_nat 0) 50
                     (gallery_items Sample.world_foreign)))
    by (vm_compute; auto).
  split; [exact Hin|]. split; [reflexivity|].
  apply (get_user_gallery_unreadable Sample.mgr "u1" None None Sample.clock
           50 0 Sample.world_foreign Sample.foreign_doc
           (Exn TypeError "object is not iterable") Hin).
  reflexivity.
Defined.

Lemma insert_desc_length (d : StoredDoc) (l : list StoredDoc) :
  length (insert_desc d l) = S (length l).
Proof.
  induction l as [|x l IH]; [reflexivity|].
  simpl. destruct (date_gt x d); simpl; [rewrite IH|]; reflexivity.
Qed.

Lemma sort_desc_length (l : list StoredDoc) : length (sort_desc l) = length l.
Proof.
  induction l as [|d l IH]; [reflexivity|].
  cbn [sort_desc fold_right]. fold (sort_desc l).
  rewrite insert_desc_length, IH. reflexivity.
Qed.

Lemma Ok_inj {A} (a b : A) : Ok a = Ok b -> a = b.
Proof. intros H. injection H as H. exact H. Qed.

Section ListingCreated.

Variable self : GalleryManager.t.
Variables t1 t2 : datetime.
Variable new_id : ObjectId.
Variables user_id diary_text : string.
Variable emotion_keywords : list string.
Variables reflection_prompt coping_style : string.
Variable gpt_prompt_tokens : Z.
Variable prompt_generation_time : spec_float.
Variable diary_id : option string.
Variable svc : option EmoseumWebhookService.t.

Local Abbreviation create vad image :=
  (GalleryManager.create_gallery_item self t1 t2 new_id user_id diary_text
     emotion_keywords vad reflection_prompt image coping_style
     gpt_prompt_tokens prompt_generation_time diary_id svc).

Local Abbreviation the_doc vl :=
  (created_doc self t1 t2 new_id user_id diary_text emotion_keywords vl
     reflection_prompt coping_style gpt_prompt_tokens prompt_generation_time
     diary_id).

Local Abbreviation the_item now vl :=
  (created_item self t1 t2 new_id user_id diary_text emotion_keywords vl
     reflection_prompt coping_style gpt_prompt_tokens prompt_generation_time
     diary_id now).

Lemma created_doc_matches (vl : list PyVal) :
  matches_query (gallery_query user_id None None) (the_doc vl) = true.
Proof.
  unfold matches_query, gallery_query.
  cbn [q_user_id q_date_gte q_date_lte GalleryManager.date_bound
       date_in_range].
  rewrite andb_true_r. apply option_eqb_eq.
  unfold created_doc.
  cbn [doc_fields bson_doc GalleryManager.item_doc map fst snd dict_get
       String.eqb Ascii.eqb Bool.eqb to_bson].
  reflexivity.
Qed.

(** X20.  A record just created is in its owner's gallery: with a
    reachable store, over stamped documents with three scores each, the
    unbounded, unfiltered listing of the user holds the new record after
    the creation and is one record longer than before. *)
Theorem get_user_gallery_lists_created (clock : nat -> datetime)
    (now : datetime) (img : Image) (vad : PyVal) (vl : list PyVal)
    (w : World) :
  io_faults w = [] -> py_iter vad = Ok vl ->
  violates_unique new_id (doc_fields (the_doc vl)) (gallery_items w) = false ->
  wants_sync svc diary_id = false \/ loop_running w = true ->
  Forall (fun d => stamped d = true) (gallery_items w) ->
  Forall (fun d => vad3 d = true) (gallery_items w) ->
  exists w' before after,
    create vad (PILImage img) w = (Ok (readable_id user_id t2), w') /\
    GalleryManager.get_user_gallery self clock user_id 0 0 None None w
    = (Ok before, w) /\
    GalleryManager.get_user_gallery self clock user_id 0 0 None None w'
    = (Ok after, w') /\
    In (the_item now vl) after /\
    length after = S (length before).
Proof.
  intros Hf Hv Hu Hsync Hst Hv3.
  destruct (create_ok self t1 t2 new_id user_id diary_text emotion_keywords
              reflection_prompt coping_style gpt_prompt_tokens
              prompt_generation_time diary_id svc img vad vl w Hf Hv Hu Hsync)
    as (w' & Hc & Hi & _ & Hf' & _).
  pose proof (stamped_vad3_reads (clock 0) _ Hst Hv3) as Hall.
  pose proof (created_doc_reads self t1 t2 new_id user_id diary_text
                emotion_keywords reflection_prompt coping_style
                gpt_prompt_tokens prompt_generation_time diary_id) as Hr.
  pose proof (created_doc_stamped self t1 t2 new_id user_id diary_text
                emotion_keywords vl reflection_prompt coping_style
                gpt_prompt_tokens prompt_generation_time diary_id) as Hsd.
  assert (Hf0 : read_doc (clock 0) (the_doc vl) = the_item (clock 0) vl)
    by (unfold read_doc; rewrite (Hr (clock 0) vl); reflexivity).
  pose proof (proj1 (stamped_reads (clock 0) _ _ Hsd (Hr (clock 0) vl)))
    as Hany.
  assert (Enow : the_item now vl = read_doc (clock 0) (the_doc vl)).
  { pose proof (Hany now) as E. rewrite (Hr now vl) in E.
    apply Ok_inj in E. rewrite Hf0. exact E. }
  assert (Hall' : Forall (fun d => forall now0,
                            GalleryManager._doc_to_gallery_item now0 d
                            = Ok (read_doc (clock 0) d)) (gallery_items w')).
  { rewrite Hi. apply Forall_app. split; [exact Hall|].
    constructor; [|constructor]. intros now0. rewrite Hf0. apply Hany. }
  exists w'. eexists. eexists.
  split; [exact Hc|].
  split; [apply (listing_no_fault self user_id None None clock
                   (read_doc (clock 0)) 0 0 w Hf); [lia | exact Hall]|].
  split; [apply (listing_no_fault self user_id None None clock
                   (read_doc (clock 0)) 0 0 w' Hf'); [lia | exact Hall']|].
  unfold cursor_docs, cursor_limit.
  change (0 =? 0)%Z with true. cbv iota.
  change (Z.to_nat 0) with 0. cbn [skipn].
  split.
  - rewrite Enow. apply in_map. apply sort_desc_In. apply filter_In.
    split; [|apply created_doc_matches].
    rewrite Hi. apply in_or_app. right. left. reflexivity.
  - rewrite !length_map, !sort_desc_length, Hi, filter_app, length_app.
    cbn [filter]. rewrite created_doc_matches. simpl. lia.
Qed.

End ListingCreated.

Lemma get_user_gallery_lists_created_witness :
  exists w' before after,
    GalleryManager.create_gallery_item Sample.mgr Sample.t1 Sample.t1
      Sample.oid2 "u1" "rain all day" ["gloomy"] Sample.vad
      "rain on a window" (PILImage Sample.img) "balanced" 90 (S754_zero false)
      None None Sample.world3
    = (Ok "u1-20250308_213000", w') /\
    GalleryManager.get_user_gallery Sample.mgr Sample.clock "u1" 0 0 None None
      Sample.world3 = (Ok before, Sample.world3) /\
    GalleryManager.get_user_gallery Sample.mgr Sample.clock "u1" 0 0 None None
      w' = (Ok after, w') /\
    In (created_item Sample.mgr Sample.t1 Sample.t1 Sample.oid2 "u1"
          "rain all day" ["gloomy"] [Sample.f_0_2; Sample.f_m0_1; Sample.f_0_5]
          "rain on a window" "balanced" 90 (S754_zero false) None Sample.t0)
       after /\
    length after = S (length before).
Proof.
  apply (get_user_gallery_lists_created Sample.mgr Sample.t1 Sample.t1
           Sample.oid2 "u1" "rain all day" ["gloomy"] "rain on a window"
           "balanced" 90 (S754_zero false) None None Sample.clock Sample.t0
           Sample.img Sample.vad [Sample.f_0_2; Sample.f_m0_1; Sample.f_0_5]
           Sample.world3);
    [reflexivity | reflexivity | reflexivity | left; reflexivity
    | repeat constructor | repeat constructor].
Defined.

(** ** Reads and background tasks *)

Lemma filter_all {A} (p : A -> bool) (l : list A) :
  Forall (fun x => p x = true) l -> filter p l = l.
Proof.
  induction 1 as [|x l Hx _ IH]; [reflexivity|].
  simpl. rewrite Hx, IH. reflexivity.
Qed.

Lemma filter_matches_all_nil (l : list StoredDoc) :
  filter (matches_all []) l = l.
Proof. apply filter_all. apply Forall_forall. reflexivity. Qed.

Lemma stamped_fully_gpt (d : StoredDoc) :
  stamped d = true ->
  matches_all [("gpt_prompt_used", VBool true); ("gpt_docent_used", VBool true)]
    d = true.
Proof.
  intros H. destruct (stamped_fields d H) as (u & s & _ & _ & _ & Hp & Hd).
  unfold matches_all. cbn [forallb fst snd]. rewrite Hp, Hd. reflexivity.
Qed.

Section Reads.

Variable self : GalleryManager.t.

(** X21.  [get_system_status] never raises and changes neither the
    collection, the image files nor the scheduled tasks.  It reports
    either [database_ready] true with [total_items] the number of stored
    documents, or, when a count fails, exactly [database_ready] false and
    the error text; a failure of the first count gives the latter. *)
Theorem get_system_status_never_raises (w : World) :
  exists st w',
    GalleryManager.get_system_status self w = (Ok st, w') /\
    gallery_items w' = gallery_items w /\
    image_files w' = image_files w /\
    scheduled w' = scheduled w /\
    ((dict_get "database_ready" st = Some (VBool true) /\
      dict_get "total_items" st
      = Some (VInt (Z.of_nat (length (gallery_items w)))) /\
      dict_get "error" st = None) \/
     (exists msg,
        st = [("database_ready", VBool false); ("error", VStr msg)])) /\
    (forall fl, io_faults w = true :: fl ->
                dict_get "database_ready" st = Some (VBool false)).
Proof.
  unfold GalleryManager.get_system_status, count_documents. unfold_M.
  destruct (io_faults w) as [|[] fl] eqn:Ef.
  - rewrite Ef, !filter_matches_all_nil.
    eexists _, w. repeat split; try discriminate.
    left. repeat split.
  - eexists _, _. repeat split; cbn [gallery_items image_files scheduled
                                        with_faults]; try reflexivity.
    right. eexists. reflexivity.
  - cbn [io_faults with_faults gallery_items].
    rewrite ?filter_matches_all_nil.
    destruct fl as [|[] fl'];
      rewrite ?filter_matches_all_nil;
      eexists _, _; repeat split;
      cbn [gallery_items image_files scheduled with_faults];
      try reflexivity; try discriminate;
      solve [ left; repeat split | right; eexists; reflexivity ].
Qed.

(** X22.  With a reachable store, over documents stamped as the manager
    writes them, every document counts as fully GPT: the status gives
    [gpt_adoption_rate] as the quotient of the document count by itself,
    and as 1.0 for the empty collection. *)
Theorem get_system_status_report (w : World) :
  io_faults w = [] ->
  Forall (fun d => stamped d = true) (gallery_items w) ->
  GalleryManager.get_system_status self w
  = (Ok [ ("database_ready", VBool true);
          ("mongodb_migration_complete", VBool true);
          ("total_items", VInt (Z.of_nat (length (gallery_items w))));
          ("gpt_adoption_rate",
           VFloat (if (Z.of_nat (length (gallery_items w)) >? 0)%Z
                   then truediv (Z.of_nat (length (gallery_items w)))
                                (Z.of_nat (length (gallery_items w)))
                   else one_float));
          ("supports_gpt_metadata", VBool true);
          ("fallback_systems", VBool false) ], w).
Proof.
  intros Hf Hs.
  unfold GalleryManager.get_system_status, count_documents. unfold_M.
  rewrite Hf. cbv beta iota. rewrite ?Hf. cbv beta iota.
  rewrite !filter_matches_all_nil.
  rewrite (filter_all (matches_all [("gpt_prompt_used", VBool true);
                                    ("gpt_docent_used", VBool true)])).
  - reflexivity.
  - revert Hs. apply Forall_impl. exact stamped_fully_gpt.
Qed.

(** X23.  [get_gallery_item] never raises and changes neither the
    collection, the image files nor the scheduled tasks; when the next
    two calls to the store fail it returns [None], as for an id that does
    not exist. *)
Theorem get_gallery_item_never_raises (now : datetime) (item_id : string)
    (w : World) :
  exists r w',
    GalleryManager.get_gallery_item self now item_id w = (Ok r, w') /\
    gallery_items w' = gallery_items w /\
    image_files w' = image_files w /\
    scheduled w' = scheduled w /\
    (forall fl, io_faults w = true :: true :: fl -> r = None).
Proof.
  unfold GalleryManager.get_gallery_item, find_one. unfold_M.
  repeat (break_match;
          cbn [io_faults with_faults gallery_items image_files scheduled
               fst snd] in *;
          try discriminate);
    repeat match goal with
           | H : (_, _) = (_, _) |- _ => inversion H; clear H; subst
           end;
    eexists _, _; repeat split;
    cbn [io_faults with_faults gallery_items image_files scheduled];
    try reflexivity; intros; cbn [io_faults with_faults] in *; congruence.
Qed.

(** X24.  The background tasks never raise and never write: running a
    scheduled task, or the title update, ends normally whatever the store
    and the endpoint do, and leaves the collection, the image files and
    the scheduled tasks as they were. *)
Theorem background_tasks_never_raise (net : Network) (now : datetime)
    (w : World) :
  (forall task, exists w',
      GalleryManager.run_task self net now task w = (Ok tt, w') /\
      gallery_items w' = gallery_items w /\
      image_files w' = image_files w /\
      scheduled w' = scheduled w) /\
  (forall svc item_id artwork_title, exists w',
      GalleryManager._update_artwork_title_async self net now svc item_id
        artwork_title w = (Ok tt, w') /\
      gallery_items w' = gallery_items w /\
      image_files w' = image_files w /\
      scheduled w' = scheduled w).
Proof.
  split.
  - intros [s did kw vad | s iid]; cbn [GalleryManager.run_task].
    + unfold GalleryManager._update_emotion_data_async. unfold_M.
      destruct (EmoseumWebhookService.send_gallery_item_update _ _ _ _ _ _ _ _ _);
        eexists; repeat split.
    + unfold GalleryManager._update_docent_data_async, find_one. unfold_M.
      repeat (break_match;
              cbn [io_faults with_faults gallery_items fst snd] in *;
              try discriminate);
        repeat match goal with
               | H : (_, _) = (_, _) |- _ => inversion H; clear H; subst
               end;
        eexists; repeat split.
  - intros svc item_id artwork_title.
    unfold GalleryManager._update_artwork_title_async, find_one. unfold_M.
    repeat (break_match;
            cbn [io_faults with_faults gallery_items fst snd] in *;
            try discriminate);
      repeat match goal with
             | H : (_, _) = (_, _) |- _ => inversion H; clear H; subst
             end;
      eexists; repeat split.
Qed.

End Reads.

Lemma get_system_status_report_witness :
  io_faults Sample.world5 = [] /\
  Forall (fun d => stamped d = true) (gallery_items Sample.world5) /\
  GalleryManager.get_system_status Sample.mgr Sample.world5
  = (Ok [ ("database_ready", VBool true);
          ("mongodb_migration_complete", VBool true);
          ("total_items", VInt 3);
          ("gpt_adoption_rate", VFloat one_float);
          ("supports_gpt_metadata", VBool true);
          ("fallback_systems", VBool false) ], Sample.world5).
Proof.
  assert (Hs : Forall (fun d => stamped d = true) (gallery_items Sample.world5))
    by (repeat constructor).
  split; [reflexivity|]. split; [exact Hs|].
  rewrite (get_system_status_report Sample.mgr Sample.world5 eq_refl Hs).
  vm_compute. reflexivity.
Defined.
